(** * PaySentry x402 adapter: circuit breaker, transaction mapper, lifecycle
    orchestration.

    A shallow embedding of [circuit-breaker.ts], [transaction-mapper.ts] and
    [adapter.ts] of the [@paysentry/x402] package, with the properties the
    design document states about them.

    Conventions.
    - JavaScript numbers that hold counters and millisecond clocks are [Z];
      payment amounts are binary64 floats ([PrimFloat.float]).
    - Strings are Rocq strings (sequences of bytes); [toLowerCase] folds the
      ASCII letters A-Z only.
    - A thrown exception is an explicit [Threw] outcome; the process state
      (breaker map, context map, engines, clock) is one record [World]
      threaded through a state-and-exception monad [M].
    - Logger calls have no effect on the state and are left out; so are
      [withLifecycleHooks], which only registers the six handlers on a
      server, [enrichPaymentRequiredResponse] and [getSessionId]. *)

From Stdlib Require Import ZArith String Ascii List Bool Lia.
From Stdlib Require Import Floats.PrimFloat.
From stdpp Require Import gmap strings pretty.

Open Scope string_scope.
Open Scope list_scope.
Open Scope Z_scope.

(* ===================================================================== *)
(** * JavaScript values, exceptions and string helpers *)
(* ===================================================================== *)

Module Js.

(** A value of static type [unknown] read from an index signature. *)
Inductive JsVal :=
| JUndefined
| JNull
| JBool (b : bool)
| JNumber (z : Z)
| JString (s : string).

(** What a [throw] can carry.  [CircuitBreakerOpenError] extends [Error];
    [NonError] is any value that is not an [Error] instance, kept as the
    text [String(error)] renders. *)
Inductive Thrown :=
| JsError (message : string)
| CircuitBreakerOpenError (breakerKey : string) (remainingMs : Z)
| NonError (rendered : string).

Inductive Outcome (A : Type) :=
| Returned (a : A)
| Threw (e : Thrown).
Arguments Returned {A} a.
Arguments Threw {A} e.

(** [c.toLowerCase()] on one ASCII character. *)
Definition lower_ascii (c : ascii) : ascii :=
  let n := nat_of_ascii c in
  if ((65 <=? n)%nat && (n <=? 90)%nat)%bool then ascii_of_nat (n + 32) else c.

Fixpoint toLowerCase (s : string) : string :=
  match s with
  | EmptyString => EmptyString
  | String c r => String (lower_ascii c) (toLowerCase r)
  end.

(** [hay.includes(needle)]: does [needle] occur as a contiguous substring. *)
Fixpoint includes (hay needle : string) : bool :=
  if String.prefix needle hay then true
  else match hay with
       | EmptyString => false
       | String _ r => includes r needle
       end.

(** Truthiness of a string: only the empty string is falsy. *)
Definition truthy (s : string) : bool :=
  match s with EmptyString => false | _ => true end.

(** The double-quote character, used by message templates. *)
Definition dquote : string := String (ascii_of_nat 34) EmptyString.

End Js.
Export Js.

(* ===================================================================== *)
(** * types.ts *)
(* ===================================================================== *)

(** [CircuitBreakerState] *)
Inductive CircuitBreakerState := closed | open | half_open.

Definition CircuitBreakerState_eqb (a b : CircuitBreakerState) : bool :=
  match a, b with
  | closed, closed | open, open | half_open, half_open => true
  | _, _ => false
  end.

Record CircuitBreakerConfig := {
  failureThreshold : Z;
  recoveryTimeoutMs : Z;
  halfOpenMaxRequests : Z;
}.

(** [Partial<CircuitBreakerConfig>] *)
Record PartialCircuitBreakerConfig := {
  failureThreshold_opt : option Z;
  recoveryTimeoutMs_opt : option Z;
  halfOpenMaxRequests_opt : option Z;
}.

(** [interface BreakerState] of circuit-breaker.ts *)
Record BreakerState := {
  state : CircuitBreakerState;
  failureCount : Z;
  successCount : Z;
  lastFailureTime : Z;
  halfOpenRequests : Z;
}.

(** [X402PaymentPayload].  The declared fields the mapper reads with [??]
    are optional here; [payer] and [from] come from the index signature. *)
Record X402PaymentPayload := {
  x402Version : Z;
  p_scheme : option string;
  p_network : option string;
  p_payload : string;
  p_resource : option string;
  payer : JsVal;
  from : JsVal;
}.

(** [X402PaymentRequirements].  Fields the mapper guards with [!], [?.] or
    [??] are optional. *)
Record X402PaymentRequirements := {
  scheme : option string;
  network : option string;
  maxAmountRequired : option string;
  resource : option string;
  description : option string;
  payTo : option string;
}.

Record X402VerifyResponse := {
  isValid : bool;
  invalidReason : option string;
  v_payer : option string;
}.

Record X402SettleResponse := {
  success : bool;
  txHash : option string;
  s_network : option string;
}.

(** An optional property that an object spread can tell apart from a
    missing one: [None] is a key the object does not have, [Some None] a key
    it has with the value [undefined], [Some (Some a)] a key holding [a]. *)
Definition OwnKey (A : Type) : Type := option (option A).

(** [obj.key]: a missing key reads as [undefined]. *)
Definition readKey {A} (k : OwnKey A) : option A :=
  match k with
  | Some value => value
  | None => None
  end.

(** [X402PaySentryConfig].  [resolveAgentId] is modelled by its result: the
    agent id it resolves to, or the exception it (or its promise) raises.
    [defaultCurrency] and [abortOnPolicyDeny] are the two keys the adapter's
    constructor spreads over its defaults, so for them a key set to
    [undefined] is kept apart from a missing key; the other keys are only
    ever read, where the two cases agree. *)
Record X402PaySentryConfig := {
  defaultAgentId : option string;
  defaultCurrency : OwnKey string;
  circuitBreaker : option PartialCircuitBreakerConfig;
  resolveAgentId : option (string -> Outcome string);
  abortOnPolicyDeny : OwnKey bool;
  failOpen : option bool;
}.

(* ===================================================================== *)
(** * @paysentry/core, control, observe, protect: the engines' data *)
(* ===================================================================== *)

Inductive TransactionStatus := pending | completed | rejected | failed.

Record TxMetadata := {
  md_x402Version : Z;
  md_scheme : option string;
  md_network : option string;
  md_resource : option string;
  md_maxAmountRequired : option string;
}.

(** [AgentTransaction].  Timestamps are the clock reading in milliseconds
    (the source stores its ISO rendering). *)
Record AgentTransaction := {
  tx_id : string;
  agentId : string;
  recipient : string;
  amount : float;
  currency : string;
  purpose : string;
  protocol : string;
  status : TransactionStatus;
  createdAt : Z;
  updatedAt : Z;
  protocolTxId : option string;
  metadata : TxMetadata;
}.

Inductive PolicyAction := allow | deny | require_approval | flag.

(** [PolicyEvaluation]; the open [details] bag is left out. *)
Record PolicyEvaluation := {
  action : PolicyAction;
  allowed : bool;
  reason : string;
}.

Inductive ProvenanceStage := intent | policy_check | execution | settlement.
Inductive ProvenanceOutcome := pass | fail.

(** The metadata object each call site hands to the provenance recorder. *)
Inductive ProvenanceDetails :=
| IntentDetails (source : string) (res : option string)
| PolicyCheckDetails (act : PolicyAction) (why : string)
| ExecutionDetails (stage : string) (valid : bool)
    (invalid : option string) (who : option string)
| ExecutionErrorDetails (stage : string) (error : string)
| SettlementDetails (hash : option string) (net : option string)
| SettlementReasonDetails (why : string)
| SettlementResponseDetails (resp : X402SettleResponse)
| SettlementErrorDetails (error : string) (retryable : bool).

Record ProvenanceRecord := {
  pr_tx : string;
  pr_stage : ProvenanceStage;
  pr_outcome : ProvenanceOutcome;
  pr_details : ProvenanceDetails;
  pr_timestamp : Z;
}.

Record Timestamps := {
  created : Z;
  verified : option Z;
  settled : option Z;
}.

(** [X402TransactionContext] *)
Record X402TransactionContext := {
  transaction : AgentTransaction;
  policyResult : option PolicyEvaluation;
  verifyData : option X402VerifyResponse;
  settleData : option X402SettleResponse;
  timestamps : Timestamps;
}.

(** One invocation of the wrapped facilitator client. *)
Inductive FacilitatorCall :=
| VerifyCall (p : X402PaymentPayload) (r : X402PaymentRequirements)
| SettleCall (p : X402PaymentPayload) (r : X402PaymentRequirements).

(* ===================================================================== *)
(** * The process state and its monad *)
(* ===================================================================== *)

(** Everything the adapter and its engines keep between calls.
    - [clock] is what [Date.now()] reads;
    - [nextTxId] is the id supply of [createTransaction];
    - [breakers] is [CircuitBreaker.breakers], [contexts] is
      [PaySentryX402Adapter.contexts];
    - [provenance] is the audit trail of [engines.provenance], [None] when
      that optional engine is not configured; likewise [alerts];
    - [tracker] is the SpendTracker store, [policySpend] the transactions
      handed to [PolicyEngine.recordTransaction];
    - [calls] lists, in order, every invocation of the wrapped facilitator
      client. *)
Record World := {
  clock : Z;
  nextTxId : N;
  breakers : gmap string BreakerState;
  contexts : gmap string X402TransactionContext;
  provenance : option (list ProvenanceRecord);
  tracker : gmap string AgentTransaction;
  policySpend : list AgentTransaction;
  alerts : option (list AgentTransaction);
  calls : list FacilitatorCall;
}.

Definition set_breakers (f : gmap string BreakerState -> gmap string BreakerState)
    (w : World) : World :=
  {| clock := clock w; nextTxId := nextTxId w; breakers := f (breakers w);
     contexts := contexts w; provenance := provenance w; tracker := tracker w;
     policySpend := policySpend w; alerts := alerts w; calls := calls w |}.

Definition set_contexts
    (f : gmap string X402TransactionContext -> gmap string X402TransactionContext)
    (w : World) : World :=
  {| clock := clock w; nextTxId := nextTxId w; breakers := breakers w;
     contexts := f (contexts w); provenance := provenance w; tracker := tracker w;
     policySpend := policySpend w; alerts := alerts w; calls := calls w |}.

Definition set_provenance
    (f : option (list ProvenanceRecord) -> option (list ProvenanceRecord))
    (w : World) : World :=
  {| clock := clock w; nextTxId := nextTxId w; breakers := breakers w;
     contexts := contexts w; provenance := f (provenance w); tracker := tracker w;
     policySpend := policySpend w; alerts := alerts w; calls := calls w |}.

Definition set_tracker
    (f : gmap string AgentTransaction -> gmap string AgentTransaction)
    (w : World) : World :=
  {| clock := clock w; nextTxId := nextTxId w; breakers := breakers w;
     contexts := contexts w; provenance := provenance w; tracker := f (tracker w);
     policySpend := policySpend w; alerts := alerts w; calls := calls w |}.

Definition set_policySpend (f : list AgentTransaction -> list AgentTransaction)
    (w : World) : World :=
  {| clock := clock w; nextTxId := nextTxId w; breakers := breakers w;
     contexts := contexts w; provenance := provenance w; tracker := tracker w;
     policySpend := f (policySpend w); alerts := alerts w; calls := calls w |}.

Definition set_alerts
    (f : option (list AgentTransaction) -> option (list AgentTransaction))
    (w : World) : World :=
  {| clock := clock w; nextTxId := nextTxId w; breakers := breakers w;
     contexts := contexts w; provenance := provenance w; tracker := tracker w;
     policySpend := policySpend w; alerts := f (alerts w); calls := calls w |}.

Definition set_calls (f : list FacilitatorCall -> list FacilitatorCall)
    (w : World) : World :=
  {| clock := clock w; nextTxId := nextTxId w; breakers := breakers w;
     contexts := contexts w; provenance := provenance w; tracker := tracker w;
     policySpend := policySpend w; alerts := alerts w; calls := f (calls w) |}.

Definition set_nextTxId (f : N -> N) (w : World) : World :=
  {| clock := clock w; nextTxId := f (nextTxId w); breakers := breakers w;
     contexts := contexts w; provenance := provenance w; tracker := tracker w;
     policySpend := policySpend w; alerts := alerts w; calls := calls w |}.

(** A computation that reads and updates the process state and either
    returns or throws.  The state survives a throw, as in JavaScript. *)
Definition M (A : Type) : Type := World -> Outcome A * World.

Definition ret {A} (a : A) : M A := fun w => (Returned a, w).
Definition throw {A} (e : Thrown) : M A := fun w => (Threw e, w).

Definition bind {A B} (m : M A) (k : A -> M B) : M B := fun w =>
  match m w with
  | (Returned a, w') => k a w'
  | (Threw e, w') => (Threw e, w')
  end.

(** [try { body } catch (error) { handler(error) }] *)
Definition tryCatch {A} (body : M A) (handler : Thrown -> M A) : M A := fun w =>
  match body w with
  | (Returned a, w') => (Returned a, w')
  | (Threw e, w') => handler e w'
  end.

Definition gets {A} (f : World -> A) : M A := fun w => (Returned (f w), w).
Definition modify (f : World -> World) : M unit := fun w => (Returned tt, f w).

#[global] Instance M_ret : MRet M := @ret.
#[global] Instance M_bind : MBind M := fun A B k m => bind m k.

(* ===================================================================== *)
(** * circuit-breaker.ts *)
(* ===================================================================== *)

Module CircuitBreaker.

Definition DEFAULT_CONFIG : CircuitBreakerConfig :=
  {| failureThreshold := 5; recoveryTimeoutMs := 30000; halfOpenMaxRequests := 1 |}.

(** The constructor's [{ ...DEFAULT_CONFIG, ...config }], for a partial
    configuration whose keys are missing ([None]) or hold a number. *)
Definition mkConfig (config : option PartialCircuitBreakerConfig) : CircuitBreakerConfig :=
  match config with
  | None => DEFAULT_CONFIG
  | Some c =>
      {| failureThreshold :=
           default (failureThreshold DEFAULT_CONFIG) (failureThreshold_opt c);
         recoveryTimeoutMs :=
           default (recoveryTimeoutMs DEFAULT_CONFIG) (recoveryTimeoutMs_opt c);
         halfOpenMaxRequests :=
           default (halfOpenMaxRequests DEFAULT_CONFIG) (halfOpenMaxRequests_opt c) |}
  end.

Definition set_state (s : CircuitBreakerState) (b : BreakerState) : BreakerState :=
  {| state := s; failureCount := failureCount b; successCount := successCount b;
     lastFailureTime := lastFailureTime b; halfOpenRequests := halfOpenRequests b |}.

Definition set_failureCount (n : Z) (b : BreakerState) : BreakerState :=
  {| state := state b; failureCount := n; successCount := successCount b;
     lastFailureTime := lastFailureTime b; halfOpenRequests := halfOpenRequests b |}.

Definition set_successCount (n : Z) (b : BreakerState) : BreakerState :=
  {| state := state b; failureCount := failureCount b; successCount := n;
     lastFailureTime := lastFailureTime b; halfOpenRequests := halfOpenRequests b |}.

Definition set_lastFailureTime (t : Z) (b : BreakerState) : BreakerState :=
  {| state := state b; failureCount := failureCount b; successCount := successCount b;
     lastFailureTime := t; halfOpenRequests := halfOpenRequests b |}.

Definition set_halfOpenRequests (n : Z) (b : BreakerState) : BreakerState :=
  {| state := state b; failureCount := failureCount b; successCount := successCount b;
     lastFailureTime := lastFailureTime b; halfOpenRequests := n |}.

(** The breaker [getOrCreate] makes for a key it has not seen. *)
Definition fresh : BreakerState :=
  {| state := closed; failureCount := 0; successCount := 0;
     lastFailureTime := 0; halfOpenRequests := 0 |}.

Definition getOrCreate (key : string) (bs : gmap string BreakerState)
    : BreakerState * gmap string BreakerState :=
  match bs !! key with
  | Some breaker => (breaker, bs)
  | None => (fresh, <[key := fresh]> bs)
  end.

Definition transitionTo (breaker : BreakerState) (newState : CircuitBreakerState)
    : BreakerState :=
  if CircuitBreakerState_eqb (state breaker) newState then breaker
  else set_state newState breaker.

Definition onSuccess (breaker : BreakerState) : BreakerState :=
  let breaker :=
    match state breaker with
    | half_open =>
        set_halfOpenRequests 0 (set_failureCount 0 (transitionTo breaker closed))
    | _ => breaker
    end in
  set_successCount (successCount breaker + 1) breaker.

Definition onFailure (cfg : CircuitBreakerConfig) (now : Z) (breaker : BreakerState)
    : BreakerState :=
  let breaker := set_failureCount (failureCount breaker + 1) breaker in
  let breaker := set_lastFailureTime now breaker in
  match state breaker with
  | half_open => set_halfOpenRequests 0 (transitionTo breaker open)
  | closed =>
      if failureThreshold cfg <=? failureCount breaker
      then transitionTo breaker open
      else breaker
  | open => breaker
  end.

(** The part of [execute] that runs before [fn] is called: the lazy
    open -> half-open transition and the half-open admission limit.  It
    returns the breaker as it leaves it and, when the call is rejection, the
    error [execute] throws. *)
Definition admission (cfg : CircuitBreakerConfig) (now : Z) (key : string)
    (breaker : BreakerState) : BreakerState * option Thrown :=
  let '(breaker, rejection) :=
    match state breaker with
    | open =>
        let elapsed := now - lastFailureTime breaker in
        if recoveryTimeoutMs cfg <=? elapsed
        then (transitionTo breaker half_open, None)
        else
          let remainingMs := recoveryTimeoutMs cfg - elapsed in
          (breaker, Some (CircuitBreakerOpenError key remainingMs))
    | _ => (breaker, None)
    end in
  match rejection with
  | Some e => (breaker, Some e)
  | None =>
      match state breaker with
      | half_open =>
          if halfOpenMaxRequests cfg <=? halfOpenRequests breaker
          then (breaker, Some (CircuitBreakerOpenError key 0))
          else (set_halfOpenRequests (halfOpenRequests breaker + 1) breaker, None)
      | _ => (breaker, None)
      end
  end.

(** Apply [f] to the breaker object [execute] holds for [key].  The object
    is the one stored in the map: entries are created once by [getOrCreate]
    and never replaced or removed. *)
Definition update (key : string) (f : BreakerState -> BreakerState) (w : World) : World :=
  set_breakers (fun bs => let '(b, bs) := getOrCreate key bs in <[key := f b]> bs) w.

(** [execute(key, fn)].  [fn] stands for everything that happens between the
    call [fn()] and the resumption after [await]: the wrapped function's own
    effects and whatever other tasks run meanwhile. *)
Definition execute {T} (cfg : CircuitBreakerConfig) (key : string) (fn : M T) : M T :=
  fun w =>
    let '(breaker, bs) := getOrCreate key (breakers w) in
    let '(breaker, rejection) := admission cfg (clock w) key breaker in
    let w := set_breakers (fun _ => <[key := breaker]> bs) w in
    match rejection with
    | Some e => (Threw e, w)
    | None =>
        match fn w with
        | (Returned result, w) => (Returned result, update key onSuccess w)
        | (Threw error, w) => (Threw error, update key (onFailure cfg (clock w)) w)
        end
    end.

(** [getState(key)] *)
Definition getState (cfg : CircuitBreakerConfig) (key : string) (w : World)
    : CircuitBreakerState :=
  match breakers w !! key with
  | None => closed
  | Some breaker =>
      match state breaker with
      | open =>
          if recoveryTimeoutMs cfg <=? clock w - lastFailureTime breaker
          then half_open else open
      | s => s
      end
  end.

(** [reset(key)] *)
Definition reset (key : string) (w : World) : World :=
  match breakers w !! key with
  | Some breaker =>
      let breaker := transitionTo breaker closed in
      let breaker := set_failureCount 0 breaker in
      let breaker := set_successCount 0 breaker in
      let breaker := set_halfOpenRequests 0 breaker in
      set_breakers (fun bs => <[key := breaker]> bs) w
  | None => w
  end.

End CircuitBreaker.

(* ===================================================================== *)
(** * transaction-mapper.ts *)
(* ===================================================================== *)

(** What the mapper hands to [createTransaction]. *)
Record TransactionInput := {
  in_agentId : string;
  in_recipient : string;
  in_amount : float;
  in_currency : string;
  in_purpose : string;
  in_protocol : string;
  in_metadata : TxMetadata;
}.

(** Modelled from the spec: [createTransaction] of [@paysentry/core] is not
    among the sources.  The design document gives a Transaction an opaque
    unique [id] assigned at creation and never reused, the status [pending]
    at creation, and creation/update timestamps; the factory below draws the
    id from a counter and stamps the clock. *)
Definition createTransaction (input : TransactionInput) : M AgentTransaction :=
  fun w =>
    let tx :=
      {| tx_id := "tx_" +:+ pretty (nextTxId w);
         agentId := in_agentId input;
         recipient := in_recipient input;
         amount := in_amount input;
         currency := in_currency input;
         purpose := in_purpose input;
         protocol := in_protocol input;
         status := pending;
         createdAt := clock w;
         updatedAt := clock w;
         protocolTxId := None;
         metadata := in_metadata input |} in
    (Returned tx, set_nextTxId N.succ w).

Module TransactionMapper.

(** [typeof v === 'string' && v] *)
Definition nonEmptyString (v : JsVal) : option string :=
  match v with
  | JString s => if truthy s then Some s else None
  | _ => None
  end.

Definition extractPayerAddress (payload : X402PaymentPayload) : option string :=
  match nonEmptyString (payer payload) with
  | Some address => Some address
  | None =>
      match nonEmptyString (from payload) with
      | Some address => Some address
      | None => None
      end
  end.

Definition extractAgent (payload : X402PaymentPayload) (config : X402PaySentryConfig)
    : string :=
  let payerAddress := extractPayerAddress payload in
  match payerAddress, resolveAgentId config with
  | Some address, Some resolve =>
      match resolve address with
      | Returned agent => agent
      | Threw _ => address
      end
  | Some address, None => address
  | None, _ => default "unknown-agent" (defaultAgentId config)
  end.

Definition inferDecimals (scheme : option string) : Z :=
  let normalized := default "" (toLowerCase <$> scheme) in
  if includes normalized "eth" || includes normalized "ether" then 18 else 6.

Definition inferCurrency (scheme : option string) : option string :=
  let normalized := default "" (toLowerCase <$> scheme) in
  if includes normalized "usdc" then Some "USDC"
  else if includes normalized "usdt" then Some "USDT"
  else if includes normalized "eth" || includes normalized "ether" then Some "ETH"
  else if includes normalized "dai" then Some "DAI"
  else None.

(** [Math.pow(10, decimals)] for the exponents [inferDecimals] produces.
    Powers of ten up to 10^22 are exact in binary64, so the repeated
    product agrees with the library function there. *)
Fixpoint pow10 (n : nat) : float :=
  match n with
  | O => 1%float
  | S k => PrimFloat.mul 10%float (pow10 k)
  end.

Definition Math_pow10 (decimals : Z) : float := pow10 (Z.to_nat decimals).

Definition extractRecipient (requirements : X402PaymentRequirements) : string :=
  default "unknown-recipient" (payTo requirements).

Definition transactionKey (payload : X402PaymentPayload)
    (requirements : X402PaymentRequirements) : string :=
  let payer := default "unknown" (extractPayerAddress payload) in
  let payTo := default "unknown" (payTo requirements) in
  let amount := default "0" (maxAmountRequired requirements) in
  "x402:" +:+ payer +:+ ":" +:+ payTo +:+ ":" +:+ amount.

Section WithNumber.

(** ECMAScript's [Number(string)] conversion, a builtin of the language
    runtime. *)
Variable Number : string -> float.

Definition extractAmount (requirements : X402PaymentRequirements) : float :=
  match maxAmountRequired requirements with
  | None => PrimFloat.zero
  | Some raw =>
      if negb (truthy raw) then PrimFloat.zero
      else
        let parsed := Number raw in
        if PrimFloat.is_nan parsed then PrimFloat.zero
        else
          let decimals := inferDecimals (scheme requirements) in
          PrimFloat.div parsed (Math_pow10 decimals)
  end.

Definition mapToTransaction (payload : X402PaymentPayload)
    (requirements : X402PaymentRequirements) (config : X402PaySentryConfig)
    : M AgentTransaction :=
  let agentId := extractAgent payload config in
  let amount := extractAmount requirements in
  let recipient := extractRecipient requirements in
  let currency :=
    match readKey (defaultCurrency config) with
    | Some c => c
    | None => default "USDC" (inferCurrency (scheme requirements))
    end in
  createTransaction
    {| in_agentId := agentId;
       in_recipient := recipient;
       in_amount := amount;
       in_currency := currency;
       in_purpose :=
         default ("x402 payment to " +:+ recipient) (description requirements);
       in_protocol := "x402";
       in_metadata :=
         {| md_x402Version := x402Version payload;
            md_scheme :=
              match p_scheme payload with
              | Some s => Some s
              | None => scheme requirements
              end;
            md_network :=
              match p_network payload with
              | Some n => Some n
              | None => network requirements
              end;
            md_resource :=
              match p_resource payload with
              | Some r => Some r
              | None => resource requirements
              end;
            md_maxAmountRequired := maxAmountRequired requirements |} |}.

End WithNumber.

End TransactionMapper.

(* ===================================================================== *)
(** * The engines the adapter orchestrates *)
(* ===================================================================== *)

(** [PolicyEngine.evaluate] belongs to [@paysentry/control], which is not
    among the sources; the adapter is verified for every policy engine.  An
    evaluation reads the process state (ledger, spend counters, clock) and
    returns a decision or throws; it does not change the state. *)
Record PolicyEngine := {
  evaluate : World -> AgentTransaction -> Outcome PolicyEvaluation;
}.

(** The wrapped facilitator client ([X402FacilitatorClient]). *)
Record X402FacilitatorClient := {
  verify : X402PaymentPayload -> X402PaymentRequirements -> M X402VerifyResponse;
  settle : X402PaymentPayload -> X402PaymentRequirements -> M X402SettleResponse;
}.

Module Engines.

(** Modelled from the spec: [TransactionProvenance] of [@paysentry/protect]
    is not among the sources.  The design document makes the trail an
    append-only, ordered list of [{stage, outcome, metadata, timestamp}]
    entries per transaction id; an entry is appended at the end, and the
    call does nothing when the optional engine is absent ([provenance?.]). *)
Definition recordEntry (stage : ProvenanceStage) (txId : string)
    (outcome : ProvenanceOutcome) (details : ProvenanceDetails) : M unit :=
  fun w =>
    let entry :=
      {| pr_tx := txId; pr_stage := stage; pr_outcome := outcome;
         pr_details := details; pr_timestamp := clock w |} in
    (Returned tt, set_provenance (fmap (fun log => log ++ [entry])) w).

Definition recordIntent (tx : AgentTransaction) (details : ProvenanceDetails) : M unit :=
  recordEntry intent (tx_id tx) pass details.
Definition recordPolicyCheck := recordEntry policy_check.
Definition recordExecution := recordEntry execution.
Definition recordSettlement := recordEntry settlement.

(** Modelled from the spec: [SpendTracker.record] inserts or overwrites by
    id and never rejects. *)
Definition trackerRecord (tx : AgentTransaction) : M unit :=
  modify (set_tracker (fun store => <[tx_id tx := tx]> store)).

(** Modelled from the spec: [PolicyEngine.recordTransaction] makes the
    transaction eligible for later budget sums. *)
Definition recordTransaction (tx : AgentTransaction) : M unit :=
  modify (set_policySpend (fun recorded => recorded ++ [tx])).

(** [if (spendAlerts) spendAlerts.evaluate(tx).catch(...)]: started and not
    awaited; a failure is logged only. *)
Definition alertsEvaluate (tx : AgentTransaction) : M unit :=
  modify (set_alerts (fmap (fun seen => seen ++ [tx]))).

Definition policyEvaluate (engine : PolicyEngine) (tx : AgentTransaction)
    : M PolicyEvaluation :=
  fun w => (evaluate engine w tx, w).

(** [() => client.verify(...)] and [() => client.settle(...)]: the call is
    entered in [calls], then the client runs. *)
Definition invoke {T} (call : FacilitatorCall) (run : M T) : M T :=
  modify (set_calls (fun trace => trace ++ [call]));; run.

End Engines.

(* ===================================================================== *)
(** * adapter.ts *)
(* ===================================================================== *)

Record HookResult := {
  abort : bool;
  abortReason : string;
}.

(** The fields of a [PaySentryX402Adapter] instance ([engines.policyEngine],
    [config]); the stateful engines and the maps live in [World]. *)
Record PaySentryX402Adapter := {
  policyEngine : PolicyEngine;
  config : X402PaySentryConfig;
}.

Module Adapter.
Import Engines.

(** The constructor:
    [{ abortOnPolicyDeny: true, defaultCurrency: 'USDC', ...config }].
    The spread copies every key [config] has, so a default survives only
    where the key is missing; a key present with [undefined] overwrites
    it. *)
Definition new (engine : PolicyEngine) (cfg : X402PaySentryConfig)
    : PaySentryX402Adapter :=
  {| policyEngine := engine;
     config :=
       {| defaultAgentId := defaultAgentId cfg;
          defaultCurrency :=
            match defaultCurrency cfg with
            | Some own => Some own
            | None => Some (Some "USDC")
            end;
          circuitBreaker := circuitBreaker cfg;
          resolveAgentId := resolveAgentId cfg;
          abortOnPolicyDeny :=
            match abortOnPolicyDeny cfg with
            | Some own => Some own
            | None => Some (Some true)
            end;
          failOpen := failOpen cfg |} |}.

(** [self.config.abortOnPolicyDeny] as a condition: [undefined] is falsy. *)
Definition abortOnDeny (self : PaySentryX402Adapter) : bool :=
  default false (readKey (abortOnPolicyDeny (config self))).

Definition breakerConfig (self : PaySentryX402Adapter) : CircuitBreakerConfig :=
  CircuitBreaker.mkConfig (circuitBreaker (config self)).

(** [error instanceof Error] *)
Definition instanceofError (error : Thrown) : bool :=
  match error with
  | NonError _ => false
  | _ => true
  end.

(** [error.message] for an [Error], [String(error)] otherwise. *)
Definition errorMessage (error : Thrown) : string :=
  match error with
  | JsError message => message
  | CircuitBreakerOpenError key remainingMs =>
      "Circuit breaker open for " +:+ dquote +:+ key +:+ dquote +:+ " — "
        +:+ pretty remainingMs +:+ "ms until recovery"
  | NonError rendered => rendered
  end.

Definition classifyRetryability (error : Thrown) : bool :=
  if negb (instanceofError error) then false
  else
    let msg := toLowerCase (errorMessage error) in
    if includes msg "timeout" || includes msg "econnreset" || includes msg "econnrefused"
    then true
    else if includes msg "network" || includes msg "socket" || includes msg "dns"
    then true
    else if includes msg "503" || includes msg "502" || includes msg "429"
    then true
    else if includes msg "401" || includes msg "403" || includes msg "invalid"
    then false
    else if includes msg "insufficient" || includes msg "denied"
    then false
    else false.

Definition set_status (s : TransactionStatus) (now : Z) (settlementRef : option string)
    (tx : AgentTransaction) : AgentTransaction :=
  {| tx_id := tx_id tx; agentId := agentId tx; recipient := recipient tx;
     amount := amount tx; currency := currency tx; purpose := purpose tx;
     protocol := protocol tx; status := s; createdAt := createdAt tx;
     updatedAt := now; protocolTxId := settlementRef; metadata := metadata tx |}.

Definition freshContext (tx : AgentTransaction) : X402TransactionContext :=
  {| transaction := tx; policyResult := None; verifyData := None; settleData := None;
     timestamps := {| created := createdAt tx; verified := None; settled := None |} |}.

Definition set_transaction (tx : AgentTransaction) (ctx : X402TransactionContext)
    : X402TransactionContext :=
  {| transaction := tx; policyResult := policyResult ctx; verifyData := verifyData ctx;
     settleData := settleData ctx; timestamps := timestamps ctx |}.

Definition set_verified (resp : X402VerifyResponse) (now : Z)
    (ctx : X402TransactionContext) : X402TransactionContext :=
  {| transaction := transaction ctx; policyResult := policyResult ctx;
     verifyData := Some resp; settleData := settleData ctx;
     timestamps := {| created := created (timestamps ctx); verified := Some now;
                      settled := settled (timestamps ctx) |} |}.

Definition set_settled (resp : X402SettleResponse) (now : Z)
    (ctx : X402TransactionContext) : X402TransactionContext :=
  {| transaction := transaction ctx; policyResult := policyResult ctx;
     verifyData := verifyData ctx; settleData := Some resp;
     timestamps := {| created := created (timestamps ctx);
                      verified := verified (timestamps ctx); settled := Some now |} |}.

Definition policyDetails (result : PolicyEvaluation) : ProvenanceDetails :=
  PolicyCheckDetails (action result) (reason result).

Definition outcomeOf (ok : bool) : ProvenanceOutcome := if ok then pass else fail.

Section WithNumber.

Variable Number : string -> float.

Abbreviation mapToTransaction := (TransactionMapper.mapToTransaction Number).
Abbreviation transactionKey := TransactionMapper.transactionKey.

(** ** wrapFacilitatorClient *)

(** The wrapped client's [verify]. *)
Definition wrapped_verify (self : PaySentryX402Adapter) (client : X402FacilitatorClient)
    (facilitatorKey : string) (paymentPayload : X402PaymentPayload)
    (paymentRequirements : X402PaymentRequirements) : M X402VerifyResponse :=
  tx ← mapToTransaction paymentPayload paymentRequirements (config self);
  let txKey := transactionKey paymentPayload paymentRequirements in
  result ← policyEvaluate (policyEngine self) tx;
  if negb (allowed result) && abortOnDeny self then
    recordPolicyCheck (tx_id tx) fail (policyDetails result);;
    mret {| isValid := false;
            invalidReason := Some ("PaySentry policy denied: " +:+ reason result);
            v_payer := None |}
  else
    recordPolicyCheck (tx_id tx) (outcomeOf (allowed result)) (policyDetails result);;
    verifyResponse ←
      CircuitBreaker.execute (breakerConfig self) facilitatorKey
        (invoke (VerifyCall paymentPayload paymentRequirements)
           (verify client paymentPayload paymentRequirements));
    recordExecution (tx_id tx) (outcomeOf (isValid verifyResponse))
      (ExecutionDetails "verify" (isValid verifyResponse)
         (invalidReason verifyResponse) (v_payer verifyResponse));;
    now ← gets clock;
    modify (set_contexts (fun m =>
      <[txKey := {| transaction := tx; policyResult := Some result;
                    verifyData := Some verifyResponse; settleData := None;
                    timestamps := {| created := createdAt tx; verified := Some now;
                                     settled := None |} |}]> m));;
    mret verifyResponse.

(** The wrapped client's [settle].  The transaction object is shared with
    the context, so the status written after the call shows in the context
    that is stored back. *)
Definition wrapped_settle (self : PaySentryX402Adapter) (client : X402FacilitatorClient)
    (facilitatorKey : string) (paymentPayload : X402PaymentPayload)
    (paymentRequirements : X402PaymentRequirements) : M X402SettleResponse :=
  let txKey := transactionKey paymentPayload paymentRequirements in
  stored ← gets (fun w => contexts w !! txKey);
  ctx ← match stored with
        | Some ctx => mret ctx
        | None =>
            tx ← mapToTransaction paymentPayload paymentRequirements (config self);
            mret (freshContext tx)
        end;
  let tx := transaction ctx in
  result ← policyEvaluate (policyEngine self) tx;
  if negb (allowed result) && abortOnDeny self then
    recordSettlement (tx_id tx) fail
      (SettlementReasonDetails ("Policy denied at settlement: " +:+ reason result));;
    mret {| success := false; txHash := None; s_network := None |}
  else
    settleResponse ←
      CircuitBreaker.execute (breakerConfig self) facilitatorKey
        (invoke (SettleCall paymentPayload paymentRequirements)
           (settle client paymentPayload paymentRequirements));
    now ← gets clock;
    tx ← (if success settleResponse then
            let tx := set_status completed now (txHash settleResponse) tx in
            trackerRecord tx;;
            recordTransaction tx;;
            recordSettlement (tx_id tx) pass
              (SettlementDetails (txHash settleResponse) (s_network settleResponse));;
            alertsEvaluate tx;;
            mret tx
          else
            let tx := set_status failed now (protocolTxId tx) tx in
            trackerRecord tx;;
            recordSettlement (tx_id tx) fail (SettlementResponseDetails settleResponse);;
            mret tx);
    now ← gets clock;
    modify (set_contexts (fun m =>
      <[txKey := set_settled settleResponse now (set_transaction tx ctx)]> m));;
    mret settleResponse.

Definition wrapFacilitatorClient (self : PaySentryX402Adapter)
    (client : X402FacilitatorClient) (facilitatorKey : string) : X402FacilitatorClient :=
  {| verify := wrapped_verify self client facilitatorKey;
     settle := wrapped_settle self client facilitatorKey |}.

(** ** Lifecycle hook handlers *)

Definition handleBeforeVerify (self : PaySentryX402Adapter)
    (paymentPayload : X402PaymentPayload)
    (paymentRequirements : X402PaymentRequirements) : M (option HookResult) :=
  tryCatch
    (tx ← mapToTransaction paymentPayload paymentRequirements (config self);
     let txKey := transactionKey paymentPayload paymentRequirements in
     recordIntent tx (IntentDetails "x402-lifecycle" (p_resource paymentPayload));;
     result ← policyEvaluate (policyEngine self) tx;
     recordPolicyCheck (tx_id tx) (outcomeOf (allowed result)) (policyDetails result);;
     modify (set_contexts (fun m =>
       <[txKey := {| transaction := tx; policyResult := Some result;
                     verifyData := None; settleData := None;
                     timestamps := {| created := createdAt tx; verified := None;
                                      settled := None |} |}]> m));;
     if negb (allowed result) && abortOnDeny self then
       mret (Some {| abort := true;
                     abortReason := "PaySentry policy denied: " +:+ reason result |})
     else mret None)
    (fun _ => mret None).

Definition handleAfterVerify (self : PaySentryX402Adapter)
    (paymentPayload : X402PaymentPayload)
    (paymentRequirements : X402PaymentRequirements)
    (verifyResponse : X402VerifyResponse) : M unit :=
  tryCatch
    (let txKey := transactionKey paymentPayload paymentRequirements in
     stored ← gets (fun w => contexts w !! txKey);
     match stored with
     | Some ctx =>
         now ← gets clock;
         modify (set_contexts (fun m => <[txKey := set_verified verifyResponse now ctx]> m));;
         recordExecution (tx_id (transaction ctx)) (outcomeOf (isValid verifyResponse))
           (ExecutionDetails "verify" (isValid verifyResponse)
              (invalidReason verifyResponse) (v_payer verifyResponse))
     | None => mret tt
     end)
    (fun _ => mret tt).

Definition handleVerifyFailure (self : PaySentryX402Adapter)
    (paymentPayload : X402PaymentPayload)
    (paymentRequirements : X402PaymentRequirements) (error : Thrown) : M unit :=
  let txKey := transactionKey paymentPayload paymentRequirements in
  stored ← gets (fun w => contexts w !! txKey);
  match stored with
  | Some ctx =>
      recordExecution (tx_id (transaction ctx)) fail
        (ExecutionErrorDetails "verify" (errorMessage error))
  | None => mret tt
  end.

Definition handleBeforeSettle (self : PaySentryX402Adapter)
    (paymentPayload : X402PaymentPayload)
    (paymentRequirements : X402PaymentRequirements) : M (option HookResult) :=
  tryCatch
    (let txKey := transactionKey paymentPayload paymentRequirements in
     stored ← gets (fun w => contexts w !! txKey);
     match stored with
     | None => mret None
     | Some ctx =>
         result ← policyEvaluate (policyEngine self) (transaction ctx);
         if negb (allowed result) && abortOnDeny self then
           recordSettlement (tx_id (transaction ctx)) fail
             (SettlementReasonDetails
                ("Policy re-check denied at settlement: " +:+ reason result));;
           mret (Some {| abort := true;
                         abortReason :=
                           "PaySentry policy denied at settlement: " +:+ reason result |})
         else mret None
     end)
    (fun _ => mret None).

Definition handleAfterSettle (self : PaySentryX402Adapter)
    (paymentPayload : X402PaymentPayload)
    (paymentRequirements : X402PaymentRequirements)
    (settleResponse : X402SettleResponse) : M unit :=
  tryCatch
    (let txKey := transactionKey paymentPayload paymentRequirements in
     stored ← gets (fun w => contexts w !! txKey);
     ctx ← match stored with
           | Some ctx => mret ctx
           | None =>
               tx ← mapToTransaction paymentPayload paymentRequirements (config self);
               mret (freshContext tx)
           end;
     now ← gets clock;
     let tx :=
       if success settleResponse
       then set_status completed now (txHash settleResponse) (transaction ctx)
       else set_status failed now (protocolTxId (transaction ctx)) (transaction ctx) in
     trackerRecord tx;;
     (if success settleResponse then recordTransaction tx else mret tt);;
     recordSettlement (tx_id tx) (outcomeOf (success settleResponse))
       (SettlementDetails (txHash settleResponse) (s_network settleResponse));;
     alertsEvaluate tx;;
     now ← gets clock;
     modify (set_contexts (fun m =>
       <[txKey := set_settled settleResponse now (set_transaction tx ctx)]> m)))
    (fun _ => mret tt).

(** [handleSettleFailure].  The status is written into the transaction
    object the stored context refers to, so the context changes with it. *)
Definition handleSettleFailure (self : PaySentryX402Adapter)
    (paymentPayload : X402PaymentPayload)
    (paymentRequirements : X402PaymentRequirements) (error : Thrown) : M unit :=
  let txKey := transactionKey paymentPayload paymentRequirements in
  stored ← gets (fun w => contexts w !! txKey);
  let message := errorMessage error in
  let retryable := classifyRetryability error in
  match stored with
  | Some ctx =>
      now ← gets clock;
      let tx := set_status failed now (protocolTxId (transaction ctx)) (transaction ctx) in
      modify (set_contexts (fun m => <[txKey := set_transaction tx ctx]> m));;
      trackerRecord tx;;
      recordSettlement (tx_id tx) fail (SettlementErrorDetails message retryable)
  | None => mret tt
  end.

End WithNumber.

End Adapter.

(* ===================================================================== *)
(** * Runs and sample inputs *)
(* ===================================================================== *)

(** The state of a process that has just constructed its adapter, with the
    optional provenance and alert engines configured. *)
Definition initialWorld : World :=
  {| clock := 0; nextTxId := 0%N; breakers := ∅; contexts := ∅;
     provenance := Some []; tracker := ∅; policySpend := [];
     alerts := Some []; calls := [] |}.

Definition set_clock (now : Z) (w : World) : World :=
  {| clock := now; nextTxId := nextTxId w; breakers := breakers w;
     contexts := contexts w; provenance := provenance w; tracker := tracker w;
     policySpend := policySpend w; alerts := alerts w; calls := calls w |}.

(** The state a call leaves behind, whether it returned or threw. *)
Definition after {A} (m : M A) (w : World) : World := snd (m w).

(** A wrapped function that fails, and one that succeeds. *)
Definition failing : M unit := throw (JsError "facilitator unavailable").
Definition succeeding : M unit := mret tt.

(** A wrapped function that records its own invocation in [calls]. *)
Definition probe : M unit :=
  modify (set_calls (fun trace =>
    trace ++ [VerifyCall
                {| x402Version := 1; p_scheme := None; p_network := None;
                   p_payload := ""; p_resource := None;
                   payer := JUndefined; from := JUndefined |}
                {| scheme := None; network := None; maxAmountRequired := None;
                   resource := None; description := None; payTo := None |}])).

(** Calls that reach [execute] for [key] while the calls before them are
    still in flight.  The wrapped function of each call first records its
    invocation; then the calls after it arrive, each a task of its own, so
    that what one of them throws does not reach this one; only then does it
    complete, returning when its outcome is [true] and throwing when it is
    [false].  The last call to arrive is the first to complete. *)
Fixpoint arrivals (cfg : CircuitBreakerConfig) (key : string) (outcomes : list bool)
    : M unit :=
  match outcomes with
  | [] => mret tt
  | ok :: rest =>
      tryCatch
        (CircuitBreaker.execute cfg key
           (probe;; arrivals cfg key rest;; if ok then succeeding else failing))
        (fun _ => mret tt)
  end.

(** The default configuration with two probes allowed. *)
Definition twoProbesConfig : CircuitBreakerConfig :=
  {| failureThreshold := 5; recoveryTimeoutMs := 30000; halfOpenMaxRequests := 2 |}.

(** A breaker key and a breaker that opened at time 1000 after five
    failures, and one that is half-open with no probe in flight. *)
Definition sampleKey : string := "https://facilitator.example.com".

Definition openBreaker : BreakerState :=
  {| state := open; failureCount := 5; successCount := 0;
     lastFailureTime := 1000; halfOpenRequests := 0 |}.

Definition halfOpenBreaker : BreakerState :=
  {| state := half_open; failureCount := 5; successCount := 0;
     lastFailureTime := 1000; halfOpenRequests := 0 |}.

Definition worldWith (b : BreakerState) (now : Z) : World :=
  set_clock now (set_breakers (fun bs => <[sampleKey := b]> bs) initialWorld).

(** Outside the half-open state no probe is counted. *)
Definition probe_counter_idle (b : BreakerState) : Prop :=
  state b <> half_open -> halfOpenRequests b = 0.

Definition breakers_idle (w : World) : Prop :=
  forall key b, breakers w !! key = Some b -> probe_counter_idle b.

(** "The payer identifier extracted from the payload", the second source of
    the design document's resolution order: the payload's top-level [payer]
    field when it holds a non-empty string, otherwise its [from] field when
    that holds one; no identifier otherwise. *)
Definition payerIdentifier_spec (payload : X402PaymentPayload) : option string :=
  match payer payload, from payload with
  | JString (String c rest), _ => Some (String c rest)
  | _, JString (String c rest) => Some (String c rest)
  | _, _ => None
  end.

(** The agent resolution order as the design document words it: four
    sources in a fixed order, each of which may or may not yield an agent
    id, the first that yields one giving the result.  The custom resolver is
    a function of the payer identifier, so it yields a value when it is
    configured, the payload has a payer identifier, and the resolver
    returns. *)
Definition agentSources_spec (payload : X402PaymentPayload)
    (config : X402PaySentryConfig) : list (option string) :=
  let payerIdentifier := payerIdentifier_spec payload in
  let custom :=
    match resolveAgentId config, payerIdentifier with
    | Some resolve, Some address =>
        match resolve address with
        | Returned agent => Some agent
        | Threw _ => None
        end
    | _, _ => None
    end in
  [custom; payerIdentifier; defaultAgentId config; Some "unknown-agent"].

Fixpoint firstYield_spec (sources : list (option string)) : option string :=
  match sources with
  | [] => None
  | Some agent :: _ => Some agent
  | None :: rest => firstYield_spec rest
  end.

(** "The scheme name contains [word]", letter case aside. *)
Definition schemeContains (scheme : option string) (word : string) : bool :=
  match scheme with
  | Some s => includes (toLowerCase s) word
  | None => false
  end.

(** A stand-in for [Number] on the inputs of the examples: the decimal
    strings used below convert to their value, anything else to [NaN]. *)
Definition sampleNumber (s : string) : float :=
  if String.eqb s "2500000" then 2500000%float
  else if String.eqb s "1000000000000000000" then 1e18%float
  else if String.eqb s "45000000" then 45000000%float
  else PrimFloat.nan.


(** The network-class and the auth/validation/funds-class signals the
    design document names, as [classifyRetryability] looks for them in the
    lower-cased message. *)
Definition networkSignal (msg : string) : bool :=
  includes msg "timeout" || includes msg "econnreset" || includes msg "econnrefused"
  || includes msg "network" || includes msg "socket" || includes msg "dns"
  || includes msg "503" || includes msg "502" || includes msg "429".

Definition authSignal (msg : string) : bool :=
  includes msg "401" || includes msg "403" || includes msg "invalid"
  || includes msg "insufficient" || includes msg "denied".

(** A payment of 45000000 base units (45 USDC) from agent 0xAgent. *)
Definition samplePayload : X402PaymentPayload :=
  {| x402Version := 1; p_scheme := Some "exact"; p_network := Some "base";
     p_payload := "0xsigned"; p_resource := Some "https://api.example.com/data";
     payer := JString "0xAgent"; from := JUndefined |}.

Definition sampleRequirements : X402PaymentRequirements :=
  {| scheme := Some "exact"; network := Some "base";
     maxAmountRequired := Some "45000000";
     resource := Some "https://api.example.com/data";
     description := None; payTo := Some "0xMerchant" |}.

(** The configuration [{}]: every option left to its default. *)
Definition emptyConfig : X402PaySentryConfig :=
  {| defaultAgentId := None; defaultCurrency := None; circuitBreaker := None;
     resolveAgentId := None; abortOnPolicyDeny := None; failOpen := None |}.

(** The same with [failOpen: false] spelled out. *)
Definition failClosedConfig : X402PaySentryConfig :=
  {| defaultAgentId := None; defaultCurrency := None; circuitBreaker := None;
     resolveAgentId := None; abortOnPolicyDeny := Some (Some true); failOpen := Some false |}.

(** Configurations and payloads for the agent resolution order: a resolver
    that maps a wallet address to an agent id, one that fails, a configured
    default agent; a payload that names its payer in [from] only, and one
    that names none ([payer] is an empty string, [from] a number). *)
Definition resolverConfig (resolve : string -> Outcome string) (fallback : option string)
    : X402PaySentryConfig :=
  {| defaultAgentId := fallback; defaultCurrency := None; circuitBreaker := None;
     resolveAgentId := Some resolve; abortOnPolicyDeny := None; failOpen := None |}.

Definition registryResolver (address : string) : Outcome string :=
  Returned ("agent-of-" +:+ address).

Definition failingResolver (address : string) : Outcome string :=
  Threw (JsError "registry unavailable").

Definition defaultAgentConfig (fallback : string) : X402PaySentryConfig :=
  {| defaultAgentId := Some fallback; defaultCurrency := None; circuitBreaker := None;
     resolveAgentId := None; abortOnPolicyDeny := None; failOpen := None |}.

Definition payloadFromField (address : string) : X402PaymentPayload :=
  {| x402Version := 1; p_scheme := None; p_network := None; p_payload := "";
     p_resource := None; payer := JUndefined; from := JString address |}.

Definition anonymousPayload : X402PaymentPayload :=
  {| x402Version := 1; p_scheme := None; p_network := None; p_payload := "";
     p_resource := None; payer := JString ""; from := JNumber 7 |}.


(** A policy engine that denies every transaction. *)
Definition denyAll : PolicyEngine :=
  {| evaluate := fun _ _ =>
       Returned {| action := deny; allowed := false; reason := "Blocked" |} |}.

(** A policy engine that allows every transaction. *)
Definition allowAll : PolicyEngine :=
  {| evaluate := fun _ _ =>
       Returned {| action := allow; allowed := true; reason := "Allowed" |} |}.

(** A policy engine whose evaluation fails with an internal error. *)
Definition brokenEngine (e : Thrown) : PolicyEngine :=
  {| evaluate := fun _ _ => Threw e |}.

(** A facilitator that accepts every payment. *)
Definition acceptingClient : X402FacilitatorClient :=
  {| verify := fun _ _ =>
       mret {| isValid := true; invalidReason := None; v_payer := Some "0xAgent" |};
     settle := fun _ _ =>
       mret {| success := true; txHash := Some "0xabc"; s_network := Some "base" |} |}.


(** Unfold one layer of the monad and of the engine calls. *)
Ltac run :=
  unfold mbind, M_bind, mret, M_ret, bind, ret, throw, tryCatch, gets, modify,
    Engines.policyEvaluate, Engines.recordIntent, Engines.recordPolicyCheck,
    Engines.recordExecution, Engines.recordSettlement, Engines.recordEntry,
    Engines.trackerRecord, Engines.recordTransaction, Engines.alertsEvaluate,
    Engines.invoke in *;
  cbn beta iota in *.

(* ===================================================================== *)
(** * circuit-breaker.ts: administration and snapshots *)
(* ===================================================================== *)

Module BreakerAdmin.
Import CircuitBreaker.

(** What [reset] does to the breaker it finds. *)
Definition cleared (breaker : BreakerState) : BreakerState :=
  set_halfOpenRequests 0
    (set_successCount 0 (set_failureCount 0 (transitionTo breaker closed))).

(** [resetAll()]: [reset] for every key of the map, in iteration order. *)
Definition resetAll (w : World) : World :=
  fold_left (fun (w : World) (key : string) => reset key w)
    (map_to_list (breakers w)).*1 w.

(** [getSnapshot()]: for every key, the state [getState] projects and the
    stored [failureCount]. *)
Definition getSnapshot (cfg : CircuitBreakerConfig) (w : World)
    : gmap string (CircuitBreakerState * Z) :=
  map_imap (fun key breaker => Some (getState cfg key w, failureCount breaker))
    (breakers w).

End BreakerAdmin.

(** Calls made one after the other through the breaker of [key]; [true]
    stands for a wrapped function that returns, [false] for one that
    throws.  The state each call leaves is the state the next one finds. *)
Definition runCalls (cfg : CircuitBreakerConfig) (key : string)
    (outcomes : list bool) (w : World) : World :=
  fold_left
    (fun (w : World) (ok : bool) =>
       (CircuitBreaker.execute cfg key (if ok then succeeding else failing) w).2)
    outcomes w.

Fixpoint failuresIn (outcomes : list bool) : Z :=
  match outcomes with
  | [] => 0
  | ok :: rest => (if ok then 0 else 1) + failuresIn rest
  end.

Fixpoint successesIn (outcomes : list bool) : Z :=
  match outcomes with
  | [] => 0
  | ok :: rest => (if ok then 1 else 0) + successesIn rest
  end.

(** The shape every breaker keeps: counters are not negative, a closed
    breaker holds fewer failures than the threshold, probes are counted
    only while half-open and never beyond the limit. *)
Definition breaker_ok (cfg : CircuitBreakerConfig) (b : BreakerState) : Prop :=
  0 <= failureCount b
  /\ 0 <= successCount b
  /\ 0 <= halfOpenRequests b <= halfOpenMaxRequests cfg
  /\ (state b = closed -> failureCount b < failureThreshold cfg)
  /\ (state b <> half_open -> halfOpenRequests b = 0).

Definition breakers_ok (cfg : CircuitBreakerConfig) (w : World) : Prop :=
  forall key b, breakers w !! key = Some b -> breaker_ok cfg b.

(** A wrapped function that leaves the breaker map alone. *)
Definition keeps_breakers {T} (fn : M T) : Prop :=
  forall w, breakers (fn w).2 = breakers w.

(** A breaker that was closed 500 ms ago after two failures. *)
Definition closedBreaker : BreakerState :=
  {| state := closed; failureCount := 2; successCount := 7;
     lastFailureTime := 500; halfOpenRequests := 0 |}.


(** A wrapped function during whose run the breaker of [sampleKey] is
    opened by other calls, and that then returns, or throws. *)
Definition trippedMeanwhile (ok : bool) : M unit := fun w =>
  (if ok then Returned tt else Threw (JsError "late failure"),
   set_clock 900 (set_breakers (fun bs => <[sampleKey := openBreaker]> bs) w)).


(** A string with no colon in it. *)
Definition colonFree (s : string) : Prop := includes s ":" = false.

(** The three parts [transactionKey] joins, with the defaults it uses. *)
Definition keyPayer (payload : X402PaymentPayload) : string :=
  default "unknown" (TransactionMapper.extractPayerAddress payload).
Definition keyPayTo (requirements : X402PaymentRequirements) : string :=
  default "unknown" (payTo requirements).
Definition keyAmount (requirements : X402PaymentRequirements) : string :=
  default "0" (maxAmountRequired requirements).

(** Payloads and requirements that differ only in where the colon falls. *)
Definition payloadFrom (address : string) : X402PaymentPayload :=
  {| x402Version := 1; p_scheme := None; p_network := None; p_payload := "";
     p_resource := None; payer := JString address; from := JUndefined |}.
Definition requirementsTo (recipient : string) : X402PaymentRequirements :=
  {| scheme := None; network := None; maxAmountRequired := Some "1";
     resource := None; description := None; payTo := Some recipient |}.


(** The state in which the wrapped [verify] reaches the circuit breaker:
    the transaction is mapped and the policy check is on the trail. *)
Definition checked (w1 : World) (tx : AgentTransaction) (result : PolicyEvaluation)
    : World :=
  (Engines.recordPolicyCheck (tx_id tx) (Adapter.outcomeOf (allowed result))
     (Adapter.policyDetails result) w1).2.

(** The state in which the facilitator runs: the breaker of [fkey] holds
    what the admission left and the call is on the trace. *)
Definition entered (call : FacilitatorCall) (fkey : string) (w2 : World)
    (b' : BreakerState) : World :=
  set_calls (fun trace => trace ++ [call])
    (set_breakers
       (fun _ => <[fkey := b']> (CircuitBreaker.getOrCreate fkey (breakers w2)).2) w2).


(** The configuration [{ abortOnPolicyDeny: false }]. *)
Definition logOnlyConfig : X402PaySentryConfig :=
  {| defaultAgentId := None; defaultCurrency := None; circuitBreaker := None;
     resolveAgentId := None; abortOnPolicyDeny := Some (Some false); failOpen := None |}.

(** [{ defaultCurrency: undefined, abortOnPolicyDeny: undefined }]: both
    keys present, neither holding a value. *)
Definition undefinedKeysConfig : X402PaySentryConfig :=
  {| defaultAgentId := None; defaultCurrency := Some None; circuitBreaker := None;
     resolveAgentId := None; abortOnPolicyDeny := Some None; failOpen := None |}.

(** A facilitator that cannot be reached. *)
Definition unreachableClient : X402FacilitatorClient :=
  {| verify := fun _ _ => throw (JsError "connect ECONNREFUSED");
     settle := fun _ _ => throw (JsError "connect ECONNREFUSED") |}.


(* ===================================================================== *)
(** * adapter.ts: context lookup and response enrichment *)
(* ===================================================================== *)

Module Extension.

(** [getContext(payload, requirements)] *)
Definition getContext (payload : X402PaymentPayload)
    (requirements : X402PaymentRequirements) (w : World)
    : option X402TransactionContext :=
  contexts w !! TransactionMapper.transactionKey payload requirements.

(** The string a [PolicyAction] is in the source. *)
Definition actionName (a : PolicyAction) : string :=
  match a with
  | allow => "allow"
  | deny => "deny"
  | require_approval => "require_approval"
  | flag => "flag"
  end.

(** The [paysentry] object [enrichSettlementResponse] returns. *)
Record SettlementEnrichment := {
  e_sessionId : string;
  e_transactionId : option string;
  e_policyAction : string;
  e_recorded : bool;
  e_timestamps : option Timestamps;
}.

(** [enrichSettlementResponse] of the extension [createExtension] builds;
    [sessionId] is the adapter's [config.sessionId].  The settlement
    response itself is not read. *)
Definition enrichSettlementResponse (sessionId : string)
    (settlementResponse : X402SettleResponse) (paymentPayload : X402PaymentPayload)
    (paymentRequirements : X402PaymentRequirements) (w : World)
    : SettlementEnrichment :=
  let ctx :=
    contexts w !! TransactionMapper.transactionKey paymentPayload paymentRequirements in
  {| e_sessionId := sessionId;
     e_transactionId := (fun c => tx_id (transaction c)) <$> ctx;
     e_policyAction :=
       default "unknown"
         (actionName <$> (action <$> (ctx ≫= policyResult)));
     e_recorded := match ctx with Some _ => true | None => false end;
     e_timestamps := timestamps <$> ctx |}.

End Extension.

(* ===================================================================== *)
(** * examples/mcp-payment-server: configuration from the environment *)
(* ===================================================================== *)

Module McpServer.

Record PolicyConfig := {
  pc_id : string;
  maxPerTransaction : float;
  maxDaily : float;
  maxHourly : float;
  approvalThreshold : float;
  pc_currency : string;
}.

Record AlertConfig := {
  largeTransactionThreshold : float;
  rateSpikeMaxPerMinute : float;
  ac_currency : string;
}.

Record SandboxConfig := {
  latencyMs : float;
  failureRate : float;
  initialBalance : float;
}.

Record ServerConfig := {
  serverName : string;
  serverVersion : string;
  sc_defaultAgentId : string;
  policy : PolicyConfig;
  alertsConfig : AlertConfig;
  sandbox : SandboxConfig;
}.

Definition DEFAULT_CONFIG : ServerConfig :=
  {| serverName := "paysentry-mcp-payment-server";
     serverVersion := "0.1.0";
     sc_defaultAgentId := "mcp-agent";
     policy :=
       {| pc_id := "mcp-default"; maxPerTransaction := 100%float;
          maxDaily := 500%float; maxHourly := 200%float;
          approvalThreshold := 50%float; pc_currency := "USD" |};
     alertsConfig :=
       {| largeTransactionThreshold := 50%float; rateSpikeMaxPerMinute := 5%float;
          ac_currency := "USD" |};
     sandbox :=
       {| latencyMs := 50%float; failureRate := 0%float;
          initialBalance := 10000%float |} |}.

(** A number that is falsy for [||]: NaN, +0 or -0. *)
Definition falsy (x : float) : bool :=
  PrimFloat.is_nan x || PrimFloat.eqb x 0%float.

(** [x || fallback] on numbers. *)
Definition orElse (x fallback : float) : float :=
  if falsy x then fallback else x.

Section WithParseFloat.

(** ECMAScript's [parseFloat], a builtin of the language runtime. *)
Variable parseFloat : string -> float.

(** [loadConfig()]; [env] is [process.env]. *)
Definition loadConfig (env : gmap string string) : ServerConfig :=
  let currency := default (pc_currency (policy DEFAULT_CONFIG))
                    (env !! "PAYSENTRY_CURRENCY") in
  let number (name : string) (fallback : float) : float :=
    orElse (parseFloat (default "" (env !! name))) fallback in
  {| serverName := serverName DEFAULT_CONFIG;
     serverVersion := serverVersion DEFAULT_CONFIG;
     sc_defaultAgentId := sc_defaultAgentId DEFAULT_CONFIG;
     policy :=
       {| pc_id := pc_id (policy DEFAULT_CONFIG);
          maxPerTransaction :=
            number "PAYSENTRY_MAX_PER_TX" (maxPerTransaction (policy DEFAULT_CONFIG));
          maxDaily := number "PAYSENTRY_MAX_DAILY" (maxDaily (policy DEFAULT_CONFIG));
          maxHourly := number "PAYSENTRY_MAX_HOURLY" (maxHourly (policy DEFAULT_CONFIG));
          approvalThreshold :=
            number "PAYSENTRY_APPROVAL_ABOVE" (approvalThreshold (policy DEFAULT_CONFIG));
          pc_currency := currency |};
     alertsConfig :=
       {| largeTransactionThreshold :=
            largeTransactionThreshold (alertsConfig DEFAULT_CONFIG);
          rateSpikeMaxPerMinute := rateSpikeMaxPerMinute (alertsConfig DEFAULT_CONFIG);
          ac_currency := currency |};
     sandbox :=
       {| latencyMs := latencyMs (sandbox DEFAULT_CONFIG);
          failureRate := failureRate (sandbox DEFAULT_CONFIG);
          initialBalance :=
            number "PAYSENTRY_INITIAL_BALANCE" (initialBalance (sandbox DEFAULT_CONFIG)) |} |}.

End WithParseFloat.

End McpServer.

(** A stand-in for [parseFloat] on the inputs of the examples. *)
Definition sampleParseFloat (s : string) : float :=
  if String.eqb s "250" then 250%float
  else if String.eqb s "-5" then (-5)%float
  else if String.eqb s "0" then 0%float
  else PrimFloat.nan.

(** An environment that sets three of the limits and the currency. *)
Definition sampleEnv : gmap string string :=
  <["PAYSENTRY_MAX_PER_TX" := "250"]>
    (<["PAYSENTRY_MAX_DAILY" := "0"]>
       (<["PAYSENTRY_MAX_HOURLY" := "-5"]>
          (<["PAYSENTRY_CURRENCY" := "EUR"]> ∅))).


(* ===================================================================== *)
(** * Properties of the circuit breaker *)
(* ===================================================================== *)

Section CircuitBreakerFacts.
Import CircuitBreaker.

Context (cfg : CircuitBreakerConfig) (key : string).

Lemma getOrCreate_found (bs : gmap string BreakerState) b :
  bs !! key = Some b -> getOrCreate key bs = (b, bs).
Proof. intros H. unfold getOrCreate. now rewrite H. Qed.

Lemma getOrCreate_lookup (bs : gmap string BreakerState) :
  (getOrCreate key bs).2 !! key = Some (getOrCreate key bs).1.
Proof.
  unfold getOrCreate. destruct (bs !! key) eqn:E; simpl; [done|].
  apply lookup_insert_eq.
Qed.

Lemma set_breakers_same b w :
  breakers w !! key = Some b ->
  set_breakers (fun _ => <[key := b]> (breakers w)) w = w.
Proof.
  intros H. destruct w; unfold set_breakers; simpl in *. f_equal.
  now apply insert_id.
Qed.

(** A rejected call throws the error and never runs [fn]. *)
Lemma execute_rejected {T} (fn : M T) w b b' e :
  breakers w !! key = Some b ->
  admission cfg (clock w) key b = (b', Some e) ->
  execute cfg key fn w = (Threw e, set_breakers (fun _ => <[key := b']> (breakers w)) w).
Proof.
  intros Hb Ha. unfold execute. rewrite (getOrCreate_found _ _ Hb), Ha. reflexivity.
Qed.

(** An admitted call runs [fn] on the state [admission] left and then applies
    [onSuccess] or [onFailure] to the breaker. *)
Lemma execute_admitted {T} (fn : M T) w b b' :
  breakers w !! key = Some b ->
  admission cfg (clock w) key b = (b', None) ->
  execute cfg key fn w =
    match fn (set_breakers (fun _ => <[key := b']> (breakers w)) w) with
    | (Returned r, w') => (Returned r, update key onSuccess w')
    | (Threw e, w') => (Threw e, update key (onFailure cfg (clock w')) w')
    end.
Proof.
  intros Hb Ha. unfold execute. rewrite (getOrCreate_found _ _ Hb), Ha. reflexivity.
Qed.

Lemma update_lookup f w b :
  breakers w !! key = Some b -> breakers (update key f w) !! key = Some (f b).
Proof.
  intros H. unfold update. destruct w; simpl in *.
  rewrite (getOrCreate_found _ _ H). apply lookup_insert_eq.
Qed.

End CircuitBreakerFacts.

Section ClosedState.
Import CircuitBreaker.

(** In the closed state a success leaves [failureCount] as it was. *)
Lemma onSuccess_closed_keeps_failureCount b :
  state b = closed ->
  state (onSuccess b) = closed /\ failureCount (onSuccess b) = failureCount b.
Proof. intros H. unfold onSuccess. rewrite H. simpl. auto. Qed.

(** Every failure adds one to [failureCount], in every state. *)
Lemma onFailure_increments cfg now b :
  failureCount (onFailure cfg now b) = failureCount b + 1.
Proof.
  unfold onFailure, transitionTo. simpl.
  destruct (state b); simpl; repeat case_match; reflexivity.
Qed.

(** In the closed state the breaker opens on a failure exactly when the
    count, however it was accumulated, reaches the threshold. *)
Lemma onFailure_closed cfg now b :
  state b = closed ->
  state (onFailure cfg now b) =
    if failureThreshold cfg <=? failureCount b + 1 then open else closed.
Proof.
  intros H. unfold onFailure, transitionTo. simpl. rewrite H.
  destruct (failureThreshold cfg <=? failureCount b + 1); simpl; [reflexivity|exact H].
Qed.

(** C1 (the code departs from the claim).  With the default configuration
    ([failureThreshold] 5), four failing calls, then a successful call, then
    one more failing call leave the breaker open with [failureCount] 5:
    the success in the closed state did not reset the count, and one
    failure since the last success was enough to open the circuit.  In
    general, [onSuccess] on a closed breaker keeps [failureCount]
    ([set_state closed b] is [b] made closed). *)
Theorem C1_success_does_not_reset_failures :
  let k := "https://facilitator.example.com" in
  let call fn w := after (execute DEFAULT_CONFIG k fn) w in
  let w4 := call failing (call failing (call failing (call failing initialWorld))) in
  let w5 := call succeeding w4 in
  let w6 := call failing w5 in
  (state <$> breakers w4 !! k) = Some closed /\
  (failureCount <$> breakers w5 !! k) = Some 4 /\
  (successCount <$> breakers w5 !! k) = Some 1 /\
  (state <$> breakers w6 !! k) = Some open /\
  (failureCount <$> breakers w6 !! k) = Some 5 /\
  (forall b, failureCount (onSuccess (set_state closed b)) = failureCount b).
Proof.
  cbv zeta. repeat split; try (vm_compute; reflexivity).
Qed.

End ClosedState.

Section BreakerInvariant.
Import CircuitBreaker.

Context (cfg : CircuitBreakerConfig) (key : string).

Lemma fresh_idle : probe_counter_idle fresh.
Proof. intros _. reflexivity. Qed.

Lemma onSuccess_idle b : probe_counter_idle b -> probe_counter_idle (onSuccess b).
Proof.
  unfold probe_counter_idle, onSuccess, transitionTo.
  destruct (state b) eqn:E; simpl; rewrite ?E; auto.
Qed.

Lemma onFailure_idle now b : probe_counter_idle b -> probe_counter_idle (onFailure cfg now b).
Proof.
  unfold probe_counter_idle, onFailure, transitionTo. simpl.
  destruct (state b) eqn:E; simpl; auto.
  intros H _. case_match; simpl; apply H; discriminate.
Qed.

Lemma admission_idle now b :
  probe_counter_idle b -> probe_counter_idle (admission cfg now key b).1.
Proof.
  unfold probe_counter_idle, admission, transitionTo.
  destruct (state b) eqn:E; simpl.
  - rewrite E. auto.
  - destruct (recoveryTimeoutMs cfg <=? now - lastFailureTime b); simpl; [|auto].
    destruct (halfOpenMaxRequests cfg <=? halfOpenRequests b); simpl;
      intros _ Hne; now elim Hne.
  - rewrite E.
    destruct (halfOpenMaxRequests cfg <=? halfOpenRequests b); simpl; rewrite ?E;
      intros _ Hne; now elim Hne.
Qed.

Lemma update_idle f w :
  (forall b, probe_counter_idle b -> probe_counter_idle (f b)) ->
  breakers_idle w -> breakers_idle (update key f w).
Proof.
  intros Hf Hw k b. unfold update, getOrCreate. destruct w as [? ? bs ? ? ? ? ? ?]; simpl in *.
  destruct (bs !! key) eqn:E; rewrite lookup_insert; case_decide; subst.
  - intros [= <-]. apply Hf. eapply Hw. simpl. exact E.
  - apply Hw.
  - intros [= <-]. apply Hf, fresh_idle.
  - rewrite lookup_insert_ne by done. apply Hw.
Qed.

(** The invariant holds initially and [execute] keeps it, whatever happens
    while the wrapped function runs, provided that keeps it too. *)
Lemma execute_keeps_breakers_idle {T} (fn : M T) w :
  (forall w', breakers_idle w' -> breakers_idle (fn w').2) ->
  breakers_idle w -> breakers_idle (execute cfg key fn w).2.
Proof.
  intros Hfn Hw. unfold execute.
  destruct (getOrCreate key (breakers w)) as [b bs] eqn:G.
  destruct (admission cfg (clock w) key b) as [b' rej] eqn:A.
  assert (Hb : probe_counter_idle b).
  { unfold getOrCreate in G. destruct (breakers w !! key) eqn:E; inversion G; subst.
    - eapply Hw; eauto.
    - apply fresh_idle. }
  assert (Hbs : forall k x, bs !! k = Some x -> probe_counter_idle x).
  { unfold getOrCreate in G. destruct (breakers w !! key) eqn:E; inversion G; subst.
    - apply Hw.
    - intros k x. rewrite lookup_insert. case_decide; [intros [= <-]; apply fresh_idle|apply Hw]. }
  assert (Hw1 : breakers_idle (set_breakers (fun _ => <[key := b']> bs) w)).
  { intros k x. destruct w; simpl. rewrite lookup_insert. case_decide.
    - intros [= <-]. pose proof (admission_idle (clock0) b Hb) as H'. simpl in *.
      rewrite A in H'. exact H'.
    - apply Hbs. }
  destruct rej; simpl; [exact Hw1|].
  specialize (Hfn _ Hw1).
  destruct (fn _) as [[r|e] w']; simpl in *.
  - apply update_idle; [apply onSuccess_idle|exact Hfn].
  - apply update_idle; [apply onFailure_idle|exact Hfn].
Qed.

Lemma initialWorld_idle : breakers_idle initialWorld.
Proof. intros k b. simpl. rewrite lookup_empty. discriminate. Qed.

End BreakerInvariant.

Section OpenState.
Import CircuitBreaker.

Context (cfg : CircuitBreakerConfig) (key : string).

Lemma admission_open_cooling b now :
  state b = open ->
  now - lastFailureTime b < recoveryTimeoutMs cfg ->
  admission cfg now key b =
    (b, Some (CircuitBreakerOpenError key
                (recoveryTimeoutMs cfg - (now - lastFailureTime b)))).
Proof.
  intros Hs Hlt. unfold admission. rewrite Hs.
  destruct (Z.leb_spec (recoveryTimeoutMs cfg) (now - lastFailureTime b)); [lia|].
  reflexivity.
Qed.

Lemma admission_open_recovered b now :
  state b = open ->
  recoveryTimeoutMs cfg <= now - lastFailureTime b ->
  halfOpenRequests b < halfOpenMaxRequests cfg ->
  admission cfg now key b =
    (set_halfOpenRequests (halfOpenRequests b + 1) (set_state half_open b), None).
Proof.
  intros Hs Hge Hlim. unfold admission, transitionTo. rewrite Hs. simpl.
  destruct (Z.leb_spec (recoveryTimeoutMs cfg) (now - lastFailureTime b)); [|lia].
  simpl.
  destruct (Z.leb_spec (halfOpenMaxRequests cfg) (halfOpenRequests b)); [lia|].
  reflexivity.
Qed.

(** C3.  Take a breaker that is open (with no probe counted, as the
    invariant [breakers_idle] guarantees) under a configuration that allows
    at least one probe.
    - While less than [recoveryTimeoutMs] has elapsed since
      [lastFailureTime], [execute] throws [CircuitBreakerOpenError] carrying
      the remaining cooldown, which is positive; the outcome is the same for
      every [fn] and the state is untouched, so [fn] was not invoked.
    - Once [recoveryTimeoutMs] has elapsed, [execute] runs [fn] on a state
      in which the breaker is already half-open with this call counted as a
      probe, and then records the success or failure of [fn]. *)
Theorem C3_open_rejects_until_cooldown_then_probes
    {T} (fn : M T) (w : World) (b : BreakerState) :
  breakers w !! key = Some b ->
  state b = open ->
  probe_counter_idle b ->
  1 <= halfOpenMaxRequests cfg ->
  let elapsed := clock w - lastFailureTime b in
  (elapsed < recoveryTimeoutMs cfg ->
     0 < recoveryTimeoutMs cfg - elapsed /\
     execute cfg key fn w =
       (Threw (CircuitBreakerOpenError key (recoveryTimeoutMs cfg - elapsed)), w))
  /\
  (recoveryTimeoutMs cfg <= elapsed ->
     let probing := set_halfOpenRequests 1 (set_state half_open b) in
     let w1 := set_breakers (fun bs => <[key := probing]> bs) w in
     state probing = half_open /\
     execute cfg key fn w =
       match fn w1 with
       | (Returned r, w2) => (Returned r, update key onSuccess w2)
       | (Threw e, w2) => (Threw e, update key (onFailure cfg (clock w2)) w2)
       end).
Proof.
  intros Hb Hs Hidle Hmax elapsed. split.
  - intros Hlt. split; [lia|].
    rewrite (execute_rejected cfg key fn w b b _ Hb
               (admission_open_cooling b (clock w) Hs Hlt)).
    now rewrite (set_breakers_same key b w Hb).
  - intros Hge probing w1. split; [reflexivity|].
    assert (H0 : halfOpenRequests b = 0) by (apply Hidle; rewrite Hs; discriminate).
    assert (Hlim : halfOpenRequests b < halfOpenMaxRequests cfg) by lia.
    rewrite (execute_admitted cfg key fn w b _ Hb
               (admission_open_recovered b (clock w) Hs Hge Hlim)).
    rewrite H0. reflexivity.
Qed.

End OpenState.

(** C3 at a breaker that opened at time 1000 under the default
    configuration: a call at time 2000 is rejected with 29000 ms remaining
    and the probe function does not run; a call at time 31000 runs the probe
    as a half-open probe and its success closes the breaker. *)
Lemma C3_open_rejects_until_cooldown_then_probes_witness :
  CircuitBreaker.execute CircuitBreaker.DEFAULT_CONFIG sampleKey probe
      (worldWith openBreaker 2000)
    = (Threw (CircuitBreakerOpenError sampleKey 29000), worldWith openBreaker 2000)
  /\ (state <$> breakers
        (after (CircuitBreaker.execute CircuitBreaker.DEFAULT_CONFIG sampleKey probe)
           (worldWith openBreaker 31000)) !! sampleKey) = Some closed
  /\ length (calls
        (after (CircuitBreaker.execute CircuitBreaker.DEFAULT_CONFIG sampleKey probe)
           (worldWith openBreaker 31000))) = 1%nat.
Proof.
  assert (Hidle : probe_counter_idle openBreaker) by (intros _; reflexivity).
  assert (Hmax : 1 <= halfOpenMaxRequests CircuitBreaker.DEFAULT_CONFIG) by (simpl; lia).
  split; [|split].
  - destruct (C3_open_rejects_until_cooldown_then_probes
                CircuitBreaker.DEFAULT_CONFIG sampleKey probe
                (worldWith openBreaker 2000) openBreaker
                eq_refl eq_refl Hidle Hmax) as [Hearly _].
    destruct Hearly as [_ Hrun]; [simpl; lia|]. exact Hrun.
  - destruct (C3_open_rejects_until_cooldown_then_probes
                CircuitBreaker.DEFAULT_CONFIG sampleKey probe
                (worldWith openBreaker 31000) openBreaker
                eq_refl eq_refl Hidle Hmax) as [_ Hlate].
    destruct Hlate as [_ Hrun]; [simpl; lia|].
    unfold after. rewrite Hrun. vm_compute. reflexivity.
  - destruct (C3_open_rejects_until_cooldown_then_probes
                CircuitBreaker.DEFAULT_CONFIG sampleKey probe
                (worldWith openBreaker 31000) openBreaker
                eq_refl eq_refl Hidle Hmax) as [_ Hlate].
    destruct Hlate as [_ Hrun]; [simpl; lia|].
    unfold after. rewrite Hrun. vm_compute. reflexivity.
Defined.

Section HalfOpenState.
Import CircuitBreaker.

Context (cfg : CircuitBreakerConfig) (key : string).

Lemma admission_half_open_full b now :
  state b = half_open ->
  halfOpenMaxRequests cfg <= halfOpenRequests b ->
  admission cfg now key b = (b, Some (CircuitBreakerOpenError key 0)).
Proof.
  intros Hs Hfull. unfold admission. rewrite Hs. simpl. rewrite Hs.
  destruct (Z.leb_spec (halfOpenMaxRequests cfg) (halfOpenRequests b)); [|lia].
  reflexivity.
Qed.

Lemma admission_half_open_free b now :
  state b = half_open ->
  halfOpenRequests b < halfOpenMaxRequests cfg ->
  admission cfg now key b = (set_halfOpenRequests (halfOpenRequests b + 1) b, None).
Proof.
  intros Hs Hfree. unfold admission. rewrite Hs. simpl. rewrite Hs.
  destruct (Z.leb_spec (halfOpenMaxRequests cfg) (halfOpenRequests b)); [lia|].
  reflexivity.
Qed.

Lemma update_calls f w : calls (update key f w) = calls w.
Proof. reflexivity. Qed.

(** Of the calls that arrive at a half-open breaker while the earlier ones
    are still in flight, the first [halfOpenMaxRequests - halfOpenRequests]
    have their wrapped function invoked (all of them if there are fewer). *)
Lemma arrivals_invocations outcomes : forall w b,
  breakers w !! key = Some b ->
  state b = half_open ->
  halfOpenRequests b <= halfOpenMaxRequests cfg ->
  length (calls (after (arrivals cfg key outcomes) w))
  = (length (calls w)
     + Nat.min (length outcomes)
         (Z.to_nat (halfOpenMaxRequests cfg - halfOpenRequests b)))%nat.
Proof.
  induction outcomes as [|ok rest IH]; intros w b Hb Hs Hle.
  - unfold after. simpl. lia.
  - change (length (ok :: rest)) with (S (length rest)).
    unfold after. cbn [arrivals]. unfold tryCatch.
    destruct (Z.eq_dec (halfOpenRequests b) (halfOpenMaxRequests cfg)) as [Heq|Hne].
    + rewrite (execute_rejected cfg key _ w b b _ Hb
                 (admission_half_open_full b (clock w) Hs ltac:(lia))).
      rewrite (set_breakers_same key b w Hb). simpl.
      replace (Z.to_nat (halfOpenMaxRequests cfg - halfOpenRequests b)) with O by lia.
      lia.
    + rewrite (execute_admitted cfg key _ w b _ Hb
                 (admission_half_open_free b (clock w) Hs ltac:(lia))).
      set (b1 := set_halfOpenRequests (halfOpenRequests b + 1) b).
      set (w1 := set_breakers (fun _ => <[key := b1]> (breakers w)) w).
      unfold probe. run.
      match goal with
      | |- context [arrivals cfg key rest ?w'] =>
          specialize (IH w' b1 (lookup_insert_eq _ _ _) Hs); set (w1' := w') in *
      end.
      cbn [b1 halfOpenRequests set_halfOpenRequests] in IH.
      specialize (IH ltac:(lia)). unfold after in IH.
      assert (Hcalls : length (calls w1') = S (length (calls w))).
      { unfold w1'. cbn [calls set_calls w1 set_breakers]. rewrite length_app.
        simpl. lia. }
      destruct (arrivals cfg key rest w1') as [[[]|e] w2]; cbn [snd] in IH.
      * destruct ok; unfold succeeding, failing; run; cbn [snd];
          rewrite update_calls, IH, Hcalls; lia.
      * cbn [snd]. rewrite update_calls, IH, Hcalls. lia.
Qed.

(** C4, as the code has it.  For a half-open breaker:
    - a call arriving when [halfOpenRequests] has reached
      [halfOpenMaxRequests] is rejected with [CircuitBreakerOpenError]; the
      outcome is the same for every [fn] and the state is untouched, so [fn]
      was not invoked;
    - of the calls that arrive through [execute] while the earlier ones are
      still in flight, exactly the first
      [halfOpenMaxRequests - halfOpenRequests] have their wrapped function
      invoked, whatever their outcomes, so at most [halfOpenMaxRequests];
    - an admitted probe that succeeds returns its result; if the breaker is
      still half-open when it completes, it closes the breaker and sets
      [failureCount] and the probe counter to 0; if another probe has moved
      the breaker out of half-open meanwhile, only [successCount] changes;
    - an admitted probe that fails rethrows its error and counts as a
      failure; if the breaker is still half-open when it completes, it
      re-opens it at once and sets the probe counter to 0; if the breaker
      was closed meanwhile it opens only on reaching [failureThreshold], and
      if it was opened meanwhile it stays open. *)
Theorem C4_half_open_first_completion_decides
    {T} (fn : M T) (w : World) (b : BreakerState) :
  breakers w !! key = Some b ->
  state b = half_open ->
  0 <= halfOpenRequests b <= halfOpenMaxRequests cfg ->
  (halfOpenMaxRequests cfg <= halfOpenRequests b ->
     execute cfg key fn w = (Threw (CircuitBreakerOpenError key 0), w))
  /\
  (forall outcomes,
     length (calls (after (arrivals cfg key outcomes) w))
     = (length (calls w)
        + Nat.min (length outcomes)
            (Z.to_nat (halfOpenMaxRequests cfg - halfOpenRequests b)))%nat)
  /\
  (halfOpenRequests b < halfOpenMaxRequests cfg ->
   forall w' b',
     let w1 := set_breakers
                 (fun bs => <[key := set_halfOpenRequests (halfOpenRequests b + 1) b]> bs) w in
     breakers w' !! key = Some b' ->
     (forall r, fn w1 = (Returned r, w') ->
        (execute cfg key fn w).1 = Returned r /\
        exists b'', breakers (execute cfg key fn w).2 !! key = Some b'' /\
          successCount b'' = successCount b' + 1 /\
          lastFailureTime b'' = lastFailureTime b' /\
          match state b' with
          | half_open =>
              state b'' = closed /\ failureCount b'' = 0 /\ halfOpenRequests b'' = 0
          | _ =>
              state b'' = state b' /\ failureCount b'' = failureCount b' /\
              halfOpenRequests b'' = halfOpenRequests b'
          end)
     /\
     (forall e, fn w1 = (Threw e, w') ->
        (execute cfg key fn w).1 = Threw e /\
        exists b'', breakers (execute cfg key fn w).2 !! key = Some b'' /\
          failureCount b'' = failureCount b' + 1 /\
          lastFailureTime b'' = clock w' /\
          successCount b'' = successCount b' /\
          match state b' with
          | half_open => state b'' = open /\ halfOpenRequests b'' = 0
          | closed =>
              state b'' = (if failureThreshold cfg <=? failureCount b' + 1
                           then open else closed) /\
              halfOpenRequests b'' = halfOpenRequests b'
          | open => state b'' = open /\ halfOpenRequests b'' = halfOpenRequests b'
          end)).
Proof.
  intros Hb Hs Hrange. split; [|split].
  - intros Hfull.
    rewrite (execute_rejected cfg key fn w b b _ Hb
               (admission_half_open_full b (clock w) Hs Hfull)).
    now rewrite (set_breakers_same key b w Hb).
  - intros outcomes. exact (arrivals_invocations outcomes w b Hb Hs (proj2 Hrange)).
  - intros Hfree w' b' w1 Hb'.
    pose proof (execute_admitted cfg key fn w b _ Hb
                  (admission_half_open_free b (clock w) Hs Hfree)) as Hrun.
    subst w1. unfold set_breakers in *. split.
    + intros r Hfn. rewrite Hfn in Hrun. rewrite Hrun. simpl.
      split; [reflexivity|]. exists (onSuccess b'). split.
      * apply update_lookup, Hb'.
      * unfold onSuccess, transitionTo. destruct (state b') eqn:Hs'; simpl; auto.
    + intros e Hfn. rewrite Hfn in Hrun. rewrite Hrun. simpl.
      split; [reflexivity|]. exists (onFailure cfg (clock w') b'). split.
      * apply update_lookup, Hb'.
      * unfold onFailure, transitionTo. simpl.
        destruct (state b') eqn:Hs'; simpl; auto.
        destruct (failureThreshold cfg <=? failureCount b' + 1) eqn:Hth; simpl;
          rewrite ?Hs'; simpl; auto.
Qed.

End HalfOpenState.

(** The claim's wording refuted with two probes allowed ([twoProbesConfig])
    at a breaker that is half-open with [failureCount] 5.
    - A probe is admitted and, while it is in flight, a second probe is
      admitted and fails.  The first probe then succeeds: [execute] returns
      its result, and the breaker is left open with [failureCount] 6, not
      closed with [failureCount] 0.
    - A probe is admitted and, while it is in flight, a second probe is
      admitted and succeeds.  The first probe then fails: [execute] rethrows
      its error, and the breaker is left closed, not open.
    - A probe is admitted and, while it is in flight, a second probe fails
      and 39 seconds pass; two further calls then arrive and both are
      admitted, so that the wrapped function of the fourth call is invoked
      while the first and the third are still in flight: three probes at
      once with [halfOpenMaxRequests] 2. *)
Lemma C4_late_probe_does_not_decide :
  let cfg := twoProbesConfig in
  let w := worldWith halfOpenBreaker 31000 in
  let whileInFlight (others : M unit) (ok : bool) : M unit :=
    CircuitBreaker.execute cfg sampleKey
      (probe;; others;; if ok then succeeding else failing) in
  (let run := whileInFlight (arrivals cfg sampleKey [false]) true w in
   run.1 = Returned tt
   /\ length (calls run.2) = 2%nat
   /\ breakers run.2 !! sampleKey
      = Some {| state := open; failureCount := 6; successCount := 1;
                lastFailureTime := 31000; halfOpenRequests := 0 |})
  /\
  (let run := whileInFlight (arrivals cfg sampleKey [true]) false w in
   run.1 = Threw (JsError "facilitator unavailable")
   /\ length (calls run.2) = 2%nat
   /\ breakers run.2 !! sampleKey
      = Some {| state := closed; failureCount := 1; successCount := 1;
                lastFailureTime := 31000; halfOpenRequests := 0 |})
  /\
  (let run :=
     whileInFlight
       (arrivals cfg sampleKey [false];; modify (set_clock 70000);;
        arrivals cfg sampleKey [true; true])
       true w in
   length (calls run.2) = 4%nat).
Proof. cbv zeta. repeat split; vm_compute; reflexivity. Qed.

(** C4 at a half-open breaker with two probes allowed: of three calls
    arriving together two have their function invoked; a successful probe
    closes the breaker, a failing probe re-opens it; with both probe slots
    taken, a further call is rejected and the probe function does not run. *)
Lemma C4_half_open_first_completion_decides_witness :
  let cfg := twoProbesConfig in
  let w := worldWith halfOpenBreaker 31000 in
  let counted n := CircuitBreaker.set_halfOpenRequests n halfOpenBreaker in
  length (calls (after (arrivals cfg sampleKey [true; false; true]) w)) = 2%nat
  /\ (state <$> breakers (after (CircuitBreaker.execute cfg sampleKey succeeding) w)
                  !! sampleKey) = Some closed
  /\ (state <$> breakers (after (CircuitBreaker.execute cfg sampleKey failing) w)
                  !! sampleKey) = Some open
  /\ CircuitBreaker.execute cfg sampleKey probe (worldWith (counted 2) 31000)
       = (Threw (CircuitBreakerOpenError sampleKey 0), worldWith (counted 2) 31000).
Proof.
  intros cfg w counted.
  assert (Hr0 : 0 <= halfOpenRequests halfOpenBreaker <= halfOpenMaxRequests cfg)
    by (simpl; lia).
  assert (Hr2 : 0 <= halfOpenRequests (counted 2) <= halfOpenMaxRequests cfg)
    by (simpl; lia).
  assert (Hfree : halfOpenRequests halfOpenBreaker < halfOpenMaxRequests cfg)
    by (simpl; lia).
  pose (w1 := set_breakers (fun bs => <[sampleKey := counted 1]> bs) w).
  split; [|split; [|split]].
  - destruct (C4_half_open_first_completion_decides cfg sampleKey succeeding w
                halfOpenBreaker eq_refl eq_refl Hr0) as (_ & Hmany & _).
    rewrite (Hmany [true; false; true]). reflexivity.
  - destruct (C4_half_open_first_completion_decides cfg sampleKey succeeding w
                halfOpenBreaker eq_refl eq_refl Hr0) as (_ & _ & Hprobe).
    destruct (Hprobe Hfree w1 (counted 1) eq_refl) as [Hok _].
    destruct (Hok tt eq_refl) as (_ & b'' & Hlook & _ & _ & Hst & _).
    unfold after. rewrite Hlook. simpl. now rewrite Hst.
  - destruct (C4_half_open_first_completion_decides cfg sampleKey failing w
                halfOpenBreaker eq_refl eq_refl Hr0) as (_ & _ & Hprobe).
    destruct (Hprobe Hfree w1 (counted 1) eq_refl) as [_ Hko].
    destruct (Hko (JsError "facilitator unavailable") eq_refl)
      as (_ & b'' & Hlook & _ & _ & _ & Hst & _).
    unfold after. rewrite Hlook. simpl. now rewrite Hst.
  - destruct (C4_half_open_first_completion_decides cfg sampleKey probe
                (worldWith (counted 2) 31000) (counted 2) eq_refl eq_refl Hr2)
      as (Hfull & _).
    apply Hfull. simpl. lia.
Defined.

(** The breaker scenario of the design document, under the default
    configuration: five failing calls open the breaker; a sixth call within
    the cooldown is rejected and does not run its function; after the
    cooldown the next call runs as a probe, and its success closes the
    breaker with [failureCount] 0, while its failure re-opens it with the
    probe counter at 0. *)
Lemma breaker_scenario :
  let cfg := CircuitBreaker.DEFAULT_CONFIG in
  let call fn now w := CircuitBreaker.execute cfg sampleKey fn (set_clock now w) in
  let fails now w := (call failing now w).2 in
  let w5 := fails 500 (fails 400 (fails 300 (fails 200 (fails 100 initialWorld)))) in
  breakers w5 !! sampleKey
    = Some {| state := open; failureCount := 5; successCount := 0;
              lastFailureTime := 500; halfOpenRequests := 0 |}
  /\ call probe 20000 w5
       = (Threw (CircuitBreakerOpenError sampleKey 10500), set_clock 20000 w5)
  /\ breakers (call succeeding 30500 w5).2 !! sampleKey
       = Some {| state := closed; failureCount := 0; successCount := 1;
                 lastFailureTime := 500; halfOpenRequests := 0 |}
  /\ breakers (call failing 30500 w5).2 !! sampleKey
       = Some {| state := open; failureCount := 6; successCount := 0;
                 lastFailureTime := 30500; halfOpenRequests := 0 |}.
Proof. cbv zeta. repeat split; vm_compute; reflexivity. Qed.

(* ===================================================================== *)
(** * Properties of the string helpers *)
(* ===================================================================== *)

Lemma prefix_app (needle hay : string) :
  String.prefix needle hay = true <-> exists post, hay = needle +:+ post.
Proof.
  revert hay. induction needle as [|a needle IH]; intros hay; simpl.
  - destruct hay; simpl; split; eauto.
  - destruct hay as [|b hay]; simpl.
    + split; [discriminate|]. intros [post H]. discriminate.
    + destruct (ascii_dec a b) as [->|Hne].
      * rewrite IH. split; intros [post H]; exists post; [now rewrite H|].
        now inversion H.
      * split; [discriminate|]. intros [post H]. inversion H. congruence.
Qed.

(** [includes] finds exactly the contiguous occurrences. *)
Lemma includes_spec (hay needle : string) :
  includes hay needle = true <-> exists pre post, hay = pre +:+ needle +:+ post.
Proof.
  induction hay as [|c hay IH].
  - cbn [includes]. destruct (String.prefix needle "") eqn:P.
    + split; [intros _|reflexivity].
      apply prefix_app in P as [post P]. exists "", post. exact P.
    + split; [discriminate|]. intros (pre & post & H).
      destruct pre; simpl in H; [|discriminate].
      assert (String.prefix needle "" = true) by (apply prefix_app; eauto).
      congruence.
  - cbn [includes]. destruct (String.prefix needle (String c hay)) eqn:P.
    + split; [intros _|reflexivity].
      apply prefix_app in P as [post P]. exists "", post. exact P.
    + rewrite IH. split.
      * intros (pre & post & H). exists (String c pre), post. simpl. now rewrite H.
      * intros (pre & post & H). destruct pre as [|c' pre]; simpl in H.
        -- assert (String.prefix needle (String c hay) = true)
             by (apply prefix_app; eauto).
           congruence.
        -- inversion H. eauto.
Qed.

(* ===================================================================== *)
(** * Properties of the transaction mapper *)
(* ===================================================================== *)

Section MapperFacts.
Import TransactionMapper.

(** The payer address the mapper extracts is the payload's [payer] field
    when that is a non-empty string, otherwise its [from] field when that is
    one. *)
Lemma extractPayerAddress_fields (payload : X402PaymentPayload) :
  extractPayerAddress payload = payerIdentifier_spec payload.
Proof.
  unfold extractPayerAddress, payerIdentifier_spec, nonEmptyString.
  destruct (payer payload) as [| |?|?|[|c s]]; simpl;
    destruct (from payload) as [| |?|?|[|c' s']]; reflexivity.
Qed.

(** C9.  [extractAgent] returns what the first yielding source gives, the
    sources being, in order: the custom resolver (applied to the payer
    identifier), the payer identifier of the payload (its [payer] field, or
    else its [from] field, when a non-empty string), the configured default
    agent id, and the sentinel ['unknown-agent'].  Case by case:
    - with a payer identifier and a resolver that returns, the result is
      what the resolver returns for that identifier;
    - with a payer identifier and no resolver, or a resolver that throws,
      the result is the payer identifier;
    - without a payer identifier the resolver is not consulted: the result
      is the configured default agent id, or ['unknown-agent'] when none is
      configured. *)
Theorem C9_extractAgent_resolution_order
    (payload : X402PaymentPayload) (config : X402PaySentryConfig) :
  firstYield_spec (agentSources_spec payload config)
    = Some (extractAgent payload config)
  /\ (forall address resolve agent,
        payerIdentifier_spec payload = Some address ->
        resolveAgentId config = Some resolve ->
        resolve address = Returned agent ->
        extractAgent payload config = agent)
  /\ (forall address,
        payerIdentifier_spec payload = Some address ->
        resolveAgentId config = None
        \/ (exists resolve e,
              resolveAgentId config = Some resolve /\ resolve address = Threw e) ->
        extractAgent payload config = address)
  /\ (forall fallback,
        payerIdentifier_spec payload = None ->
        defaultAgentId config = Some fallback ->
        extractAgent payload config = fallback)
  /\ (payerIdentifier_spec payload = None ->
      defaultAgentId config = None ->
      extractAgent payload config = "unknown-agent").
Proof.
  unfold agentSources_spec, extractAgent.
  rewrite extractPayerAddress_fields.
  split; [|split; [|split; [|split]]].
  - destruct (payerIdentifier_spec payload) as [address|];
      destruct (resolveAgentId config) as [resolve|]; simpl;
      try destruct (resolve address); simpl; try reflexivity;
      destruct (defaultAgentId config); reflexivity.
  - intros address resolve agent -> -> Hres. now rewrite Hres.
  - intros address -> [-> | (resolve & e & -> & Hres)]; [reflexivity|].
    now rewrite Hres.
  - intros fallback -> ->. reflexivity.
  - intros -> ->. reflexivity.
Qed.

Lemma Math_pow10_values :
  Math_pow10 18 = 1e18%float /\ Math_pow10 6 = 1e6%float.
Proof. split; vm_compute; reflexivity. Qed.

Lemma inferDecimals_spec scheme :
  inferDecimals scheme =
    if schemeContains scheme "eth" || schemeContains scheme "ether" then 18 else 6.
Proof. unfold inferDecimals, schemeContains. destruct scheme; reflexivity. Qed.

(** C10.  [extractAmount] is a total function into the numbers.  It
    returns 0, which is not NaN, when [maxAmountRequired] is absent, empty,
    or converts to NaN; otherwise it returns the converted value divided by
    10^18 when the scheme name contains "eth" or "ether" (letter case aside)
    and by 10^6 when it does not. *)
Theorem C10_extractAmount_total_zero_fallback
    (Number : string -> float) (requirements : X402PaymentRequirements) :
  ((maxAmountRequired requirements = None \/
    maxAmountRequired requirements = Some "" \/
    (exists raw, maxAmountRequired requirements = Some raw /\
                 PrimFloat.is_nan (Number raw) = true)) ->
   extractAmount Number requirements = PrimFloat.zero /\
   PrimFloat.is_nan (extractAmount Number requirements) = false)
  /\
  (forall raw,
     maxAmountRequired requirements = Some raw ->
     raw <> "" ->
     PrimFloat.is_nan (Number raw) = false ->
     extractAmount Number requirements =
       PrimFloat.div (Number raw)
         (if schemeContains (scheme requirements) "eth"
             || schemeContains (scheme requirements) "ether"
          then 1e18%float else 1e6%float)).
Proof.
  split.
  - assert (Hz : extractAmount Number requirements = PrimFloat.zero ->
                 extractAmount Number requirements = PrimFloat.zero /\
                 PrimFloat.is_nan (extractAmount Number requirements) = false).
    { intros ->. split; reflexivity. }
    intros [H|[H|(raw & H & Hnan)]]; apply Hz; unfold extractAmount; rewrite H.
    + reflexivity.
    + reflexivity.
    + destruct (truthy raw); simpl; [now rewrite Hnan|reflexivity].
  - intros raw H Hne Hnum. unfold extractAmount. rewrite H.
    destruct raw as [|c raw]; [contradiction|]. simpl. rewrite Hnum.
    rewrite inferDecimals_spec.
    destruct (schemeContains _ "eth" || schemeContains _ "ether");
      f_equal; apply Math_pow10_values.
Qed.

End MapperFacts.

(** C9 on five payments: a payer the registry resolves; the same payer with
    a failing registry; a payer named in [from] only, no resolver; no payer
    (an empty [payer], a numeric [from]) with a default agent configured,
    the resolver not being consulted; and no payer and no default. *)
Lemma C9_extractAgent_resolution_order_witness :
  TransactionMapper.extractAgent samplePayload (resolverConfig registryResolver None)
    = "agent-of-0xAgent"
  /\ TransactionMapper.extractAgent samplePayload
       (resolverConfig failingResolver (Some "fallback-agent")) = "0xAgent"
  /\ TransactionMapper.extractAgent (payloadFromField "0xSender") emptyConfig
       = "0xSender"
  /\ TransactionMapper.extractAgent anonymousPayload
       (resolverConfig registryResolver (Some "fallback-agent")) = "fallback-agent"
  /\ TransactionMapper.extractAgent anonymousPayload emptyConfig = "unknown-agent".
Proof.
  split; [|split; [|split; [|split]]].
  - destruct (C9_extractAgent_resolution_order samplePayload
                (resolverConfig registryResolver None)) as (_ & H & _).
    exact (H "0xAgent" registryResolver "agent-of-0xAgent" eq_refl eq_refl eq_refl).
  - destruct (C9_extractAgent_resolution_order samplePayload
                (resolverConfig failingResolver (Some "fallback-agent")))
      as (_ & _ & H & _).
    apply (H "0xAgent" eq_refl). right.
    exists failingResolver, (JsError "registry unavailable"). split; reflexivity.
  - destruct (C9_extractAgent_resolution_order (payloadFromField "0xSender")
                emptyConfig) as (_ & _ & H & _).
    apply (H "0xSender" eq_refl). left. reflexivity.
  - destruct (C9_extractAgent_resolution_order anonymousPayload
                (resolverConfig registryResolver (Some "fallback-agent")))
      as (_ & _ & _ & H & _).
    exact (H "fallback-agent" eq_refl eq_refl).
  - destruct (C9_extractAgent_resolution_order anonymousPayload emptyConfig)
      as (_ & _ & _ & _ & H).
    exact (H eq_refl eq_refl).
Defined.

(** C10 on three requirements: 2500000 base units under the scheme "exact"
    are 2.5; 10^18 base units under "ETH-exact" are 1; an amount that does
    not convert gives 0. *)
Lemma C10_extractAmount_total_zero_fallback_witness :
  let req raw sch :=
    {| scheme := Some sch; network := None; maxAmountRequired := Some raw;
       resource := None; description := None; payTo := None |} in
  TransactionMapper.extractAmount sampleNumber (req "2500000" "exact") = 2.5%float
  /\ TransactionMapper.extractAmount sampleNumber (req "1000000000000000000" "ETH-exact")
       = 1%float
  /\ TransactionMapper.extractAmount sampleNumber (req "12 dollars" "exact")
       = PrimFloat.zero.
Proof.
  intros req. split; [|split].
  - destruct (C10_extractAmount_total_zero_fallback sampleNumber (req "2500000" "exact"))
      as [_ H].
    rewrite (H "2500000" eq_refl ltac:(discriminate) eq_refl). reflexivity.
  - destruct (C10_extractAmount_total_zero_fallback sampleNumber
                (req "1000000000000000000" "ETH-exact")) as [_ H].
    rewrite (H "1000000000000000000" eq_refl ltac:(discriminate) eq_refl). reflexivity.
  - destruct (C10_extractAmount_total_zero_fallback sampleNumber (req "12 dollars" "exact"))
      as [H _].
    apply H. right. right. exists "12 dollars". split; reflexivity.
Defined.

(* ===================================================================== *)
(** * Properties of the adapter *)
(* ===================================================================== *)

Section AdapterFacts.
Import Engines Adapter.

Context (Number : string -> float).

(** [mapToTransaction] never throws: it returns a pending transaction with
    an unused id and advances the id supply. *)
Lemma mapToTransaction_returns p r cfg w :
  exists tx,
    TransactionMapper.mapToTransaction Number p r cfg w
      = (Returned tx, set_nextTxId N.succ w)
    /\ status tx = pending
    /\ tx_id tx = "tx_" +:+ pretty (nextTxId w)
    /\ createdAt tx = clock w.
Proof. eexists. split; [reflexivity|]. simpl. auto. Qed.

(** C2 (the code departs from the claim).  When the policy engine throws
    during the pre-verify hook, [handleBeforeVerify] catches the error and
    returns no abort instruction, so the server goes on to verification:
    the payment is allowed to proceed.  This holds for every configuration,
    [failOpen: false] included; the handler never reads [failOpen].  No
    context is stored and the trail holds the [intent] entry only: no
    denial is recorded. *)
Theorem C2_evaluation_error_fails_open
    (e : Thrown) (cfg : X402PaySentryConfig)
    (p : X402PaymentPayload) (r : X402PaymentRequirements) (w : World) :
  (handleBeforeVerify Number (new (brokenEngine e) cfg) p r w).1 = Returned None
  /\ (handleBeforeVerify Number (new (brokenEngine e) failClosedConfig) p r w).1
       = Returned None
  /\ contexts (handleBeforeVerify Number (new (brokenEngine e) cfg) p r w).2
       = contexts w
  /\ fmap (map (fun entry => (pr_stage entry, pr_outcome entry)))
        (provenance
           (handleBeforeVerify Number (new (brokenEngine e) failClosedConfig)
              samplePayload sampleRequirements initialWorld).2)
       = Some [(intent, pass)].
Proof. repeat split; reflexivity. Qed.

(** The wrapped client's [verify] has no handler around the evaluation: the
    same error propagates to the caller and the facilitator is not called. *)
Lemma wrapped_verify_evaluation_error
    (e : Thrown) (cfg : X402PaySentryConfig) (client : X402FacilitatorClient)
    (fkey : string) (p : X402PaymentPayload) (r : X402PaymentRequirements) (w : World) :
  (wrapped_verify Number (new (brokenEngine e) cfg) client fkey p r w).1 = Threw e
  /\ calls (wrapped_verify Number (new (brokenEngine e) cfg) client fkey p r w).2
       = calls w.
Proof. split; reflexivity. Qed.


End AdapterFacts.


Section SettleFacts.
Import Engines Adapter.

Context (Number : string -> float).

(** When the call is rejected, the error is a [CircuitBreakerOpenError] for
    the key. *)
Lemma admission_rejection cfg now key b b' e :
  CircuitBreaker.admission cfg now key b = (b', Some e) ->
  exists ms, e = CircuitBreakerOpenError key ms.
Proof.
  unfold CircuitBreaker.admission, CircuitBreaker.transitionTo.
  destruct (state b) eqn:E; simpl.
  - rewrite E. discriminate.
  - destruct (recoveryTimeoutMs cfg <=? now - lastFailureTime b); simpl.
    + destruct (halfOpenMaxRequests cfg <=? halfOpenRequests b); simpl;
        intros [= _ <-]; eauto.
    + intros [= _ <-]. eauto.
  - rewrite E. destruct (halfOpenMaxRequests cfg <=? halfOpenRequests b); simpl;
      intros [= _ <-]; eauto.
Qed.

(** The wrapped [settle] re-evaluates the policy whether or not a context
    was stored, and a denial under [abortOnPolicyDeny] stops it before the
    facilitator is called, with a [settlement: fail] entry. *)
Lemma wrapped_settle_denied
    (self : PaySentryX402Adapter) (client : X402FacilitatorClient) (fkey : string)
    (p : X402PaymentPayload) (r : X402PaymentRequirements) (w : World)
    (ctx : X402TransactionContext) (result : PolicyEvaluation) :
  contexts w !! TransactionMapper.transactionKey p r = Some ctx ->
  evaluate (policyEngine self) w (transaction ctx) = Returned result ->
  allowed result = false ->
  abortOnDeny self = true ->
  let out := wrapped_settle Number self client fkey p r w in
  out.1 = Returned {| success := false; txHash := None; s_network := None |}
  /\ calls out.2 = calls w
  /\ provenance out.2 =
       fmap (fun log =>
         log ++ [{| pr_tx := tx_id (transaction ctx); pr_stage := settlement;
                    pr_outcome := fail;
                    pr_details :=
                      SettlementReasonDetails
                        ("Policy denied at settlement: " +:+ reason result);
                    pr_timestamp := clock w |}]) (provenance w).
Proof.
  intros Hctx Heval Hdenied Habort out. subst out.
  unfold wrapped_settle. run. rewrite Hctx. simpl. rewrite Heval.
  rewrite Hdenied, Habort. simpl. auto.
Qed.

Lemma wrapped_settle_denied_without_context
    (self : PaySentryX402Adapter) (client : X402FacilitatorClient) (fkey : string)
    (p : X402PaymentPayload) (r : X402PaymentRequirements) (w w1 : World)
    (tx : AgentTransaction) (result : PolicyEvaluation) :
  contexts w !! TransactionMapper.transactionKey p r = None ->
  TransactionMapper.mapToTransaction Number p r (config self) w = (Returned tx, w1) ->
  evaluate (policyEngine self) w1 tx = Returned result ->
  allowed result = false ->
  abortOnDeny self = true ->
  let out := wrapped_settle Number self client fkey p r w in
  out.1 = Returned {| success := false; txHash := None; s_network := None |}
  /\ calls out.2 = calls w
  /\ provenance out.2 =
       fmap (fun log =>
         log ++ [{| pr_tx := tx_id tx; pr_stage := settlement;
                    pr_outcome := fail;
                    pr_details :=
                      SettlementReasonDetails
                        ("Policy denied at settlement: " +:+ reason result);
                    pr_timestamp := clock w |}]) (provenance w).
Proof.
  intros Hctx Hmap Heval Hdenied Habort out. subst out.
  unfold wrapped_settle. run. rewrite Hctx. run. rewrite Hmap.
  cbn [transaction freshContext]. rewrite Heval.
  rewrite Hdenied, Habort.
  unfold TransactionMapper.mapToTransaction, createTransaction in Hmap.
  injection Hmap as _ <-. simpl. auto.
Qed.

(** C6 (the code departs from the claim).  The [onBeforeSettle] hook,
    called for a payment whose fingerprint has no stored context (no state
    at all here: a process that has just started), returns no abort
    instruction and leaves the state as it found it, for every policy
    engine: the engine is not consulted and no [settlement: fail] entry is
    written, even when the engine would deny every transaction. *)
Theorem C6_settle_hook_skips_recheck_without_context
    (engine : PolicyEngine) (cfg : X402PaySentryConfig)
    (p : X402PaymentPayload) (r : X402PaymentRequirements) :
  handleBeforeSettle (new engine cfg) p r initialWorld
    = (Returned None, initialWorld)
  /\ handleBeforeSettle (new denyAll emptyConfig)
       samplePayload sampleRequirements initialWorld
     = (Returned None, initialWorld).
Proof.
  split; unfold handleBeforeSettle; run; simpl; rewrite lookup_empty; reflexivity.
Qed.

(** The same for any state without a context for the fingerprint. *)
Lemma handleBeforeSettle_without_context
    (self : PaySentryX402Adapter) (p : X402PaymentPayload)
    (r : X402PaymentRequirements) (w : World) :
  contexts w !! TransactionMapper.transactionKey p r = None ->
  handleBeforeSettle self p r w = (Returned None, w).
Proof. intros H. unfold handleBeforeSettle. run. now rewrite H. Qed.

End SettleFacts.

Section SettleWithoutContext.
Import Engines Adapter.

Context (Number : string -> float).

(** C7.  Let [settle] be invoked for a fingerprint with no stored context.
    A fresh pending transaction is synthesized from the payload and the
    requirements: its agent is the one resolved from the payload, its
    recipient the requirements' [payTo], its amount the requirements'
    [maxAmountRequired] scaled by the scheme's decimals, its currency the
    configured or inferred one, its purpose the requirements' description,
    its protocol [x402], and its metadata the payload's and requirements'
    version, scheme, network, resource and raw amount.  Then, on the
    wrapped client:
    - if the policy allows it (or denials do not abort) and the circuit
      breaker admits the call, the facilitator's [settle] runs and its
      response is returned; that same transaction, marked [completed] with
      the response's [txHash] or [failed], and stamped with the time of
      completion, is recorded in the tracker under its id and stored in a
      new context together with the response; a completed one is also
      handed to the policy engine's spend record;
    - if the call throws, the error is the policy engine's, a
      [CircuitBreakerOpenError], or the facilitator's: none arises from the
      missing context.
    The [onAfterSettle] hook likewise synthesizes the transaction, records
    it with its final status and stores a context, and returns normally. *)
Theorem C7_settle_without_context_synthesizes
    (self : PaySentryX402Adapter) (client : X402FacilitatorClient) (fkey : string)
    (p : X402PaymentPayload) (r : X402PaymentRequirements) (w : World) :
  let txKey := TransactionMapper.transactionKey p r in
  let final (resp : X402SettleResponse) (now : Z) (tx : AgentTransaction) :=
    if success resp then set_status completed now (txHash resp) tx
    else set_status failed now None tx in
  contexts w !! txKey = None ->
  exists tx w1,
    TransactionMapper.mapToTransaction Number p r (config self) w = (Returned tx, w1)
    /\ tx = {| tx_id := "tx_" +:+ pretty (nextTxId w);
               agentId := TransactionMapper.extractAgent p (config self);
               recipient := default "unknown-recipient" (payTo r);
               amount := TransactionMapper.extractAmount Number r;
               currency :=
                 match readKey (defaultCurrency (config self)) with
                 | Some c => c
                 | None => default "USDC" (TransactionMapper.inferCurrency (scheme r))
                 end;
               purpose :=
                 default ("x402 payment to " +:+ default "unknown-recipient" (payTo r))
                   (description r);
               protocol := "x402";
               status := pending;
               createdAt := clock w;
               updatedAt := clock w;
               protocolTxId := None;
               metadata :=
                 {| md_x402Version := x402Version p;
                    md_scheme := match p_scheme p with Some s => Some s | None => scheme r end;
                    md_network :=
                      match p_network p with Some n => Some n | None => network r end;
                    md_resource :=
                      match p_resource p with Some a => Some a | None => resource r end;
                    md_maxAmountRequired := maxAmountRequired r |} |}
    /\ (forall result b' resp w3,
          evaluate (policyEngine self) w1 tx = Returned result ->
          allowed result = true \/ abortOnDeny self = false ->
          let '(b, bs) := CircuitBreaker.getOrCreate fkey (breakers w1) in
          CircuitBreaker.admission (breakerConfig self) (clock w1) fkey b = (b', None) ->
          settle client p r
            (set_calls (fun trace => trace ++ [SettleCall p r])
               (set_breakers (fun _ => <[fkey := b']> bs) w1))
            = (Returned resp, w3) ->
          let out := wrapped_settle Number self client fkey p r w in
          out.1 = Returned resp
          /\ contexts out.2 !! txKey
             = Some (set_settled resp (clock w3) (freshContext (final resp (clock w3) tx)))
          /\ tracker out.2 !! tx_id tx = Some (final resp (clock w3) tx)
          /\ policySpend out.2
             = policySpend w3 ++ (if success resp then [final resp (clock w3) tx] else []))
    /\ (forall e,
          (wrapped_settle Number self client fkey p r w).1 = Threw e ->
          evaluate (policyEngine self) w1 tx = Threw e
          \/ (exists ms, e = CircuitBreakerOpenError fkey ms)
          \/ (exists w', (settle client p r w').1 = Threw e))
    /\ (forall resp,
          let out := handleAfterSettle Number self p r resp w in
          out.1 = Returned tt
          /\ contexts out.2 !! txKey
             = Some (set_settled resp (clock w) (freshContext (final resp (clock w) tx)))
          /\ tracker out.2 !! tx_id tx = Some (final resp (clock w) tx)
          /\ policySpend out.2
             = policySpend w ++ (if success resp then [final resp (clock w) tx] else [])).
Proof.
  intros txKey final Hnone.
  destruct (mapToTransaction_returns Number p r (config self) w) as (tx & Hmap & _).
  assert (Hfresh : protocolTxId tx = None).
  { pose proof Hmap as Hm.
    unfold TransactionMapper.mapToTransaction, createTransaction in Hm.
    injection Hm as <-. reflexivity. }
  exists tx, (set_nextTxId N.succ w). split; [exact Hmap|]. split.
  { pose proof Hmap as Hm.
    unfold TransactionMapper.mapToTransaction, createTransaction in Hm.
    injection Hm as <-. reflexivity. }
  split; [|split].
  - intros result b' resp w3 Heval Hallow.
    destruct (CircuitBreaker.getOrCreate fkey (breakers (set_nextTxId N.succ w)))
      as [b bs] eqn:G.
    intros Hadm Hcall out. subst out.
    unfold wrapped_settle. run. fold txKey. rewrite Hnone. run. rewrite Hmap.
    cbn [transaction freshContext]. rewrite Heval.
    assert (Hgo : negb (allowed result) && abortOnDeny self = false).
    { destruct Hallow as [-> | ->]; [reflexivity|apply andb_false_r]. }
    rewrite Hgo. unfold CircuitBreaker.execute. rewrite G, Hadm. rewrite Hcall.
    unfold final. rewrite Hfresh.
    destruct (success resp) eqn:S; simpl; (split; [reflexivity|]);
      (split; [rewrite lookup_insert_eq; unfold set_settled, set_transaction, freshContext;
               simpl; reflexivity|]);
      (split; [apply lookup_insert_eq|]); rewrite ?app_nil_r; reflexivity.
  - intros e. unfold wrapped_settle. run. fold txKey. rewrite Hnone. run. rewrite Hmap.
    cbn [transaction freshContext].
    destruct (evaluate (policyEngine self) (set_nextTxId N.succ w) tx) as [result|e0] eqn:Heval.
    2:{ simpl. intros [= ->]. now left. }
    destruct (negb (allowed result) && abortOnDeny self); [simpl; discriminate|].
    unfold CircuitBreaker.execute.
    destruct (CircuitBreaker.getOrCreate fkey (breakers (set_nextTxId N.succ w)))
      as [b bs] eqn:G.
    destruct (CircuitBreaker.admission (breakerConfig self) _ fkey b)
      as [b' [e1|]] eqn:Hadm.
    { simpl. intros [= ->]. right. left. eapply admission_rejection, Hadm. }
    match goal with |- context [settle client p r ?w0] =>
      destruct (settle client p r w0) as [[resp|e2] w3] eqn:Hcall end.
    + destruct (success resp); simpl; discriminate.
    + simpl. intros [= ->]. right. right. eexists. rewrite Hcall. reflexivity.
  - intros resp out. subst out.
    unfold handleAfterSettle. run. fold txKey. rewrite Hnone. run. rewrite Hmap.
    cbn [transaction freshContext].
    unfold final. rewrite Hfresh.
    destruct (success resp) eqn:S; simpl; (split; [reflexivity|]);
      (split; [rewrite lookup_insert_eq; unfold set_settled, set_transaction, freshContext;
               simpl; reflexivity|]);
      (split; [apply lookup_insert_eq|]); rewrite ?app_nil_r; reflexivity.
Qed.

End SettleWithoutContext.

(** C7 in a process that has just started (no context stored): the wrapped
    [settle] of the sample payment under an allowing policy returns the
    facilitator's response and records the payment of 45 USDC from 0xAgent
    to 0xMerchant as completed, with the facilitator's transaction hash;
    the [onAfterSettle] hook, given a failed settlement, returns normally
    and records the same payment as failed. *)
Lemma C7_settle_without_context_synthesizes_witness :
  let self := Adapter.new allowAll emptyConfig in
  let accepted := {| success := true; txHash := Some "0xabc"; s_network := Some "base" |} in
  let refused := {| success := false; txHash := None; s_network := None |} in
  let payment (s : TransactionStatus) (hash : option string) :=
    {| tx_id := "tx_0"; agentId := "0xAgent"; recipient := "0xMerchant";
       amount := 45%float; currency := "USDC";
       purpose := "x402 payment to 0xMerchant"; protocol := "x402";
       status := s; createdAt := 0; updatedAt := 0; protocolTxId := hash;
       metadata :=
         {| md_x402Version := 1; md_scheme := Some "exact"; md_network := Some "base";
            md_resource := Some "https://api.example.com/data";
            md_maxAmountRequired := Some "45000000" |} |} in
  let settled :=
    Adapter.wrapped_settle sampleNumber self acceptingClient sampleKey
      samplePayload sampleRequirements initialWorld in
  let hooked :=
    Adapter.handleAfterSettle sampleNumber self samplePayload sampleRequirements
      refused initialWorld in
  settled.1 = Returned accepted
  /\ tracker settled.2 !! "tx_0" = Some (payment completed (Some "0xabc"))
  /\ hooked.1 = Returned tt
  /\ tracker hooked.2 !! "tx_0" = Some (payment failed None).
Proof.
  intros self accepted refused payment settled hooked.
  destruct (C7_settle_without_context_synthesizes sampleNumber self acceptingClient
              sampleKey samplePayload sampleRequirements initialWorld
              (lookup_empty _))
    as (tx & w1 & Hmap & Htx & Hproceed & _ & Hhook).
  unfold TransactionMapper.mapToTransaction, createTransaction in Hmap.
  injection Hmap as _ <-.
  assert (Hvalue : tx = payment pending None) by (rewrite Htx; vm_compute; reflexivity).
  specialize (Hproceed {| action := allow; allowed := true; reason := "Allowed" |}
                CircuitBreaker.fresh accepted).
  edestruct Hproceed as (Hout & _ & Htracked & _);
    [subst tx; reflexivity|left; reflexivity|reflexivity|reflexivity|].
  destruct (Hhook refused) as (Hret & _ & Hfailed & _).
  rewrite Hvalue in Htracked, Hfailed.
  split; [exact Hout|]. split; [exact Htracked|]. split; [exact Hret|exact Hfailed].
Defined.

Section Retryability.
Import Engines Adapter.

(** The classification is decided by the network-class signals alone. *)
Lemma classifyRetryability_networkSignal error :
  classifyRetryability error =
    instanceofError error && networkSignal (toLowerCase (errorMessage error)).
Proof.
  unfold classifyRetryability, networkSignal.
  destruct (instanceofError error); simpl; [|reflexivity].
  repeat match goal with
         | |- context [includes ?m ?k] => destruct (includes m k); simpl
         end; reflexivity.
Qed.

(** C8 as stated does not hold: an auth-class message that also carries a
    network-class signal is classified retryable.  The message below
    contains "denied" and "429". *)
Lemma C8_auth_class_message_can_be_retryable :
  let message := "Request denied: upstream returned 429" in
  authSignal (toLowerCase message) = true
  /\ classifyRetryability (JsError message) = true
  /\ ~ (forall message,
          authSignal (toLowerCase message) = true ->
          classifyRetryability (JsError message) = false).
Proof.
  cbv zeta. split; [reflexivity|]. split; [reflexivity|].
  intros H.
  specialize (H "Request denied: upstream returned 429" eq_refl).
  vm_compute in H. discriminate.
Qed.

(** C8, amended.  [classifyRetryability] checks the network-class signals
    first:
    - an [Error] whose lower-cased message contains timeout, econnreset,
      econnrefused, network, socket, dns, 502, 503 or 429 is retryable;
    - every other value is not: a value that is not an [Error], and an
      [Error] whose message carries none of those signals, whether it is
      auth/validation/funds-class (401, 403, invalid, insufficient, denied)
      or unrecognized.
    [handleSettleFailure] calls no facilitator (no retry); when a context is
    stored for the fingerprint it writes the flag, with the message, into
    the [settlement: fail] entry it appends to the configured trail. *)
Theorem C8_classifyRetryability_network_signals_first :
  (forall error,
     instanceofError error = true ->
     networkSignal (toLowerCase (errorMessage error)) = true ->
     classifyRetryability error = true)
  /\
  (forall error,
     instanceofError error = false \/
     networkSignal (toLowerCase (errorMessage error)) = false ->
     classifyRetryability error = false)
  /\
  (forall self p r error w,
     calls (handleSettleFailure self p r error w).2 = calls w)
  /\
  (forall self p r error w ctx log,
     contexts w !! TransactionMapper.transactionKey p r = Some ctx ->
     provenance w = Some log ->
     provenance (handleSettleFailure self p r error w).2 =
       Some (log ++
             [{| pr_tx := tx_id (transaction ctx); pr_stage := settlement;
                 pr_outcome := fail;
                 pr_details :=
                   SettlementErrorDetails (errorMessage error)
                     (classifyRetryability error);
                 pr_timestamp := clock w |}])).
Proof.
  split; [|split; [|split]].
  - intros error He Hn. rewrite classifyRetryability_networkSignal, He, Hn. reflexivity.
  - intros error [He|Hn]; rewrite classifyRetryability_networkSignal.
    + now rewrite He.
    + rewrite Hn. apply andb_false_r.
  - intros self p r error w. unfold handleSettleFailure. run.
    destruct (contexts w !! _); reflexivity.
  - intros self p r error w ctx log Hctx Hlog. unfold handleSettleFailure. run.
    rewrite Hctx. simpl. rewrite Hlog. reflexivity.
Qed.

End Retryability.

(** C8, amended, on four failures: a timeout is retryable; an invalid
    signature, a thrown string and an unrecognized message are not. *)
Lemma C8_classifyRetryability_network_signals_first_witness :
  let self := Adapter.new allowAll emptyConfig in
  let w :=
    after (Adapter.handleBeforeVerify sampleNumber self samplePayload sampleRequirements)
      initialWorld in
  let timeout := JsError "Request timeout after 30000ms" in
  Adapter.classifyRetryability timeout = true
  /\ Adapter.classifyRetryability (JsError "Invalid signature") = false
  /\ Adapter.classifyRetryability (NonError "ECONNRESET") = false
  /\ Adapter.classifyRetryability (JsError "something went wrong") = false
  /\ (fmap (fun e => (pr_stage e, pr_outcome e, pr_details e))
        (provenance
           (after (Adapter.handleSettleFailure self samplePayload sampleRequirements
                     timeout) w)
         ≫= last))
      = Some (settlement, fail,
              SettlementErrorDetails "Request timeout after 30000ms" true).
Proof.
  intros self w timeout.
  destruct C8_classifyRetryability_network_signals_first as (Hyes & Hno & _ & Hrec).
  split; [|split; [|split; [|split]]].
  - apply Hyes; reflexivity.
  - apply Hno. right. reflexivity.
  - apply Hno. left. reflexivity.
  - apply Hno. right. reflexivity.
  - unfold after.
    erewrite (Hrec self samplePayload sampleRequirements timeout w);
      [|vm_compute; reflexivity|vm_compute; reflexivity].
    vm_compute. reflexivity.
Defined.

(* ===================================================================== *)
(** * Further properties of the circuit breaker *)
(* ===================================================================== *)

Section SequentialCalls.
Import CircuitBreaker.

Context (cfg : CircuitBreakerConfig) (key : string).

Lemma getOrCreate_after_lookup (bs : gmap string BreakerState) b :
  bs !! key = Some b -> (getOrCreate key bs).1 = b.
Proof. intros H. now rewrite (getOrCreate_found key bs b H). Qed.

Lemma admission_closed now b :
  state b = closed -> admission cfg now key b = (b, None).
Proof. intros H. unfold admission. rewrite H. simpl. now rewrite H. Qed.

(** One call on a closed breaker, with a wrapped function that has no
    effect of its own. *)
Lemma closed_step (ok : bool) w b :
  (getOrCreate key (breakers w)).1 = b ->
  state b = closed ->
  clock (runCalls cfg key [ok] w) = clock w
  /\ breakers (runCalls cfg key [ok] w) !! key
       = Some (if ok then onSuccess b else onFailure cfg (clock w) b).
Proof.
  intros Hb Hs. unfold runCalls. cbn [fold_left]. unfold execute.
  destruct (getOrCreate key (breakers w)) as [b0 bs] eqn:G. simpl in Hb. subst b0.
  rewrite (admission_closed _ _ Hs).
  destruct ok; cbn; unfold update, getOrCreate; destruct w; cbn;
    rewrite lookup_insert_eq; cbn; rewrite lookup_insert_eq; auto.
Qed.

Lemma runCalls_cons ok rest w :
  runCalls cfg key (ok :: rest) w = runCalls cfg key rest (runCalls cfg key [ok] w).
Proof. reflexivity. Qed.

Lemma runCalls_app pre post w :
  runCalls cfg key (pre ++ post) w = runCalls cfg key post (runCalls cfg key pre w).
Proof. unfold runCalls. apply fold_left_app. Qed.

Lemma failuresIn_nonneg outcomes : 0 <= failuresIn outcomes.
Proof. induction outcomes as [|[] rest IH]; simpl; lia. Qed.

(** X1.  Calls made one after the other on a closed breaker, whose wrapped
    functions have no effect of their own: while the failures among them,
    added to the stored [failureCount], stay below [failureThreshold], the
    breaker stays closed, [failureCount] has grown by the number of
    failures and [successCount] by the number of successes, in whatever
    order they came; and the next failing call opens the breaker exactly
    when it takes the count to the threshold. *)
Theorem X1_closed_breaker_counts_every_failure outcomes : forall w b,
  (getOrCreate key (breakers w)).1 = b ->
  state b = closed ->
  failureCount b + failuresIn outcomes < failureThreshold cfg ->
  let found w' := (getOrCreate key (breakers w')).1 in
  let b' := found (runCalls cfg key outcomes w) in
  state b' = closed
  /\ failureCount b' = failureCount b + failuresIn outcomes
  /\ successCount b' = successCount b + successesIn outcomes
  /\ state (found (runCalls cfg key (outcomes ++ [false]) w))
       = (if failureThreshold cfg <=? failureCount b + failuresIn outcomes + 1
          then open else closed).
Proof.
  induction outcomes as [|ok rest IH]; intros w b Hb Hs Hlt found b'.
  - subst b' found. cbn [runCalls fold_left failuresIn successesIn app].
    rewrite Hb, !Z.add_0_r. repeat split; auto.
    destruct (closed_step false w b Hb Hs) as [_ Hl].
    unfold runCalls in Hl. cbn [fold_left] in Hl.
    rewrite (getOrCreate_after_lookup _ _ Hl). apply (onFailure_closed cfg _ b Hs).
  - subst b' found. cbn beta.
    change ((ok :: rest) ++ [false]) with (ok :: (rest ++ [false])).
    rewrite (runCalls_cons ok rest), (runCalls_cons ok (rest ++ [false])).
    destruct (closed_step ok w b Hb Hs) as [_ Hl].
    apply getOrCreate_after_lookup in Hl.
    pose proof (failuresIn_nonneg rest) as Hnn.
    cbn [failuresIn successesIn] in *.
    destruct ok.
    + destruct (onSuccess_closed_keeps_failureCount b Hs) as [Hs1 Hf1].
      specialize (IH _ _ Hl Hs1). rewrite Hf1 in IH. specialize (IH ltac:(lia)).
      cbv zeta in IH. destruct IH as (H1 & H2 & H3 & H4).
      rewrite H1, H2, H3, H4. unfold onSuccess. rewrite Hs. cbn.
      replace (failureCount b + (0 + failuresIn rest) + 1)
        with (failureCount b + failuresIn rest + 1) by lia.
      repeat split; lia.
    + assert (Hs1 : state (onFailure cfg (clock w) b) = closed).
      { rewrite (onFailure_closed cfg _ b Hs).
        destruct (Z.leb_spec (failureThreshold cfg) (failureCount b + 1)); [lia|reflexivity]. }
      specialize (IH _ _ Hl Hs1). rewrite onFailure_increments in IH.
      specialize (IH ltac:(lia)).
      cbv zeta in IH. destruct IH as (H1 & H2 & H3 & H4).
      rewrite H1, H2, H3, H4.
      assert (Hsc : successCount (onFailure cfg (clock w) b) = successCount b).
      { unfold onFailure, transitionTo. cbn. rewrite Hs. cbn.
        destruct (failureThreshold cfg <=? failureCount b + 1); reflexivity. }
      rewrite Hsc.
      replace (failureCount b + (1 + failuresIn rest) + 1)
        with (failureCount b + 1 + failuresIn rest + 1) by lia.
      repeat split; lia.
Qed.

End SequentialCalls.

(** X1 under the default threshold of 5, starting with a key never seen:
    after two failures, a success and two more failures the breaker is
    still closed with [failureCount] 4, and one more failure opens it. *)
Lemma X1_closed_breaker_counts_every_failure_witness :
  let outcomes := [false; false; true; false; false] in
  let found w := (CircuitBreaker.getOrCreate sampleKey (breakers w)).1 in
  state (found (runCalls CircuitBreaker.DEFAULT_CONFIG sampleKey outcomes initialWorld))
    = closed
  /\ failureCount
       (found (runCalls CircuitBreaker.DEFAULT_CONFIG sampleKey outcomes initialWorld)) = 4
  /\ state (found (runCalls CircuitBreaker.DEFAULT_CONFIG sampleKey
                     (outcomes ++ [false]) initialWorld)) = open.
Proof.
  intros outcomes found.
  destruct (X1_closed_breaker_counts_every_failure CircuitBreaker.DEFAULT_CONFIG sampleKey
              outcomes initialWorld CircuitBreaker.fresh eq_refl eq_refl
              ltac:(simpl; lia)) as (H1 & H2 & _ & H4).
  split; [exact H1|]. split; [exact H2|exact H4].
Defined.

Section StateProjection.
Import CircuitBreaker.

Context (cfg : CircuitBreakerConfig) (key : string).

Lemma set_breakers_found w :
  set_breakers (fun _ => <[key := (getOrCreate key (breakers w)).1]>
                           (getOrCreate key (breakers w)).2) w
  = set_breakers (fun bs => (getOrCreate key bs).2) w.
Proof.
  unfold set_breakers. f_equal. apply insert_id, getOrCreate_lookup.
Qed.

(** When [getState] reports closed, [execute] runs the wrapped function and
    records its outcome. *)
Lemma execute_when_closed {T} (fn : M T) (w : World) :
  getState cfg key w = closed ->
  execute cfg key fn w =
    match fn (set_breakers (fun bs => (getOrCreate key bs).2) w) with
    | (Returned r, w2) => (Returned r, update key onSuccess w2)
    | (Threw e, w2) => (Threw e, update key (onFailure cfg (clock w2)) w2)
    end.
Proof.
  unfold getState. intros Hc.
  assert (Hs : state (getOrCreate key (breakers w)).1 = closed).
  { unfold getOrCreate. destruct (breakers w !! key) as [b|]; [|reflexivity].
    simpl. destruct (state b); try reflexivity; try discriminate.
    destruct (_ <=? _); discriminate. }
  unfold execute. rewrite <- set_breakers_found.
  destruct (getOrCreate key (breakers w)) as [b bs]. simpl in *.
  rewrite (admission_closed cfg key _ b Hs). reflexivity.
Qed.

(** X2.  What [getState] reports decides what the next [execute] at the
    same instant does.
    - [open]: the call is rejected with a positive remaining cooldown, the
      wrapped function does not run and the state is untouched.
    - [closed]: the wrapped function runs (on a state that holds a breaker
      for the key) and its outcome is recorded.
    - [half-open]: the call is a probe.  The stored breaker becomes
      half-open if it was not yet.  If the probe limit is reached,
      [execute] throws [CircuitBreakerOpenError] with remaining time 0 and
      the wrapped function does not run; otherwise [execute] counts the
      probe, runs the wrapped function and records its outcome. *)
Theorem X2_getState_predicts_execute {T} (fn : M T) (w : World) :
  (getState cfg key w = open ->
     exists ms, 0 < ms /\
       execute cfg key fn w = (Threw (CircuitBreakerOpenError key ms), w))
  /\
  (getState cfg key w = closed ->
     execute cfg key fn w =
       match fn (set_breakers (fun bs => (getOrCreate key bs).2) w) with
       | (Returned r, w2) => (Returned r, update key onSuccess w2)
       | (Threw e, w2) => (Threw e, update key (onFailure cfg (clock w2)) w2)
       end)
  /\
  (getState cfg key w = half_open ->
     exists b, breakers w !! key = Some b
       /\ state (admission cfg (clock w) key b).1 = half_open
       /\ (admission cfg (clock w) key b).2 =
            (if halfOpenMaxRequests cfg <=? halfOpenRequests b
             then Some (CircuitBreakerOpenError key 0) else None)
       /\ state (transitionTo b half_open) = half_open
       /\ (halfOpenMaxRequests cfg <= halfOpenRequests b ->
           execute cfg key fn w
           = (Threw (CircuitBreakerOpenError key 0),
              set_breakers (fun bs => <[key := transitionTo b half_open]> bs) w))
       /\ (halfOpenRequests b < halfOpenMaxRequests cfg ->
           execute cfg key fn w
           = match fn (set_breakers
                         (fun bs => <[key := set_halfOpenRequests (halfOpenRequests b + 1)
                                               (transitionTo b half_open)]> bs) w) with
             | (Returned r, w2) => (Returned r, update key onSuccess w2)
             | (Threw e, w2) => (Threw e, update key (onFailure cfg (clock w2)) w2)
             end)).
Proof.
  split; [|split]; [unfold getState| |unfold getState].
  - destruct (breakers w !! key) as [b|] eqn:Hb; [|discriminate].
    destruct (state b) eqn:Hs; try discriminate.
    destruct (Z.leb_spec (recoveryTimeoutMs cfg) (clock w - lastFailureTime b));
      [discriminate|]. intros _.
    exists (recoveryTimeoutMs cfg - (clock w - lastFailureTime b)). split; [lia|].
    rewrite (execute_rejected cfg key fn w b b _ Hb
               (admission_open_cooling cfg key b (clock w) Hs ltac:(lia))).
    now rewrite (set_breakers_same key b w Hb).
  - apply execute_when_closed.
  - destruct (breakers w !! key) as [b|] eqn:Hb; [|discriminate].
    intros Hh. exists b. split; [reflexivity|].
    assert (Hadm : admission cfg (clock w) key b
                   = if halfOpenMaxRequests cfg <=? halfOpenRequests b
                     then (transitionTo b half_open, Some (CircuitBreakerOpenError key 0))
                     else (set_halfOpenRequests (halfOpenRequests b + 1)
                             (transitionTo b half_open), None)).
    { unfold admission, transitionTo.
      destruct (state b) eqn:Hs; try discriminate.
      - destruct (Z.leb_spec (recoveryTimeoutMs cfg) (clock w - lastFailureTime b));
          [|discriminate].
        simpl. destruct (halfOpenMaxRequests cfg <=? halfOpenRequests b); reflexivity.
      - simpl. rewrite Hs. reflexivity. }
    assert (Hprobing : state (transitionTo b half_open) = half_open).
    { unfold transitionTo. destruct (state b) eqn:Hs; simpl; auto. }
    split; [|split; [|split; [|split]]].
    + rewrite Hadm. destruct (halfOpenMaxRequests cfg <=? halfOpenRequests b);
        simpl; exact Hprobing.
    + rewrite Hadm. now destruct (halfOpenMaxRequests cfg <=? halfOpenRequests b).
    + exact Hprobing.
    + intros Hfull.
      destruct (Z.leb_spec (halfOpenMaxRequests cfg) (halfOpenRequests b)); [|lia].
      now rewrite (execute_rejected cfg key fn w b _ _ Hb Hadm).
    + intros Hfree.
      destruct (Z.leb_spec (halfOpenMaxRequests cfg) (halfOpenRequests b)); [lia|].
      now rewrite (execute_admitted cfg key fn w b _ Hb Hadm).
Qed.

(** X5.  Breakers are independent: a call through the breaker of one key
    leaves the breaker of every other key as the wrapped function left it.
    A failing facilitator does not open the circuit of another one. *)
Theorem X5_execute_leaves_other_keys {T} (fn : M T) (w : World) (other : string) :
  key <> other ->
  keeps_breakers fn ->
  breakers (execute cfg key fn w).2 !! other = breakers w !! other.
Proof.
  intros Hne Hfn. unfold execute.
  assert (Hbs : (getOrCreate key (breakers w)).2 !! other = breakers w !! other).
  { unfold getOrCreate. destruct (breakers w !! key); simpl; [reflexivity|].
    now rewrite lookup_insert_ne. }
  destruct (getOrCreate key (breakers w)) as [b bs]. simpl in Hbs.
  destruct (admission cfg (clock w) key b) as [b' [e|]].
  - destruct w; simpl in *. now rewrite lookup_insert_ne.
  - match goal with |- context [fn ?w0] =>
      pose proof (Hfn w0) as Hk; destruct (fn w0) as [[r|e] w2] end;
      simpl in *; unfold update;
      destruct w2 as [? ? bs2 ? ? ? ? ? ?]; destruct w; simpl in *; subst bs2;
      destruct (getOrCreate key _) as [b2 bs2] eqn:G; simpl;
      rewrite lookup_insert_ne by done;
      unfold getOrCreate in G; rewrite lookup_insert_eq in G;
      injection G as _ <-; now rewrite lookup_insert_ne.
Qed.

(** X7.  A call admitted while the breaker was closed and completing after
    the breaker has been opened by other calls: its success leaves the
    breaker open (only [successCount] grows); its failure restarts the
    cooldown, setting [lastFailureTime] to the completion time, and adds to
    [failureCount]. *)
Theorem X7_completion_on_open_breaker {T} (fn : M T) (w w' : World)
    (b' : BreakerState) :
  getState cfg key w = closed ->
  breakers w' !! key = Some b' ->
  state b' = open ->
  let w1 := set_breakers (fun bs => (getOrCreate key bs).2) w in
  (forall r, fn w1 = (Returned r, w') ->
     breakers (execute cfg key fn w).2 !! key
       = Some (set_successCount (successCount b' + 1) b'))
  /\
  (forall e, fn w1 = (Threw e, w') ->
     breakers (execute cfg key fn w).2 !! key
       = Some (set_lastFailureTime (clock w')
                 (set_failureCount (failureCount b' + 1) b'))).
Proof.
  intros Hc Hb' Hs' w1.
  pose proof (execute_when_closed fn w Hc) as Hrun. fold w1 in Hrun. split.
  - intros r Hfn. rewrite Hrun, Hfn. cbn [snd].
    rewrite (update_lookup key _ _ _ Hb'). unfold onSuccess. now rewrite Hs'.
  - intros e Hfn. rewrite Hrun, Hfn. cbn [snd].
    rewrite (update_lookup key _ _ _ Hb'). unfold onFailure. simpl. now rewrite Hs'.
Qed.

End StateProjection.

(** X2 at time 2000 and at time 31000 on a breaker that opened at time 1000
    (default cooldown 30000), on a key never seen, and on a half-open
    breaker whose single probe slot is taken. *)
Lemma X2_getState_predicts_execute_witness :
  let cfg := CircuitBreaker.DEFAULT_CONFIG in
  let taken := CircuitBreaker.set_halfOpenRequests 1 halfOpenBreaker in
  (exists ms, 0 < ms /\
     CircuitBreaker.execute cfg sampleKey probe (worldWith openBreaker 2000)
       = (Threw (CircuitBreakerOpenError sampleKey ms), worldWith openBreaker 2000))
  /\ (CircuitBreaker.execute cfg sampleKey probe initialWorld).1 = Returned tt
  /\ (let run := CircuitBreaker.execute cfg sampleKey probe (worldWith openBreaker 31000) in
      run.1 = Returned tt /\ length (calls run.2) = 1%nat
      /\ state <$> breakers run.2 !! sampleKey = Some closed)
  /\ CircuitBreaker.execute cfg sampleKey probe (worldWith taken 31000)
     = (Threw (CircuitBreakerOpenError sampleKey 0), worldWith taken 31000).
Proof.
  intros cfg taken. split; [|split; [|split]].
  - destruct (X2_getState_predicts_execute cfg sampleKey probe
                (worldWith openBreaker 2000)) as (H & _ & _).
    apply H. reflexivity.
  - destruct (X2_getState_predicts_execute cfg sampleKey probe initialWorld)
      as (_ & H & _).
    rewrite (H eq_refl). reflexivity.
  - destruct (X2_getState_predicts_execute cfg sampleKey probe
                (worldWith openBreaker 31000)) as (_ & _ & H).
    destruct (H eq_refl) as (b & Hb & _ & _ & _ & _ & Hrun).
    injection Hb as <-. cbv zeta. rewrite Hrun by reflexivity.
    vm_compute. repeat split; reflexivity.
  - destruct (X2_getState_predicts_execute cfg sampleKey probe
                (worldWith taken 31000)) as (_ & _ & H).
    destruct (H eq_refl) as (b & Hb & _ & _ & _ & Hfull & _).
    injection Hb as <-. rewrite Hfull by (vm_compute; discriminate). reflexivity.
Defined.

(** X5 with two facilitators: failing calls to one of them leave the closed
    breaker of the other as it was. *)
Lemma X5_execute_leaves_other_keys_witness :
  let other := "https://other.example.com" in
  let w := set_breakers (fun bs => <[other := closedBreaker]> bs) initialWorld in
  breakers (CircuitBreaker.execute CircuitBreaker.DEFAULT_CONFIG sampleKey failing w).2
    !! other = Some closedBreaker.
Proof.
  intros other w.
  rewrite (X5_execute_leaves_other_keys CircuitBreaker.DEFAULT_CONFIG sampleKey
             failing w other); [reflexivity|discriminate|].
  intros w0. reflexivity.
Defined.

(** X7 on a call admitted for a key never seen, during which the breaker
    of the key is opened (last failure at 1000) and the clock reaches 900:
    a success leaves the breaker open; a failure sets [lastFailureTime]
    to 900. *)
Lemma X7_completion_on_open_breaker_witness :
  let cfg := CircuitBreaker.DEFAULT_CONFIG in
  breakers (CircuitBreaker.execute cfg sampleKey (trippedMeanwhile true) initialWorld).2
    !! sampleKey
    = Some {| state := open; failureCount := 5; successCount := 1;
              lastFailureTime := 1000; halfOpenRequests := 0 |}
  /\ breakers (CircuitBreaker.execute cfg sampleKey (trippedMeanwhile false) initialWorld).2
       !! sampleKey
     = Some {| state := open; failureCount := 6; successCount := 0;
               lastFailureTime := 900; halfOpenRequests := 0 |}.
Proof.
  intros cfg. split.
  - destruct (X7_completion_on_open_breaker cfg sampleKey (trippedMeanwhile true)
                initialWorld
                (trippedMeanwhile true
                   (set_breakers (fun bs => (CircuitBreaker.getOrCreate sampleKey bs).2)
                      initialWorld)).2
                openBreaker eq_refl eq_refl eq_refl) as [H _].
    rewrite (H tt eq_refl). reflexivity.
  - destruct (X7_completion_on_open_breaker cfg sampleKey (trippedMeanwhile false)
                initialWorld
                (trippedMeanwhile false
                   (set_breakers (fun bs => (CircuitBreaker.getOrCreate sampleKey bs).2)
                      initialWorld)).2
                openBreaker eq_refl eq_refl eq_refl) as [_ H].
    rewrite (H _ eq_refl). reflexivity.
Defined.

Section Administration.
Import CircuitBreaker BreakerAdmin.

Context (cfg : CircuitBreakerConfig).

Lemma cleared_fields b :
  state (cleared b) = closed /\ failureCount (cleared b) = 0
  /\ successCount (cleared b) = 0 /\ halfOpenRequests (cleared b) = 0
  /\ lastFailureTime (cleared b) = lastFailureTime b.
Proof.
  unfold cleared, transitionTo. destruct (state b) eqn:E; simpl; rewrite ?E; auto.
Qed.

Lemma cleared_idempotent b : cleared (cleared b) = cleared b.
Proof.
  unfold cleared, transitionTo. destruct b as [[] ? ? ? ?]; reflexivity.
Qed.

Lemma reset_as_alter key w :
  reset key w = set_breakers (fun bs => alter cleared key bs) w.
Proof.
  unfold reset. destruct w as [? ? bs ? ? ? ? ? ?]; simpl.
  destruct (bs !! key) as [b|] eqn:E; unfold set_breakers; simpl; f_equal.
  - apply map_eq. intros k. rewrite lookup_insert, lookup_alter.
    case_decide; subst; [now rewrite E|reflexivity].
  - apply map_eq. intros k. rewrite lookup_alter.
    case_decide; subst; [now rewrite E|reflexivity].
Qed.

(** X3.  [reset(key)] on a known key closes the breaker and zeroes
    [failureCount], [successCount] and the probe counter, keeping
    [lastFailureTime]; it touches no other key; [getState] reports closed
    afterwards and the next call runs its function even if the cooldown of
    the breaker had not elapsed.  On a key that has no breaker it changes
    nothing (no breaker is created). *)
Theorem X3_reset_closes_and_readmits {T} (fn : M T) (key : string) (w : World) :
  (forall b, breakers w !! key = Some b ->
     breakers (reset key w) !! key
       = Some {| state := closed; failureCount := 0; successCount := 0;
                 lastFailureTime := lastFailureTime b; halfOpenRequests := 0 |}
     /\ getState cfg key (reset key w) = closed
     /\ (execute cfg key fn (reset key w)).1 = (fn (reset key w)).1)
  /\ (forall other, other <> key ->
        breakers (reset key w) !! other = breakers w !! other)
  /\ (breakers w !! key = None -> reset key w = w).
Proof.
  split; [|split].
  - intros b Hb.
    assert (Hl : breakers (reset key w) !! key = Some (cleared b)).
    { rewrite reset_as_alter. destruct w; simpl in *.
      rewrite lookup_alter_eq, Hb. reflexivity. }
    destruct (cleared_fields b) as (H1 & H2 & H3 & H4 & H5).
    assert (Hg : getState cfg key (reset key w) = closed).
    { unfold getState. now rewrite Hl, H1. }
    split; [|split; [exact Hg|]].
    + rewrite Hl. f_equal. destruct (cleared b); simpl in *. congruence.
    + rewrite (execute_when_closed cfg key fn _ Hg).
      assert (Hw : set_breakers (fun bs => (getOrCreate key bs).2) (reset key w)
                   = reset key w).
      { unfold set_breakers. rewrite (getOrCreate_found key _ _ Hl).
        now destruct (reset key w). }
      rewrite Hw. now destruct (fn (reset key w)) as [[r|e] w2].
  - intros other Hne. rewrite reset_as_alter. destruct w; simpl.
    now rewrite lookup_alter_ne.
  - intros Hn. unfold reset. now rewrite Hn.
Qed.

Lemma fold_reset_breakers ks : forall w,
  fold_left (fun (w : World) (key : string) => reset key w) ks w
  = set_breakers
      (fun bs => fold_left (fun m key => alter cleared key m) ks bs) w.
Proof.
  induction ks as [|k ks IH]; intros w; simpl.
  - now destruct w.
  - rewrite IH, reset_as_alter. now destruct w.
Qed.

Lemma fold_alter_lookup ks : forall (m : gmap string BreakerState) k,
  fold_left (fun m key => alter cleared key m) ks m !! k
  = if decide (k ∈ ks) then cleared <$> m !! k else m !! k.
Proof.
  induction ks as [|k0 ks IH]; intros m k; cbn [fold_left].
  - destruct (decide (k ∈ [])) as [Hin|_]; [|reflexivity].
    now apply elem_of_nil in Hin.
  - rewrite IH, lookup_alter.
    destruct (decide (k ∈ k0 :: ks)) as [Hin|Hnin];
      destruct (decide (k ∈ ks)) as [Hin'|Hnin'];
      destruct (decide (k0 = k)) as [->|Hne]; try reflexivity;
      try (exfalso; apply elem_of_cons in Hin; intuition congruence);
      try (exfalso; apply Hnin, elem_of_cons; auto).
    destruct (m !! k); simpl; [now rewrite cleared_idempotent|reflexivity].
Qed.

Lemma getSnapshot_lookup w key :
  getSnapshot cfg w !! key
  = (fun b => (getState cfg key w, failureCount b)) <$> breakers w !! key.
Proof.
  unfold getSnapshot. rewrite map_lookup_imap.
  destruct (breakers w !! key); reflexivity.
Qed.

Lemma resetAll_as_fmap (w : World) :
  resetAll w = set_breakers (fun bs => cleared <$> bs) w.
Proof.
  unfold resetAll. rewrite fold_reset_breakers. unfold set_breakers. f_equal.
  apply map_eq. intros k. rewrite fold_alter_lookup, lookup_fmap.
  case_decide as Hin; [reflexivity|].
  destruct (breakers w !! k) as [b|] eqn:E; [|reflexivity].
  exfalso. apply Hin. apply list_elem_of_fmap. exists (k, b). split; [reflexivity|].
  now apply elem_of_map_to_list.
Qed.

(** X4.  [resetAll()] resets every breaker of the map and nothing else: each
    known key keeps its breaker, now closed with zeroed counters, and no key
    is added or removed.  A snapshot taken afterwards shows every known key
    as closed with [failureCount] 0. *)
Theorem X4_resetAll_resets_every_breaker (w : World) :
  resetAll w = set_breakers (fun bs => cleared <$> bs) w
  /\ getSnapshot cfg (resetAll w) = (fun _ => (closed, 0)) <$> breakers w.
Proof.
  pose proof (resetAll_as_fmap w) as H.
  split; [exact H|].
  apply map_eq. intros k. rewrite getSnapshot_lookup, H, lookup_fmap.
  unfold getState. destruct w; simpl. rewrite lookup_fmap.
  destruct (_ !! k) as [b|]; simpl; [|reflexivity].
  destruct (cleared_fields b) as (H1 & _). unfold cleared in H1. simpl in H1.
  now rewrite H1.
Qed.

End Administration.

(** X3 on a breaker that opened at time 1000, reset at time 2000 (inside
    the cooldown): the probe runs; and on a process with no breaker. *)
Lemma X3_reset_closes_and_readmits_witness :
  let cfg := CircuitBreaker.DEFAULT_CONFIG in
  let w := worldWith openBreaker 2000 in
  breakers (CircuitBreaker.reset sampleKey w) !! sampleKey
    = Some {| state := closed; failureCount := 0; successCount := 0;
              lastFailureTime := 1000; halfOpenRequests := 0 |}
  /\ (CircuitBreaker.execute cfg sampleKey probe (CircuitBreaker.reset sampleKey w)).1
       = Returned tt
  /\ CircuitBreaker.reset sampleKey initialWorld = initialWorld.
Proof.
  intros cfg w.
  destruct (X3_reset_closes_and_readmits cfg probe sampleKey w) as (Hknown & _ & _).
  destruct (Hknown openBreaker eq_refl) as (Hl & _ & Hrun).
  destruct (X3_reset_closes_and_readmits cfg probe sampleKey initialWorld)
    as (_ & _ & Hnone).
  split; [exact Hl|]. split; [rewrite Hrun; reflexivity|].
  apply Hnone. reflexivity.
Defined.

Section WellFormedBreakers.
Import CircuitBreaker BreakerAdmin.

Context (cfg : CircuitBreakerConfig).
Context (Hthreshold : 1 <= failureThreshold cfg).
Context (Hprobes : 0 <= halfOpenMaxRequests cfg).

Lemma fresh_ok : breaker_ok cfg fresh.
Proof. unfold breaker_ok. simpl. repeat split; auto; lia. Qed.

Lemma cleared_ok b : breaker_ok cfg (cleared b).
Proof.
  destruct (cleared_fields b) as (H1 & H2 & H3 & H4 & _).
  unfold breaker_ok. rewrite H2, H3, H4. repeat split; auto; lia.
Qed.

Lemma onSuccess_ok b : breaker_ok cfg b -> breaker_ok cfg (onSuccess b).
Proof.
  unfold breaker_ok, onSuccess, transitionTo.
  intros (H1 & H2 & H3 & H4 & H5).
  destruct (state b) eqn:E; simpl; rewrite ?E; simpl;
    repeat split; auto; try lia; intros; try discriminate; try congruence.
Qed.

Lemma onFailure_ok now b : breaker_ok cfg b -> breaker_ok cfg (onFailure cfg now b).
Proof.
  unfold breaker_ok, onFailure, transitionTo.
  intros (H1 & H2 & H3 & H4 & H5). simpl.
  destruct (state b) eqn:E; simpl.
  - destruct (Z.leb_spec (failureThreshold cfg) (failureCount b + 1)); simpl;
      rewrite ?E; repeat split; auto; try lia; intros; try discriminate.
    all: apply H5; discriminate.
  - rewrite E. repeat split; auto; try lia; intros; try discriminate.
  - repeat split; auto; try lia; intros; try discriminate.
Qed.

Lemma admission_ok now key b :
  breaker_ok cfg b -> breaker_ok cfg (admission cfg now key b).1.
Proof.
  unfold breaker_ok, admission, transitionTo.
  intros (H1 & H2 & H3 & H4 & H5).
  destruct (state b) eqn:E; simpl.
  - rewrite E. simpl. rewrite E. repeat split; auto; lia.
  - assert (H0 : halfOpenRequests b = 0) by (apply H5; discriminate).
    destruct (recoveryTimeoutMs cfg <=? now - lastFailureTime b); simpl.
    + destruct (Z.leb_spec (halfOpenMaxRequests cfg) (halfOpenRequests b)); simpl;
        repeat split; auto; try lia; intros; try discriminate; try congruence.
    + rewrite E. repeat split; auto; try lia; intros; try discriminate.
  - rewrite E.
    destruct (Z.leb_spec (halfOpenMaxRequests cfg) (halfOpenRequests b)); simpl;
      rewrite ?E; repeat split; auto; try lia; intros; try discriminate;
      try congruence.
Qed.

Lemma update_ok key f w :
  (forall b, breaker_ok cfg b -> breaker_ok cfg (f b)) ->
  breakers_ok cfg w -> breakers_ok cfg (update key f w).
Proof.
  intros Hf Hw k b. unfold update, getOrCreate. destruct w as [? ? bs ? ? ? ? ? ?]; simpl in *.
  destruct (bs !! key) eqn:E; rewrite lookup_insert; case_decide; subst.
  - intros [= <-]. apply Hf. eapply Hw. simpl. exact E.
  - apply Hw.
  - intros [= <-]. apply Hf, fresh_ok.
  - rewrite lookup_insert_ne by done. apply Hw.
Qed.

(** X6.  Under a configuration with [failureThreshold] at least 1 and a
    probe limit that is not negative, every breaker keeps this shape
    through [execute], [reset] and [resetAll] (as long as what runs during
    the wrapped function keeps it too): counters are never negative; a
    closed breaker holds fewer failures than the threshold; the probe
    counter is 0 outside the half-open state and never exceeds the limit. *)
Theorem X6_breakers_stay_well_formed {T} (fn : M T) (key : string) (w : World) :
  breakers_ok cfg w ->
  (forall w', breakers_ok cfg w' -> breakers_ok cfg (fn w').2) ->
  breakers_ok cfg (execute cfg key fn w).2
  /\ breakers_ok cfg (reset key w)
  /\ breakers_ok cfg (resetAll w).
Proof.
  intros Hw Hfn. split; [|split].
  - unfold execute.
    destruct (getOrCreate key (breakers w)) as [b bs] eqn:G.
    destruct (admission cfg (clock w) key b) as [b' rej] eqn:A.
    assert (Hb : breaker_ok cfg b).
    { unfold getOrCreate in G. destruct (breakers w !! key) eqn:E; inversion G; subst.
      - eapply Hw; eauto.
      - apply fresh_ok. }
    assert (Hbs : forall k x, bs !! k = Some x -> breaker_ok cfg x).
    { unfold getOrCreate in G. destruct (breakers w !! key) eqn:E; inversion G; subst.
      - apply Hw.
      - intros k x. rewrite lookup_insert.
        case_decide; [intros [= <-]; apply fresh_ok|apply Hw]. }
    assert (Hw1 : breakers_ok cfg (set_breakers (fun _ => <[key := b']> bs) w)).
    { intros k x. destruct w; simpl. rewrite lookup_insert. case_decide.
      - intros [= <-]. pose proof (admission_ok clock0 key b Hb) as H'. simpl in *.
        rewrite A in H'. exact H'.
      - apply Hbs. }
    destruct rej; simpl; [exact Hw1|].
    specialize (Hfn _ Hw1).
    destruct (fn _) as [[r|e] w']; simpl in *.
    + apply update_ok; [apply onSuccess_ok|exact Hfn].
    + apply update_ok; [apply onFailure_ok|exact Hfn].
  - rewrite reset_as_alter. intros k b. destruct w; simpl.
    rewrite lookup_alter. case_decide; subst.
    + destruct (breakers0 !! k) eqn:E; simpl; [|discriminate].
      intros [= <-]. apply cleared_ok.
    + apply (Hw k b).
  - rewrite resetAll_as_fmap.
    intros k b. destruct w; simpl. rewrite lookup_fmap.
    destruct (breakers0 !! k); simpl; [|discriminate].
    intros [= <-]. apply cleared_ok.
Qed.

End WellFormedBreakers.

(** X6 under the default configuration, for a failing call in a process
    that has just started. *)
Lemma X6_breakers_stay_well_formed_witness :
  breakers_ok CircuitBreaker.DEFAULT_CONFIG
    (CircuitBreaker.execute CircuitBreaker.DEFAULT_CONFIG sampleKey failing initialWorld).2
  /\ breakers_ok CircuitBreaker.DEFAULT_CONFIG (BreakerAdmin.resetAll initialWorld).
Proof.
  assert (H0 : breakers_ok CircuitBreaker.DEFAULT_CONFIG initialWorld).
  { intros k b. simpl. rewrite lookup_empty. discriminate. }
  destruct (X6_breakers_stay_well_formed CircuitBreaker.DEFAULT_CONFIG
              ltac:(simpl; lia) ltac:(simpl; lia) failing sampleKey initialWorld H0
              (fun w' Hw' => Hw')) as (H1 & _ & H3).
  split; [exact H1|exact H3].
Defined.

(* ===================================================================== *)
(** * Further properties of the transaction mapper *)
(* ===================================================================== *)

Section KeyFacts.
Import TransactionMapper.

Lemma colonFree_tail c s : colonFree (String c s) -> c <> ":"%char /\ colonFree s.
Proof.
  unfold colonFree. cbn [includes String.prefix].
  destruct (ascii_dec ":" c) as [<-|Hne].
  - destruct s; discriminate.
  - intros H. split; [congruence|exact H].
Qed.

Lemma append_nil_l (s : string) : "" +:+ s = s.
Proof. reflexivity. Qed.

Lemma append_cons (c : ascii) (a s : string) : String c a +:+ s = String c (a +:+ s).
Proof. reflexivity. Qed.

(** Two colon-free strings followed by a colon start the same text only if
    they are equal. *)
Lemma split_at_colon a : forall a' rest rest',
  colonFree a -> colonFree a' ->
  a +:+ ":" +:+ rest = a' +:+ ":" +:+ rest' ->
  a = a' /\ rest = rest'.
Proof.
  induction a as [|c a IH]; intros [|c' a'] rest rest' Ha Ha' H;
    rewrite ?append_cons, ?append_nil_l in H.
  - injection H as ->. auto.
  - injection H as <- _. apply colonFree_tail in Ha' as [Hc _]. congruence.
  - injection H as -> _. apply colonFree_tail in Ha as [Hc _]. congruence.
  - injection H as <- H.
    apply colonFree_tail in Ha as [_ Ha]. apply colonFree_tail in Ha' as [_ Ha'].
    destruct (IH _ _ _ Ha Ha' H) as [-> ->]. auto.
Qed.

(** X8.  The fingerprint [transactionKey] builds tells two payments apart
    exactly by payer address, recipient and raw amount (with the defaults
    ['unknown'], ['unknown'] and ['0'] for missing ones), provided the payer
    address and the recipient contain no colon.  With a colon in them two
    different payers can share a fingerprint. *)
Theorem X8_transactionKey_separates_colon_free_parts
    (p p' : X402PaymentPayload) (r r' : X402PaymentRequirements) :
  (colonFree (keyPayer p) -> colonFree (keyPayer p') ->
   colonFree (keyPayTo r) -> colonFree (keyPayTo r') ->
   (transactionKey p r = transactionKey p' r'
    <-> keyPayer p = keyPayer p' /\ keyPayTo r = keyPayTo r'
        /\ keyAmount r = keyAmount r'))
  /\ (transactionKey (payloadFrom "a:b") (requirementsTo "c")
      = transactionKey (payloadFrom "a") (requirementsTo "b:c")).
Proof.
  split; [|reflexivity].
  intros Hp Hp' Hr Hr'. unfold transactionKey. fold (keyPayer p) (keyPayer p').
  fold (keyPayTo r) (keyPayTo r') (keyAmount r) (keyAmount r').
  split.
  - intros H. rewrite !append_cons, !append_nil_l in H. injection H as H.
    apply split_at_colon in H as [H1 H]; [|assumption..].
    apply split_at_colon in H as [H2 H3]; [|assumption..].
    auto.
  - intros (-> & -> & ->). reflexivity.
Qed.

Lemma includes_ether_eth s : includes s "ether" = true -> includes s "eth" = true.
Proof.
  rewrite !includes_spec. intros (pre & post & ->).
  exists pre, ("er" +:+ post). reflexivity.
Qed.

(** X9.  The decimals depend on the letters "eth" alone: [inferDecimals] is
    18 exactly when the lower-cased scheme contains "eth" (the test for
    "ether" adds nothing).  [inferCurrency] prefers the stablecoins: a
    scheme containing "usdc" is USDC whatever else it contains, and ETH is
    inferred only when the scheme contains "eth" and neither "usdc" nor
    "usdt".  So a scheme naming both "usdc" and "eth" gets the currency USDC
    and 18 decimals. *)
Theorem X9_scheme_inference (scheme : option string) :
  inferDecimals scheme = (if schemeContains scheme "eth" then 18 else 6)
  /\ (schemeContains scheme "usdc" = true -> inferCurrency scheme = Some "USDC")
  /\ (inferCurrency scheme = Some "ETH"
      <-> schemeContains scheme "eth" = true
          /\ schemeContains scheme "usdc" = false
          /\ schemeContains scheme "usdt" = false)
  /\ (schemeContains scheme "usdc" = true -> schemeContains scheme "eth" = true ->
      inferCurrency scheme = Some "USDC" /\ inferDecimals scheme = 18).
Proof.
  assert (Hd : inferDecimals scheme = (if schemeContains scheme "eth" then 18 else 6)).
  { rewrite inferDecimals_spec.
    destruct (schemeContains scheme "eth") eqn:E; [reflexivity|].
    destruct (schemeContains scheme "ether") eqn:E'; [|reflexivity].
    destruct scheme as [s|]; [|discriminate]. simpl in *.
    apply includes_ether_eth in E'. congruence. }
  assert (Hu : schemeContains scheme "usdc" = true -> inferCurrency scheme = Some "USDC").
  { destruct scheme as [s|]; [|discriminate]. unfold inferCurrency. simpl.
    now intros ->. }
  split; [exact Hd|]. split; [exact Hu|]. split.
  - destruct scheme as [s|]; unfold inferCurrency; simpl.
    + destruct (includes (toLowerCase s) "usdc"); [split; [discriminate|intros (_ & ? & _); discriminate]|].
      destruct (includes (toLowerCase s) "usdt"); [split; [discriminate|intros (_ & _ & ?); discriminate]|].
      destruct (includes (toLowerCase s) "eth") eqn:E; simpl; [tauto|].
      destruct (includes (toLowerCase s) "ether") eqn:E'.
      * apply includes_ether_eth in E'. congruence.
      * simpl. destruct (includes (toLowerCase s) "dai");
          (split; [discriminate|intros (? & _); discriminate]).
    + split; [discriminate|intros (? & _); discriminate].
  - intros H1 H2. split; [now apply Hu|]. now rewrite Hd, H2.
Qed.

End KeyFacts.

(** X8 on two payments that differ in the payer only. *)
Lemma X8_transactionKey_separates_colon_free_parts_witness :
  TransactionMapper.transactionKey (payloadFrom "0xA") (requirementsTo "0xM")
  <> TransactionMapper.transactionKey (payloadFrom "0xB") (requirementsTo "0xM").
Proof.
  destruct (X8_transactionKey_separates_colon_free_parts
              (payloadFrom "0xA") (payloadFrom "0xB")
              (requirementsTo "0xM") (requirementsTo "0xM")) as [H _].
  intros Heq. apply (H eq_refl eq_refl eq_refl eq_refl) in Heq as (Hp & _).
  discriminate Hp.
Defined.

(** X9 on the scheme "USDC-on-Ethereum". *)
Lemma X9_scheme_inference_witness :
  TransactionMapper.inferCurrency (Some "USDC-on-Ethereum") = Some "USDC"
  /\ TransactionMapper.inferDecimals (Some "USDC-on-Ethereum") = 18.
Proof.
  destruct (X9_scheme_inference (Some "USDC-on-Ethereum")) as (_ & _ & _ & H).
  apply H; reflexivity.
Defined.

(* ===================================================================== *)
(** * Further properties of the adapter *)
(* ===================================================================== *)

Section MappedCurrency.
Import Adapter.

Context (Number : string -> float).

(** X10.  The constructor's defaults survive only for the keys the given
    configuration does not have.  A transaction mapped with the
    configuration an adapter holds has the currency USDC when the
    [defaultCurrency] key is missing and the configured currency when the
    key holds one, whatever the scheme; when the key is present with the
    value [undefined] the default is overwritten and the currency is the one
    the scheme implies, or USDC.  The amount is scaled by the scheme's
    decimals in every case.  Likewise a denial aborts when the
    [abortOnPolicyDeny] key is missing or true, and does not when it is
    false or present with [undefined]. *)
Theorem X10_constructor_defaults_by_own_key
    (engine : PolicyEngine) (cfg : X402PaySentryConfig)
    (p : X402PaymentPayload) (r : X402PaymentRequirements) (w w1 : World)
    (tx : AgentTransaction) :
  (TransactionMapper.mapToTransaction Number p r (config (new engine cfg)) w
     = (Returned tx, w1) ->
   currency tx
     = match defaultCurrency cfg with
       | None => "USDC"
       | Some (Some c) => c
       | Some None => default "USDC" (TransactionMapper.inferCurrency (scheme r))
       end
   /\ amount tx = TransactionMapper.extractAmount Number r)
  /\
  abortOnDeny (new engine cfg)
    = match abortOnPolicyDeny cfg with
      | None => true
      | Some (Some b) => b
      | Some None => false
      end.
Proof.
  split.
  - intros H. unfold TransactionMapper.mapToTransaction, createTransaction in H.
    injection H as <- _. simpl. split; [|reflexivity].
    now destruct (defaultCurrency cfg) as [[c|]|].
  - unfold abortOnDeny. simpl. now destruct (abortOnPolicyDeny cfg) as [[b|]|].
Qed.

End MappedCurrency.

(** X10 on 10^18 base units under the scheme "eth-exact": an adapter built
    from the empty configuration maps them to the amount 1 in USDC; one
    built from [{ defaultCurrency: undefined }] maps them to ETH. *)
Lemma X10_constructor_defaults_by_own_key_witness :
  let r := {| scheme := Some "eth-exact"; network := None;
              maxAmountRequired := Some "1000000000000000000";
              resource := None; description := None; payTo := Some "0xMerchant" |} in
  (exists tx w1,
     TransactionMapper.mapToTransaction sampleNumber samplePayload r
       (config (Adapter.new allowAll emptyConfig)) initialWorld = (Returned tx, w1)
     /\ currency tx = "USDC" /\ amount tx = 1%float)
  /\ (exists tx w1,
        TransactionMapper.mapToTransaction sampleNumber samplePayload r
          (config (Adapter.new allowAll undefinedKeysConfig)) initialWorld
          = (Returned tx, w1)
        /\ currency tx = "ETH")
  /\ Adapter.abortOnDeny (Adapter.new allowAll undefinedKeysConfig) = false.
Proof.
  intros r. split.
  - eexists _, _. split; [reflexivity|].
    edestruct (X10_constructor_defaults_by_own_key sampleNumber allowAll emptyConfig
                 samplePayload r initialWorld) as [H _].
    destruct (H eq_refl) as [Hc Ha]. split; [exact Hc|].
    rewrite Ha. reflexivity.
  - edestruct (X10_constructor_defaults_by_own_key sampleNumber allowAll
                 undefinedKeysConfig samplePayload r initialWorld) as [H Habort].
    split; [|exact Habort].
    eexists _, _. split; [reflexivity|].
    destruct (H eq_refl) as [Hc _]. exact Hc.
Defined.

Section HookFacts.
Import Engines Adapter.

Context (Number : string -> float).

(** X16.  The lifecycle hook handlers never drive the circuit breaker and
    never call a facilitator: each of the six leaves the breaker map and the
    facilitator call trace exactly as it found them, whatever the policy
    engine answers or throws. *)
Theorem X16_hooks_leave_breakers_and_facilitator_alone
    (self : PaySentryX402Adapter) (p : X402PaymentPayload)
    (r : X402PaymentRequirements) (vresp : X402VerifyResponse)
    (sresp : X402SettleResponse) (error : Thrown) (w : World) :
  let untouched (w' : World) := breakers w' = breakers w /\ calls w' = calls w in
  untouched (handleBeforeVerify Number self p r w).2
  /\ untouched (handleAfterVerify self p r vresp w).2
  /\ untouched (handleVerifyFailure self p r error w).2
  /\ untouched (handleBeforeSettle self p r w).2
  /\ untouched (handleAfterSettle Number self p r sresp w).2
  /\ untouched (handleSettleFailure self p r error w).2.
Proof.
  cbv zeta.
  unfold handleBeforeVerify, handleAfterVerify, handleVerifyFailure,
    handleBeforeSettle, handleAfterSettle, handleSettleFailure,
    TransactionMapper.mapToTransaction, createTransaction.
  run.
  repeat split;
    repeat match goal with
           | |- context [contexts w !! ?k] => destruct (contexts w !! k)
           | |- context [evaluate ?e ?w0 ?t] => destruct (evaluate e w0 t)
           | |- context [if ?c then _ else _] => destruct c
           end; reflexivity.
Qed.

(** X15.  [handleAfterSettle] always records the transaction in the tracker,
    with the status [completed] or [failed] the response implies, and hands
    it to the alert engine; it adds the transaction to the policy engine's
    spend counters only when the settlement succeeded. *)
Theorem X15_after_settle_counts_spend_only_on_success
    (self : PaySentryX402Adapter) (p : X402PaymentPayload)
    (r : X402PaymentRequirements) (resp : X402SettleResponse) (w : World) :
  let out := handleAfterSettle Number self p r resp w in
  exists tx,
    out.1 = Returned tt
    /\ status tx = (if success resp then completed else failed)
    /\ tracker out.2 = <[tx_id tx := tx]> (tracker w)
    /\ policySpend out.2
         = (if success resp then policySpend w ++ [tx] else policySpend w)
    /\ alerts out.2 = fmap (fun seen => seen ++ [tx]) (alerts w)
    /\ (transaction <$> contexts out.2 !! TransactionMapper.transactionKey p r)
         = Some tx.
Proof.
  cbv zeta. unfold handleAfterSettle, TransactionMapper.mapToTransaction,
    createTransaction. run.
  destruct (contexts w !! _) as [ctx|]; destruct (success resp) eqn:S; cbn;
    eexists; (split; [reflexivity|]);
    (split; [|split; [|split; [|split; [|rewrite lookup_insert_eq; reflexivity]]]]);
    reflexivity.
Qed.

(** X17.  For a fingerprint with no stored context, the [onAfterVerify],
    [onVerifyFailure], [onBeforeSettle] and [onSettleFailure] handlers do
    nothing at all: the state is unchanged, so a verification or settlement
    failure reported for an unknown payment is recorded nowhere. *)
Theorem X17_hooks_without_context_do_nothing
    (self : PaySentryX402Adapter) (p : X402PaymentPayload)
    (r : X402PaymentRequirements) (vresp : X402VerifyResponse)
    (error : Thrown) (w : World) :
  contexts w !! TransactionMapper.transactionKey p r = None ->
  handleAfterVerify self p r vresp w = (Returned tt, w)
  /\ handleVerifyFailure self p r error w = (Returned tt, w)
  /\ handleBeforeSettle self p r w = (Returned None, w)
  /\ handleSettleFailure self p r error w = (Returned tt, w).
Proof.
  intros H.
  unfold handleAfterVerify, handleVerifyFailure, handleBeforeSettle,
    handleSettleFailure.
  run. rewrite H. repeat split.
Qed.

End HookFacts.

(** X17 in a process that has just started. *)
Lemma X17_hooks_without_context_do_nothing_witness :
  let self := Adapter.new denyAll emptyConfig in
  Adapter.handleSettleFailure self samplePayload sampleRequirements
    (JsError "Request timeout") initialWorld = (Returned tt, initialWorld)
  /\ Adapter.handleVerifyFailure self samplePayload sampleRequirements
       (JsError "Request timeout") initialWorld = (Returned tt, initialWorld).
Proof.
  intros self.
  destruct (X17_hooks_without_context_do_nothing self samplePayload sampleRequirements
              {| isValid := true; invalidReason := None; v_payer := None |}
              (JsError "Request timeout") initialWorld (lookup_empty _))
    as (_ & H2 & _ & H4).
  split; [exact H4|exact H2].
Defined.

Section WrappedVerify.
Import Engines Adapter.

Context (Number : string -> float).
Context (self : PaySentryX402Adapter) (client : X402FacilitatorClient) (fkey : string).
Context (p : X402PaymentPayload) (r : X402PaymentRequirements).

Ltac start_verify Hmap Heval Hgo :=
  unfold wrapped_verify; run; rewrite Hmap; cbn beta iota; rewrite Heval, Hgo;
  unfold CircuitBreaker.execute.

(** X11.  When the policy allows the mapped transaction, the circuit
    breaker admits the call and the facilitator's [verify] returns, the
    wrapped [verify] returns that response unchanged (valid or not), counts
    a success on the breaker, appends an [execution] entry with the
    response's outcome, and stores a context for the fingerprint holding
    the transaction, the policy result and the response. *)
Theorem X11_wrapped_verify_forwards_allowed_payment
    (w w1 w3 : World) (tx : AgentTransaction) (result : PolicyEvaluation)
    (b' : BreakerState) (resp : X402VerifyResponse) :
  TransactionMapper.mapToTransaction Number p r (config self) w = (Returned tx, w1) ->
  evaluate (policyEngine self) w1 tx = Returned result ->
  allowed result = true ->
  let w2 := checked w1 tx result in
  CircuitBreaker.admission (breakerConfig self) (clock w2) fkey
    (CircuitBreaker.getOrCreate fkey (breakers w2)).1 = (b', None) ->
  verify client p r (entered (VerifyCall p r) fkey w2 b') = (Returned resp, w3) ->
  let out := wrapped_verify Number self client fkey p r w in
  out.1 = Returned resp
  /\ breakers out.2 = breakers (CircuitBreaker.update fkey CircuitBreaker.onSuccess w3)
  /\ calls out.2 = calls w3
  /\ provenance out.2 =
       fmap (fun log =>
         log ++ [{| pr_tx := tx_id tx; pr_stage := execution;
                    pr_outcome := outcomeOf (isValid resp);
                    pr_details := ExecutionDetails "verify" (isValid resp)
                                    (invalidReason resp) (v_payer resp);
                    pr_timestamp := clock w3 |}]) (provenance w3)
  /\ contexts out.2 !! TransactionMapper.transactionKey p r =
       Some {| transaction := tx; policyResult := Some result;
               verifyData := Some resp; settleData := None;
               timestamps := {| created := createdAt tx; verified := Some (clock w3);
                                settled := None |} |}.
Proof.
  intros Hmap Heval Hok w2 Hadm Hcall out. subst out w2. unfold checked, entered in *.
  run.
  assert (Hgo : negb (allowed result) && abortOnDeny self = false) by now rewrite Hok.
  start_verify Hmap Heval Hgo.
  destruct (CircuitBreaker.getOrCreate fkey _) as [b bs]. cbn [fst snd] in *.
  rewrite Hadm. run. rewrite Hcall. cbn.
  destruct w3; cbn. repeat split. apply lookup_insert_eq.
Qed.

(** X13.  With [abortOnPolicyDeny] false a denial does not stop the
    payment: the wrapped [verify] records [policy_check: fail], still calls
    the facilitator and returns its response, and the [onBeforeVerify] hook
    returns no abort instruction. *)
Theorem X13_denial_without_abort_is_only_logged
    (w w1 w3 : World) (tx : AgentTransaction) (result : PolicyEvaluation)
    (b' : BreakerState) (resp : X402VerifyResponse) :
  abortOnDeny self = false ->
  allowed result = false ->
  TransactionMapper.mapToTransaction Number p r (config self) w = (Returned tx, w1) ->
  (evaluate (policyEngine self) w1 tx = Returned result ->
   let w2 := checked w1 tx result in
   CircuitBreaker.admission (breakerConfig self) (clock w2) fkey
     (CircuitBreaker.getOrCreate fkey (breakers w2)).1 = (b', None) ->
   verify client p r (entered (VerifyCall p r) fkey w2 b') = (Returned resp, w3) ->
   (wrapped_verify Number self client fkey p r w).1 = Returned resp
   /\ provenance w2 =
        fmap (fun log =>
          log ++ [{| pr_tx := tx_id tx; pr_stage := policy_check; pr_outcome := fail;
                     pr_details := PolicyCheckDetails (action result) (reason result);
                     pr_timestamp := clock w1 |}]) (provenance w1)
   /\ calls (entered (VerifyCall p r) fkey w2 b') = calls w1 ++ [VerifyCall p r])
  /\
  (evaluate (policyEngine self)
     (after (recordIntent tx (IntentDetails "x402-lifecycle" (p_resource p))) w1) tx
     = Returned result ->
   (handleBeforeVerify Number self p r w).1 = Returned None).
Proof.
  intros Habort Hdenied Hmap. split.
  - intros Heval w2 Hadm Hcall. subst w2. unfold checked, entered in *. run.
    assert (Hgo : negb (allowed result) && abortOnDeny self = false)
      by (rewrite Habort; apply andb_false_r).
    split; [|split].
    + start_verify Hmap Heval Hgo.
      destruct (CircuitBreaker.getOrCreate fkey _) as [b bs]. cbn [fst snd] in *.
      rewrite Hadm. run. rewrite Hcall. reflexivity.
    + rewrite Hdenied. reflexivity.
    + destruct w1; reflexivity.
  - intros Heval. unfold handleBeforeVerify, after in *. run. rewrite Hmap.
    cbn beta iota. cbn [snd] in Heval. rewrite Heval. now rewrite Habort, andb_false_r.
Qed.

(** X14.  A wrapped [verify] that does not get a response stores no
    context.  If the circuit breaker rejects the call, the error is thrown,
    no facilitator is called, and only the policy check has been added to
    the trail.  If the facilitator throws, its error is rethrown, a failure
    is counted on the breaker, and neither an [execution] entry nor a
    context is written. *)
Theorem X14_verify_without_response_stores_no_context
    (w w1 : World) (tx : AgentTransaction) (result : PolicyEvaluation) :
  TransactionMapper.mapToTransaction Number p r (config self) w = (Returned tx, w1) ->
  evaluate (policyEngine self) w1 tx = Returned result ->
  allowed result = true ->
  let w2 := checked w1 tx result in
  let b := (CircuitBreaker.getOrCreate fkey (breakers w2)).1 in
  let out := wrapped_verify Number self client fkey p r w in
  (forall b' e,
     CircuitBreaker.admission (breakerConfig self) (clock w2) fkey b = (b', Some e) ->
     out.1 = Threw e
     /\ calls out.2 = calls w
     /\ contexts out.2 = contexts w
     /\ provenance out.2 = provenance w2)
  /\
  (forall b' e w3,
     CircuitBreaker.admission (breakerConfig self) (clock w2) fkey b = (b', None) ->
     verify client p r (entered (VerifyCall p r) fkey w2 b') = (Threw e, w3) ->
     out.1 = Threw e
     /\ contexts out.2 = contexts w3
     /\ provenance out.2 = provenance w3
     /\ breakers out.2 =
          breakers (CircuitBreaker.update fkey
                      (CircuitBreaker.onFailure (breakerConfig self) (clock w3)) w3)).
Proof.
  intros Hmap Heval Hok w2 b out. subst out b w2. unfold checked, entered in *. run.
  assert (Hgo : negb (allowed result) && abortOnDeny self = false) by now rewrite Hok.
  assert (Hw1 : calls w1 = calls w /\ contexts w1 = contexts w).
  { unfold TransactionMapper.mapToTransaction, createTransaction in Hmap.
    injection Hmap as _ <-. now destruct w. }
  destruct Hw1 as [Hc1 Hc2].
  split.
  - intros b' e Hadm. start_verify Hmap Heval Hgo.
    destruct (CircuitBreaker.getOrCreate fkey _) as [b bs]. cbn [fst snd] in *.
    rewrite Hadm. cbn. destruct w1; cbn in *. auto.
  - intros b' e w3 Hadm Hcall. start_verify Hmap Heval Hgo.
    destruct (CircuitBreaker.getOrCreate fkey _) as [b bs]. cbn [fst snd] in *.
    rewrite Hadm. run. rewrite Hcall. cbn. auto.
Qed.

End WrappedVerify.

(** X11 for the sample payment under an allowing policy, in a process that
    has just started. *)
Lemma X11_wrapped_verify_forwards_allowed_payment_witness :
  let out :=
    Adapter.wrapped_verify sampleNumber (Adapter.new allowAll emptyConfig)
      acceptingClient sampleKey samplePayload sampleRequirements initialWorld in
  out.1 = Returned {| isValid := true; invalidReason := None; v_payer := Some "0xAgent" |}
  /\ calls out.2 = [VerifyCall samplePayload sampleRequirements]
  /\ (tx_id <$> (transaction <$>
        contexts out.2 !! TransactionMapper.transactionKey samplePayload sampleRequirements))
       = Some "tx_0".
Proof.
  intros out.
  edestruct (X11_wrapped_verify_forwards_allowed_payment sampleNumber
               (Adapter.new allowAll emptyConfig) acceptingClient sampleKey
               samplePayload sampleRequirements initialWorld)
    as (H1 & _ & H3 & _ & H5);
    [reflexivity|reflexivity|reflexivity|reflexivity|reflexivity|].
  subst out. rewrite H1, H3, H5. repeat split.
Defined.

(** X13 for the sample payment under a policy that denies everything and
    [abortOnPolicyDeny: false]. *)
Lemma X13_denial_without_abort_is_only_logged_witness :
  let self := Adapter.new denyAll logOnlyConfig in
  (Adapter.wrapped_verify sampleNumber self acceptingClient sampleKey
     samplePayload sampleRequirements initialWorld).1
    = Returned {| isValid := true; invalidReason := None; v_payer := Some "0xAgent" |}
  /\ (Adapter.handleBeforeVerify sampleNumber self samplePayload sampleRequirements
        initialWorld).1 = Returned None.
Proof.
  intros self.
  edestruct (X13_denial_without_abort_is_only_logged sampleNumber self acceptingClient
               sampleKey samplePayload sampleRequirements initialWorld)
    as (Hwrap & Hhook); [reflexivity| |reflexivity|].
  2:{ split.
      - edestruct Hwrap as (H1 & _); [reflexivity|reflexivity|reflexivity|exact H1].
      - apply Hhook. reflexivity. }
  reflexivity.
Defined.

(** X14 with the breaker of the facilitator open (inside its cooldown), and
    with a facilitator that cannot be reached. *)
Lemma X14_verify_without_response_stores_no_context_witness :
  let self := Adapter.new allowAll emptyConfig in
  let rejected :=
    Adapter.wrapped_verify sampleNumber self acceptingClient sampleKey
      samplePayload sampleRequirements (worldWith openBreaker 2000) in
  let failed :=
    Adapter.wrapped_verify sampleNumber self unreachableClient sampleKey
      samplePayload sampleRequirements initialWorld in
  rejected.1 = Threw (CircuitBreakerOpenError sampleKey 29000)
  /\ calls rejected.2 = []
  /\ contexts rejected.2 = ∅
  /\ failed.1 = Threw (JsError "connect ECONNREFUSED")
  /\ contexts failed.2 = ∅.
Proof.
  intros self rejected failed.
  edestruct (X14_verify_without_response_stores_no_context sampleNumber self
               acceptingClient sampleKey samplePayload sampleRequirements
               (worldWith openBreaker 2000)) as (Hrej & _);
    [reflexivity|reflexivity|reflexivity|].
  edestruct (X14_verify_without_response_stores_no_context sampleNumber self
               unreachableClient sampleKey samplePayload sampleRequirements
               initialWorld) as (_ & Hfail);
    [reflexivity|reflexivity|reflexivity|].
  edestruct Hrej as (R1 & R2 & R3 & _); [reflexivity|].
  edestruct Hfail as (F1 & F2 & _); [reflexivity|reflexivity|].
  subst rejected failed. rewrite R1, R2, R3, F1, F2. repeat split.
Defined.

Section WrappedSettle.
Import Engines Adapter.

Context (Number : string -> float).
Context (self : PaySentryX402Adapter) (client : X402FacilitatorClient) (fkey : string).
Context (p : X402PaymentPayload) (r : X402PaymentRequirements).


(** X19.  A wrapped [settle] that the policy denies (under
    [abortOnPolicyDeny]) answers [success: false] and changes nothing but
    the trail: the tracker, the spend counters, the contexts, the breaker
    and the call trace are as before, and the stored transaction keeps the
    status it had. *)
Theorem X19_denied_settle_changes_only_the_trail
    (w : World) (ctx : X402TransactionContext) (result : PolicyEvaluation) :
  contexts w !! TransactionMapper.transactionKey p r = Some ctx ->
  evaluate (policyEngine self) w (transaction ctx) = Returned result ->
  allowed result = false ->
  abortOnDeny self = true ->
  wrapped_settle Number self client fkey p r w =
    (Returned {| success := false; txHash := None; s_network := None |},
     set_provenance
       (fmap (fun log =>
          log ++ [{| pr_tx := tx_id (transaction ctx); pr_stage := settlement;
                     pr_outcome := fail;
                     pr_details :=
                       SettlementReasonDetails
                         ("Policy denied at settlement: " +:+ reason result);
                     pr_timestamp := clock w |}])) w).
Proof.
  intros Hctx Heval Hdenied Habort.
  unfold wrapped_settle. run. rewrite Hctx. run. rewrite Heval, Hdenied, Habort.
  reflexivity.
Qed.

End WrappedSettle.


(** X19 after a verify that the policy allowed and a settle that it denies. *)
Lemma X19_denied_settle_changes_only_the_trail_witness :
  let verified :=
    after (Adapter.wrapped_verify sampleNumber (Adapter.new allowAll emptyConfig)
             acceptingClient sampleKey samplePayload sampleRequirements) initialWorld in
  let out :=
    Adapter.wrapped_settle sampleNumber (Adapter.new denyAll emptyConfig)
      acceptingClient sampleKey samplePayload sampleRequirements verified in
  out.1 = Returned {| success := false; txHash := None; s_network := None |}
  /\ tracker out.2 = tracker verified
  /\ calls out.2 = calls verified
  /\ contexts out.2 = contexts verified.
Proof.
  intros verified out. subst out.
  erewrite (X19_denied_settle_changes_only_the_trail sampleNumber
              (Adapter.new denyAll emptyConfig) acceptingClient sampleKey
              samplePayload sampleRequirements verified);
    [|reflexivity|reflexivity|reflexivity|reflexivity].
  repeat split.
Defined.

Section HookFlow.
Import Engines Adapter.

Context (Number : string -> float).

(** X18.  One payment driven through the four hooks in order
    ([onBeforeVerify], [onAfterVerify], [onBeforeSettle], [onAfterSettle])
    under a policy that allows it: a single transaction is created, the
    trail gains exactly four entries for it, in stage order (intent,
    policy check, execution, settlement) with the outcomes of the verify and
    settle responses, and the tracker holds the transaction with its final
    status. *)
Theorem X18_hook_flow_records_stages_in_order
    (self : PaySentryX402Adapter) (p : X402PaymentPayload)
    (r : X402PaymentRequirements) (vresp : X402VerifyResponse)
    (sresp : X402SettleResponse) (w : World) (log : list ProvenanceRecord) :
  (forall w' tx, exists res,
     evaluate (policyEngine self) w' tx = Returned res /\ allowed res = true) ->
  provenance w = Some log ->
  let w1 := after (handleBeforeVerify Number self p r) w in
  let w2 := after (handleAfterVerify self p r vresp) w1 in
  let w3 := after (handleBeforeSettle self p r) w2 in
  let w4 := after (handleAfterSettle Number self p r sresp) w3 in
  let brief e := (pr_tx e, pr_stage e, pr_outcome e) in
  let id := "tx_" +:+ pretty (nextTxId w) in
  fmap (map brief) (provenance w4)
    = Some (map brief log ++
            [(id, intent, pass); (id, policy_check, pass);
             (id, execution, outcomeOf (isValid vresp));
             (id, settlement, outcomeOf (success sresp))])
  /\ (status <$> tracker w4 !! id)
       = Some (if success sresp then completed else failed)
  /\ nextTxId w4 = N.succ (nextTxId w).
Proof.
  intros Hallow Hlog w1 w2 w3 w4 brief id.
  assert (H1 : exists res tx,
            allowed res = true /\ tx_id tx = id /\
            w1 = set_contexts
                   (fun m => <[TransactionMapper.transactionKey p r :=
                       {| transaction := tx; policyResult := Some res;
                          verifyData := None; settleData := None;
                          timestamps := {| created := createdAt tx; verified := None;
                                           settled := None |} |}]> m)
                   (set_provenance
                      (fun _ => Some (log ++
                         [{| pr_tx := id; pr_stage := intent; pr_outcome := pass;
                             pr_details :=
                               IntentDetails "x402-lifecycle" (p_resource p);
                             pr_timestamp := clock w |};
                          {| pr_tx := id; pr_stage := policy_check; pr_outcome := pass;
                             pr_details := policyDetails res;
                             pr_timestamp := clock w |}]))
                      (set_nextTxId N.succ w))).
  { destruct (mapToTransaction_returns Number p r (config self) w)
      as (tx & Hmap & _ & Hid & _).
    subst w1. unfold after, handleBeforeVerify. run. rewrite Hmap. cbn beta iota.
    match goal with |- context [evaluate _ ?w0 ?t] =>
      destruct (Hallow w0 t) as (res & Hev & Hok); rewrite Hev end.
    exists res, tx. split; [exact Hok|]. split; [exact Hid|].
    rewrite Hok. cbn. unfold set_contexts, set_provenance, set_nextTxId. cbn.
    rewrite Hlog, Hid. cbn. rewrite <- app_assoc. reflexivity. }
  destruct H1 as (res & tx & Hok & Hid & Hw1).
  subst w4 w3 w2. rewrite Hw1. clear Hw1 w1.
  unfold after, handleAfterVerify, handleBeforeSettle, handleAfterSettle. run.
  destruct w as [? ? ? ctxs ? ? ? ? ?]; cbn in *.
  rewrite !lookup_insert_eq. cbn. rewrite !lookup_insert_eq. cbn.
  match goal with |- context [evaluate _ ?w0 ?t] =>
    destruct (Hallow w0 t) as (res2 & Hev2 & Hok2); rewrite Hev2 end.
  rewrite Hok2. cbn. rewrite !lookup_insert_eq. cbn.
  subst brief. rewrite Hid.
  destruct (success sresp); cbn; rewrite ?Hid, lookup_insert_eq; cbn;
    rewrite !map_app; cbn; rewrite <- !app_assoc; cbn; auto.
Qed.

End HookFlow.

(** X18 for the sample payment in a process that has just started, with a
    valid verification and a successful settlement. *)
Lemma X18_hook_flow_records_stages_in_order_witness :
  let self := Adapter.new allowAll emptyConfig in
  let w1 := after (Adapter.handleBeforeVerify sampleNumber self samplePayload
                     sampleRequirements) initialWorld in
  let w2 := after (Adapter.handleAfterVerify self samplePayload sampleRequirements
                     {| isValid := true; invalidReason := None; v_payer := None |}) w1 in
  let w3 := after (Adapter.handleBeforeSettle self samplePayload sampleRequirements) w2 in
  let w4 := after (Adapter.handleAfterSettle sampleNumber self samplePayload
                     sampleRequirements
                     {| success := true; txHash := Some "0xabc"; s_network := None |}) w3 in
  fmap (map (fun e => (pr_tx e, pr_stage e, pr_outcome e))) (provenance w4)
    = Some [("tx_0", intent, pass); ("tx_0", policy_check, pass);
            ("tx_0", execution, pass); ("tx_0", settlement, pass)]
  /\ (status <$> tracker w4 !! "tx_0") = Some completed.
Proof.
  intros self w1 w2 w3 w4.
  destruct (X18_hook_flow_records_stages_in_order sampleNumber self samplePayload
              sampleRequirements
              {| isValid := true; invalidReason := None; v_payer := None |}
              {| success := true; txHash := Some "0xabc"; s_network := None |}
              initialWorld []
              (fun _ _ => ex_intro _ _ (conj eq_refl eq_refl)) eq_refl)
    as (H1 & H2 & _).
  split; [exact H1|exact H2].
Defined.

Section Enrichment.
Import Engines Adapter Extension.

Context (Number : string -> float).

(** X21.  [enrichSettlementResponse] reports what the context map holds for
    the fingerprint.  With no context it reports [recorded: false], no
    transaction id and the policy action ['unknown'].  After
    [onBeforeVerify] it reports [recorded: true] and the action of that
    evaluation, also for a payment the policy denied.  After an
    [onAfterSettle] that had to synthesize the context (verify was skipped)
    it reports [recorded: true] with the new transaction id, and the policy
    action ['unknown']. *)
Theorem X21_enrichment_reports_stored_context
    (self : PaySentryX402Adapter) (sessionId : string) (resp : X402SettleResponse)
    (p : X402PaymentPayload) (r : X402PaymentRequirements) (w : World) :
  (getContext p r w = None ->
     enrichSettlementResponse sessionId resp p r w
       = {| e_sessionId := sessionId; e_transactionId := None;
            e_policyAction := "unknown"; e_recorded := false;
            e_timestamps := None |})
  /\
  (forall tx w1 res,
     TransactionMapper.mapToTransaction Number p r (config self) w = (Returned tx, w1) ->
     evaluate (policyEngine self)
       (after (recordIntent tx (IntentDetails "x402-lifecycle" (p_resource p))) w1) tx
       = Returned res ->
     let e := enrichSettlementResponse sessionId resp p r
                (after (handleBeforeVerify Number self p r) w) in
     e_recorded e = true
     /\ e_policyAction e = actionName (action res)
     /\ e_transactionId e = Some (tx_id tx))
  /\
  (getContext p r w = None ->
     let e := enrichSettlementResponse sessionId resp p r
                (after (handleAfterSettle Number self p r resp) w) in
     e_recorded e = true
     /\ e_policyAction e = "unknown"
     /\ e_transactionId e = Some ("tx_" +:+ pretty (nextTxId w))).
Proof.
  unfold getContext, enrichSettlementResponse. split; [|split].
  - intros ->. reflexivity.
  - intros tx w1 res Hmap Heval. unfold after, handleBeforeVerify in *. run.
    rewrite Hmap. cbn beta iota. cbn [snd] in Heval. rewrite Heval.
    destruct (negb (allowed res) && abortOnDeny self); cbn;
      rewrite lookup_insert_eq; auto.
  - intros Hnone. unfold after, handleAfterSettle,
      TransactionMapper.mapToTransaction, createTransaction. run.
    rewrite Hnone. cbn. destruct (success resp); cbn;
      rewrite lookup_insert_eq; auto.
Qed.

End Enrichment.

(** X21 for the sample payment: in a process that has just started, after a
    pre-verify check that denied it, and after a settle-only flow. *)
Lemma X21_enrichment_reports_stored_context_witness :
  let self := Adapter.new denyAll emptyConfig in
  let ok := {| success := true; txHash := Some "0xabc"; s_network := None |} in
  let enrich := Extension.enrichSettlementResponse "ps_session_1" ok
                  samplePayload sampleRequirements in
  Extension.e_recorded (enrich initialWorld) = false
  /\ Extension.e_policyAction
       (enrich (after (Adapter.handleBeforeVerify sampleNumber self samplePayload
                         sampleRequirements) initialWorld)) = "deny"
  /\ Extension.e_policyAction
       (enrich (after (Adapter.handleAfterSettle sampleNumber self samplePayload
                         sampleRequirements ok) initialWorld)) = "unknown".
Proof.
  intros self ok enrich.
  destruct (X21_enrichment_reports_stored_context sampleNumber self "ps_session_1" ok
              samplePayload sampleRequirements initialWorld) as (H1 & H2 & H3).
  split; [|split].
  - subst enrich. cbv beta. rewrite (H1 (lookup_empty _)). reflexivity.
  - edestruct H2 as (_ & Ha & _); [reflexivity|reflexivity|].
    subst enrich. cbv beta. rewrite Ha. reflexivity.
  - destruct (H3 (lookup_empty _)) as (_ & Ha & _). exact Ha.
Defined.

(* ===================================================================== *)
(** * Properties of the MCP server configuration *)
(* ===================================================================== *)

Section LoadConfig.
Import McpServer.

Context (parseFloat : string -> float).

Lemma orElse_truthy x fallback : falsy fallback = false -> falsy (orElse x fallback) = false.
Proof. intros H. unfold orElse. destruct (falsy x) eqn:E; [exact H|exact E]. Qed.

(** X20.  Each of the five limits [loadConfig] returns is read from its own
    environment variable: [maxPerTransaction] from PAYSENTRY_MAX_PER_TX
    (default 100), [maxDaily] from PAYSENTRY_MAX_DAILY (500), [maxHourly]
    from PAYSENTRY_MAX_HOURLY (200), [approvalThreshold] from
    PAYSENTRY_APPROVAL_ABOVE (50) and the sandbox's [initialBalance] from
    PAYSENTRY_INITIAL_BALANCE (10000).  What [parseFloat] makes of the
    variable (of the empty string when it is unset) is taken as it is, a
    negative number included, unless it is NaN or 0: then the default is
    used, so a limit cannot be set to 0 and no limit is ever 0 or NaN.  The
    policy and the alert rules both get PAYSENTRY_CURRENCY, or USD when it
    is unset; every other setting is the default's. *)
Theorem X20_loadConfig_limits_fall_back (env : gmap string string) :
  let c := loadConfig parseFloat env in
  let limit (name : string) (fallback : float) : float :=
    let parsed := parseFloat (default "" (env !! name)) in
    if PrimFloat.is_nan parsed || PrimFloat.eqb parsed 0%float then fallback else parsed in
  (maxPerTransaction (policy c) = limit "PAYSENTRY_MAX_PER_TX" 100%float
   /\ maxDaily (policy c) = limit "PAYSENTRY_MAX_DAILY" 500%float
   /\ maxHourly (policy c) = limit "PAYSENTRY_MAX_HOURLY" 200%float
   /\ approvalThreshold (policy c) = limit "PAYSENTRY_APPROVAL_ABOVE" 50%float
   /\ initialBalance (sandbox c) = limit "PAYSENTRY_INITIAL_BALANCE" 10000%float)
  /\ (forall name fallback,
        env !! name = None ->
        falsy (parseFloat "") = true ->
        limit name fallback = fallback)
  /\ (forall name fallback raw,
        env !! name = Some raw ->
        limit name fallback
          = (if falsy (parseFloat raw) then fallback else parseFloat raw))
  /\ (falsy (maxPerTransaction (policy c)) = false
      /\ falsy (maxDaily (policy c)) = false
      /\ falsy (maxHourly (policy c)) = false
      /\ falsy (approvalThreshold (policy c)) = false
      /\ falsy (initialBalance (sandbox c)) = false)
  /\ (pc_currency (policy c) = default "USD" (env !! "PAYSENTRY_CURRENCY")
      /\ ac_currency (alertsConfig c) = default "USD" (env !! "PAYSENTRY_CURRENCY"))
  /\ (pc_id (policy c) = "mcp-default"
      /\ largeTransactionThreshold (alertsConfig c) = 50%float
      /\ rateSpikeMaxPerMinute (alertsConfig c) = 5%float
      /\ latencyMs (sandbox c) = 50%float
      /\ failureRate (sandbox c) = 0%float
      /\ serverName c = "paysentry-mcp-payment-server"
      /\ serverVersion c = "0.1.0"
      /\ sc_defaultAgentId c = "mcp-agent").
Proof.
  cbv zeta. split; [|split; [|split; [|split; [|split]]]].
  - repeat split; reflexivity.
  - intros name fallback Hn Hf. rewrite Hn. cbn [default from_option id].
    unfold falsy in Hf. now rewrite Hf.
  - intros name fallback raw Hr. rewrite Hr. reflexivity.
  - unfold loadConfig. cbn. repeat split; apply orElse_truthy; reflexivity.
  - split; reflexivity.
  - repeat split; reflexivity.
Qed.

End LoadConfig.

(** X20 on an environment that asks for 250 per transaction, 0 per day, -5
    per hour and euros, and leaves the rest unset. *)
Lemma X20_loadConfig_limits_fall_back_witness :
  let c := McpServer.loadConfig sampleParseFloat sampleEnv in
  McpServer.maxPerTransaction (McpServer.policy c) = 250%float
  /\ McpServer.maxDaily (McpServer.policy c) = 500%float
  /\ McpServer.maxHourly (McpServer.policy c) = (-5)%float
  /\ McpServer.approvalThreshold (McpServer.policy c) = 50%float
  /\ McpServer.initialBalance (McpServer.sandbox c) = 10000%float
  /\ McpServer.pc_currency (McpServer.policy c) = "EUR"
  /\ McpServer.ac_currency (McpServer.alertsConfig c) = "EUR".
Proof.
  intros c.
  destruct (X20_loadConfig_limits_fall_back sampleParseFloat sampleEnv)
    as ((Htx & Hday & Hhour & Happroval & Hbalance) & Hunset & Hset & _
        & (Hpolicy & Halerts) & _).
  fold c in Htx, Hday, Hhour, Happroval, Hbalance, Hpolicy, Halerts.
  rewrite Htx, Hday, Hhour, Happroval, Hbalance, Hpolicy, Halerts.
  rewrite (Hset "PAYSENTRY_MAX_PER_TX" 100%float "250" eq_refl).
  rewrite (Hset "PAYSENTRY_MAX_DAILY" 500%float "0" eq_refl).
  rewrite (Hset "PAYSENTRY_MAX_HOURLY" 200%float "-5" eq_refl).
  rewrite (Hunset "PAYSENTRY_APPROVAL_ABOVE" 50%float eq_refl eq_refl).
  rewrite (Hunset "PAYSENTRY_INITIAL_BALANCE" 10000%float eq_refl eq_refl).
  repeat split; reflexivity.
Defined.

Section EvaluationErrors.
Import Engines Adapter.

Context (Number : string -> float).

(** X22.  An error thrown by the policy engine is handled differently on
    the two surfaces.  The wrapped [verify] and [settle] let it propagate
    to the caller: the facilitator is not called and nothing is recorded
    (the wrapped [verify] has only consumed a transaction id).  The
    [onBeforeSettle] hook catches it and returns no abort instruction,
    leaving the state unchanged, so the settlement goes ahead. *)
Theorem X22_evaluation_error_propagates_or_is_swallowed
    (self : PaySentryX402Adapter) (client : X402FacilitatorClient) (fkey : string)
    (p : X402PaymentPayload) (r : X402PaymentRequirements) (w : World) (e : Thrown) :
  (forall tx w1,
     TransactionMapper.mapToTransaction Number p r (config self) w = (Returned tx, w1) ->
     evaluate (policyEngine self) w1 tx = Threw e ->
     wrapped_verify Number self client fkey p r w = (Threw e, set_nextTxId N.succ w))
  /\
  (forall ctx,
     contexts w !! TransactionMapper.transactionKey p r = Some ctx ->
     evaluate (policyEngine self) w (transaction ctx) = Threw e ->
     wrapped_settle Number self client fkey p r w = (Threw e, w)
     /\ handleBeforeSettle self p r w = (Returned None, w)).
Proof.
  split.
  - intros tx w1 Hmap Heval. unfold wrapped_verify. run. rewrite Hmap.
    cbn beta iota. rewrite Heval.
    unfold TransactionMapper.mapToTransaction, createTransaction in Hmap.
    now injection Hmap as _ <-.
  - intros ctx Hctx Heval. split.
    + unfold wrapped_settle. run. rewrite Hctx. run. now rewrite Heval.
    + unfold handleBeforeSettle. run. rewrite Hctx. now rewrite Heval.
Qed.

End EvaluationErrors.

(** X22 for the sample payment with a policy engine that throws: on a fresh
    process for [verify], and after a verify hook stored a context for
    [settle] and the settle hook. *)
Lemma X22_evaluation_error_propagates_or_is_swallowed_witness :
  let e := JsError "Policy has no currency" in
  let self := Adapter.new (brokenEngine e) emptyConfig in
  let stored :=
    after (Adapter.handleBeforeVerify sampleNumber (Adapter.new allowAll emptyConfig)
             samplePayload sampleRequirements) initialWorld in
  (Adapter.wrapped_verify sampleNumber self acceptingClient sampleKey
     samplePayload sampleRequirements initialWorld).1 = Threw e
  /\ Adapter.wrapped_settle sampleNumber self acceptingClient sampleKey
       samplePayload sampleRequirements stored = (Threw e, stored)
  /\ Adapter.handleBeforeSettle self samplePayload sampleRequirements stored
     = (Returned None, stored).
Proof.
  intros e self stored.
  destruct (X22_evaluation_error_propagates_or_is_swallowed sampleNumber self
              acceptingClient sampleKey samplePayload sampleRequirements
              initialWorld e) as [Hv _].
  destruct (X22_evaluation_error_propagates_or_is_swallowed sampleNumber self
              acceptingClient sampleKey samplePayload sampleRequirements
              stored e) as [_ Hs].
  split.
  - erewrite Hv; reflexivity.
  - edestruct Hs as [H1 H2]; [reflexivity|reflexivity|]. split; [exact H1|exact H2].
Defined.
